(** * auto-x: orchestration, planning and store consistency

    A shallow embedding of the parts of the repository that sequence the
    scrape / filter / engage cycle ([src/main.js]), plan engagement
    activities ([EngagementScheduler]) and talk to the spreadsheet that
    serves as the system of record ([src/GoogleSheetsManager.js]), together
    with the filter ([src/FilterEngine.js]) and the demo scraper
    ([src/mockleadscraper.js]) that the cycle calls.

    Asynchronous JavaScript with exceptions is embedded in a state and
    error monad over a [World].  Everything the program cannot control
    (network outcomes, what a read of the sheet shows, the operator's
    control cell, the wall clock, [Math.random]) is supplied by an
    environment [Env] and indexed by a logical time that advances at every
    interaction, so a statement quantified over [Env] covers every
    behaviour of the collaborators. *)

From stdpp Require Import base decidable option list strings gmap.
From Stdlib Require Import Ascii ZArith QArith Qround Permutation Sorted DecimalString
  DecimalPos.

Close Scope Q_scope.
Local Open Scope Z_scope.
Local Open Scope nat_scope.
Local Open Scope string_scope.
Local Open Scope list_scope.

(** ** JavaScript string primitives used by the program *)

Module JS.

(** [String.prototype.toUpperCase], on the ASCII range. *)
Definition upper_ascii (c : Ascii.ascii) : Ascii.ascii :=
  let n := Ascii.nat_of_ascii c in
  if (97 <=? n)%nat && (n <=? 122)%nat then Ascii.ascii_of_nat (n - 32) else c.

Fixpoint toUpperCase (s : string) : string :=
  match s with
  | EmptyString => EmptyString
  | String c s' => String (upper_ascii c) (toUpperCase s')
  end.

Fixpoint startsWith (p s : string) : bool :=
  match p, s with
  | EmptyString, _ => true
  | String a p', String b s' => if Ascii.eqb a b then startsWith p' s' else false
  | String _ _, EmptyString => false
  end.

(** [String.prototype.includes]. *)
Fixpoint includes (needle hay : string) : bool :=
  match hay with
  | EmptyString => startsWith needle EmptyString
  | String _ hay' => startsWith needle hay || includes needle hay'
  end.

(** Truthiness of a string value: only the empty string is falsy. *)
Definition truthy (s : string) : bool :=
  match s with EmptyString => false | _ => true end.

(** [a || b] on strings. *)
Definition or_else (a b : string) : string := if truthy a then a else b.

(** [String.prototype.substring(0, n)]. *)
Fixpoint substring0 (n : nat) (s : string) : string :=
  match n, s with
  | S n', String c s' => String c (substring0 n' s')
  | _, _ => EmptyString
  end.

End JS.

(** ** Results, and the monad of effectful code *)

Inductive result (A : Type) : Type :=
| Ok (a : A)
| Throw (msg : string).
Arguments Ok {A} a.
Arguments Throw {A} msg.

(** The thirteen columns of the 'Leads' worksheet, plus the row number the
    spreadsheet library attaches to a fetched row. A cell is a string; an
    empty cell reads as the empty string. *)
Record Row := mkRow {
  rowNumber : nat;
  colTimestamp : string;
  colUsername : string;
  colProfileURL : string;
  colBio : string;
  colFollowerCount : Z;
  colKeyword : string;
  colFilterStatus : string;
  colFilterReason : string;
  colVerified : string;
  colDMStatus : string;
  colDMSentDate : string;
  colLastError : string;
  colErrorTimestamp : string
}.

(** A lead as the scrapers produce it. *)
Record ScrapedLead := mkScraped {
  sl_username : string;
  sl_profileUrl : string;
  sl_bio : string;
  sl_followersCount : Z;
  sl_keyword : string;
  sl_isVerified : bool;
  sl_scrapedAt : string
}.

(** What the 'Control' worksheet looks like to a reader: absent, or its
    data rows (the "Kill Switch" cell of each; [None] for an empty cell). *)
Inductive ControlSheet :=
| ControlMissing
| ControlRows (cells : list (option string)).

(** One reading of the wall clock with the local-calendar values the
    scheduler derives from it: today's 09:00 and 18:00, the same two
    instants one calendar day later, the local date string and the ISO
    rendering of the instant. Instants are milliseconds since the epoch. *)
Record ClockReading := mkClock {
  now : Z;
  nine : Z;
  eighteen : Z;
  nine_next : Z;
  eighteen_next : Z;
  dateString : string;
  isoString : string
}.

(** Observable effects, in the order they happen. *)
Inductive Event :=
| EvCycleStart (n : nat)
| EvPhase (name : string)
| EvSleep (ms : Z)
| EvShutdown
| EvControlRead
| EvScrape (keyword : string)
| EvAddRow (r : Row)
| EvGetRows
| EvLoadInfo
| EvSaveRow (r : Row)
| EvEvaluate (username : string)
| EvSendDM (username : string) (message : option string)
| EvGetLatestTweetUrl (username : string)
| EvLikePost (url : string)
| EvRetweetPost (url : string)
| EvCommentOnPost (url : string) (comment : option string)
| EvBotClose
| EvSheetsClose.

(** The collaborators and the outside world. Every field takes the logical
    time of the interaction first. *)
Record Env := mkEnv {
  env_random : nat -> Q;
  env_clock : nat -> ClockReading;
  env_scrape : nat -> string -> result (option (list ScrapedLead));
  env_addRow : nat -> Row -> option string;
  env_loadInfo : nat -> result bool;
  env_getRows : nat -> list Row -> result (list Row);
  env_saveRow : nat -> Row -> option string;
  env_control : nat -> result ControlSheet;
  env_evaluate : nat -> string -> result (bool * string);
  env_sendDM : nat -> string -> option string -> option string;
  env_getLatestTweetUrl : nat -> string -> result (option string);
  env_likePost : nat -> string -> option string;
  env_retweetPost : nat -> string -> option string;
  env_commentOnPost : nat -> string -> option string -> option string
}.

(** The scheduler's per-day counters. *)
Record DailyCounters := mkCounters {
  cnt_dm : nat;
  cnt_likes : nat;
  cnt_retweets : nat;
  cnt_comments : nat;
  lastReset : string
}.

(** Mutable state reachable from the phases of a cycle. *)
Record World := mkWorld {
  leadsSheet : list Row;
  tick : nat;
  trace : list Event;
  dailyCounters : DailyCounters
}.

Definition M (A : Type) : Type := World -> result A * World.

Definition ret {A} (a : A) : M A := fun w => (Ok a, w).

Definition throw {A} (msg : string) : M A := fun w => (Throw msg, w).

Definition bind {A B} (m : M A) (k : A -> M B) : M B :=
  fun w => match m w with
           | (Ok a, w') => k a w'
           | (Throw msg, w') => (Throw msg, w')
           end.

(** [try { m } catch (error) { h error.message }] *)
Definition try_catch {A} (m : M A) (h : string -> M A) : M A :=
  fun w => match m w with
           | (Ok a, w') => (Ok a, w')
           | (Throw msg, w') => h msg w'
           end.

Declare Scope js_scope.
Delimit Scope js_scope with js.
Notation "x ← y ; z" := (bind y (fun x => z))
  (at level 20, y at level 100, z at level 200, only parsing) : js_scope.
Notation "' x ← y ; z" := (bind y (fun x => z))
  (at level 20, x pattern, y at level 100, z at level 200, only parsing) : js_scope.
Notation "x ;; z" := (bind x (fun _ => z))
  (at level 100, z at level 200, only parsing, right associativity) : js_scope.
Open Scope js_scope.

(** Advance the logical time and hand out the time of this interaction. *)
Definition next_tick : M nat :=
  fun w => (Ok (tick w),
            {| leadsSheet := leadsSheet w; tick := S (tick w);
               trace := trace w; dailyCounters := dailyCounters w |}).

Definition emit (e : Event) : M unit :=
  fun w => (Ok tt,
            {| leadsSheet := leadsSheet w; tick := tick w;
               trace := trace w ++ [e]; dailyCounters := dailyCounters w |}).

Definition get_sheet : M (list Row) := fun w => (Ok (leadsSheet w), w).

Definition put_sheet (rows : list Row) : M unit :=
  fun w => (Ok tt,
            {| leadsSheet := rows; tick := tick w;
               trace := trace w; dailyCounters := dailyCounters w |}).

Definition get_counters : M DailyCounters := fun w => (Ok (dailyCounters w), w).

Definition put_counters (c : DailyCounters) : M unit :=
  fun w => (Ok tt,
            {| leadsSheet := leadsSheet w; tick := tick w;
               trace := trace w; dailyCounters := c |}).

(** [await this.sleep(ms)] *)
Definition sleep (ms : Z) : M unit :=
  _ ← next_tick; emit (EvSleep ms).

(** Lift an outcome that is either success or an error message. *)
Definition lift_unit (o : option string) : M unit :=
  match o with None => ret tt | Some msg => throw msg end.

Definition lift_result {A} (r : result A) : M A :=
  match r with Ok a => ret a | Throw msg => throw msg end.

(** [for (const x of xs) { body x }], stopping at the first exception. *)
Fixpoint for_each {A} (xs : list A) (body : A -> M unit) : M unit :=
  match xs with
  | [] => ret tt
  | x :: xs' => body x;; for_each xs' body
  end.

(** ** The store adapter: [GoogleSheetsManager] *)

Module Sheets.

(** One requested status change of [batchUpdateLeadStatuses]. *)
Record Update := mkUpdate {
  upd_rowNumber : nat;
  upd_status : string;
  upd_reason : string
}.

(** A pending lead as [getUnfilteredLeads] returns it. *)
Record PendingLead := mkPending {
  pl_id : nat;
  pl_username : string;
  pl_bio : string;
  pl_followersCount : Z;
  pl_isVerified : bool
}.

(** A lead as [getLeadsForEngagement] returns it. *)
Record ReadyLead := mkReady {
  rl_id : nat;
  rl_username : string;
  rl_profileUrl : string;
  rl_bio : string
}.

Definition set_rowNumber (n : nat) (r : Row) : Row :=
  mkRow n (colTimestamp r) (colUsername r) (colProfileURL r) (colBio r)
        (colFollowerCount r) (colKeyword r) (colFilterStatus r)
        (colFilterReason r) (colVerified r) (colDMStatus r)
        (colDMSentDate r) (colLastError r) (colErrorTimestamp r).

(** [row.set("Filter Status", status); row.set("Filter Reason", reason)] *)
Definition set_filter (status reason : string) (r : Row) : Row :=
  mkRow (rowNumber r) (colTimestamp r) (colUsername r) (colProfileURL r)
        (colBio r) (colFollowerCount r) (colKeyword r) status reason
        (colVerified r) (colDMStatus r) (colDMSentDate r) (colLastError r)
        (colErrorTimestamp r).

(** [row.set("DM Status", "SENT"); row.set("DM Sent Date", date)] *)
Definition set_dm_sent (date : string) (r : Row) : Row :=
  mkRow (rowNumber r) (colTimestamp r) (colUsername r) (colProfileURL r)
        (colBio r) (colFollowerCount r) (colKeyword r) (colFilterStatus r)
        (colFilterReason r) (colVerified r) "SENT" date (colLastError r)
        (colErrorTimestamp r).

(** [row.set("Last Error", msg); row.set("Error Timestamp", date)] *)
Definition set_error (msg date : string) (r : Row) : Row :=
  mkRow (rowNumber r) (colTimestamp r) (colUsername r) (colProfileURL r)
        (colBio r) (colFollowerCount r) (colKeyword r) (colFilterStatus r)
        (colFilterReason r) (colVerified r) (colDMStatus r)
        (colDMSentDate r) msg date.

(** [new Date().toISOString()] *)
Definition nowIso (E : Env) : M string :=
  t ← next_tick; ret (isoString (env_clock E t)).

(** [worksheet.getRows()]: what a reader is shown of the sheet. *)
Definition getRows (E : Env) : M (list Row) :=
  t ← next_tick;
  emit EvGetRows;;
  rows ← get_sheet;
  lift_result (env_getRows E t rows).

(** [worksheet.addRow(data)]: the new row takes the next free line; line 1
    holds the headers. *)
Definition addRow (E : Env) (data : Row) : M unit :=
  t ← next_tick;
  rows ← get_sheet;
  let r := set_rowNumber (length rows + 2) data in
  emit (EvAddRow r);;
  lift_unit (env_addRow E t r);;
  put_sheet (rows ++ [r]).

(** [row.save()]: writes the fetched row object, as modified, over the
    line it was read from. *)
Definition save (E : Env) (r : Row) : M unit :=
  t ← next_tick;
  emit (EvSaveRow r);;
  lift_unit (env_saveRow E t r);;
  rows ← get_sheet;
  put_sheet ((fun old => if decide (rowNumber old = rowNumber r) then r else old)
               <$> rows).

(** [handleConnectionError] prints its diagnosis and rethrows the error it
    was given. *)
Definition handleConnectionError (msg : string) : M unit := throw msg.

Definition maxRetries : nat := 3.

Definition verificationFailed : string :=
  "Post-write content verification failed.".

Definition verificationErrorMsg : string :=
  "CRITICAL FAILURE: The script sent data to Google Sheets without API errors, but the data could not be found in the sheet afterwards. Please check that the service account has 'Editor' permissions on the Google Sheet.".

(** The row written for a lead. *)
Definition leadRow (lead : ScrapedLead) (timestamp : string) : Row :=
  mkRow 0 timestamp
        (JS.or_else (sl_username lead) "")
        (JS.or_else (sl_profileUrl lead) "")
        (JS.substring0 500 (JS.or_else (sl_bio lead) ""))
        (sl_followersCount lead)
        (JS.or_else (sl_keyword lead) "")
        "PENDING" ""
        (if sl_isVerified lead then "YES" else "NO")
        "NOT_SENT" "" "" "".

(** The leads of the batch a reading of the sheet does not show. *)
Definition unverifiedLeads (leads : list ScrapedLead) (currentRows : list Row)
  : list ScrapedLead :=
  let existingUsernames : gset string := list_to_set (colUsername <$> currentRows) in
  filter (fun l => sl_username l ∉ existingUsernames) leads.

(** One verification attempt: refresh the document, re-select the
    worksheet, read it and compare. A failed read counts as unverified. *)
Definition verifyAttempt (E : Env) (leads : list ScrapedLead) : M bool :=
  try_catch
    (t ← next_tick;
     emit EvLoadInfo;;
     present ← lift_result (env_loadInfo E t);
     if negb (present : bool)
     then throw "Could not re-select 'Leads' worksheet after refresh."
     else
       currentRows ← getRows E;
       ret (bool_decide (length (unverifiedLeads leads currentRows) = 0)))
    (fun _ => ret false).

(** [for (let i = 0; i < maxRetries; i++)] of [appendLeads], with
    [remaining = maxRetries - i]. Returns [allVerified]. *)
Fixpoint verifyLoop (E : Env) (leads : list ScrapedLead) (remaining i : nat)
  : M bool :=
  match remaining with
  | 0 => ret false
  | S remaining' =>
      sleep (7000 * (Z.of_nat i + 1));;
      verified ← verifyAttempt E leads;
      if (verified : bool) then ret true else verifyLoop E leads remaining' (S i)
  end.

(** The insertion loop of [appendLeads]: one [addRow] per lead; the first
    failure is diagnosed and rethrown, which ends the loop. *)
Definition insertAll (E : Env) (leads : list ScrapedLead) : M unit :=
  for_each leads (fun lead =>
    try_catch
      (timestamp ← (if JS.truthy (sl_scrapedAt lead)
                    then ret (sl_scrapedAt lead) else nowIso E);
       addRow E (leadRow lead timestamp))
      (fun msg =>
         handleConnectionError msg;;
         throw "Failed to write to Google Sheets. Aborting.")).

Definition appendLeads (E : Env) (leads : list ScrapedLead) : M unit :=
  match leads with
  | [] => ret tt
  | _ =>
      insertAll E leads;;
      allVerified ← verifyLoop E leads maxRetries 0;
      if (allVerified : bool) then ret tt
      else
        handleConnectionError verificationFailed;;
        throw verificationErrorMsg
  end.

Definition getUnfilteredLeads (E : Env) : M (list PendingLead) :=
  try_catch
    (rows ← getRows E;
     ret ((fun row => mkPending (rowNumber row) (colUsername row) (colBio row)
                                 (colFollowerCount row)
                                 (String.eqb (JS.toUpperCase (colVerified row)) "YES"))
             <$> filter (fun row =>
                           JS.toUpperCase (colFilterStatus row) = "PENDING") rows))
    (fun _ => ret []).

(** The loop of [batchUpdateLeadStatuses] that applies the updates to the
    fetched row objects. [rowMap] holds the objects by row number; the
    list returned names, in order, the objects pushed on [rowsToUpdate]. *)
Fixpoint applyUpdates (updates : list Update) (rowMap : gmap nat Row)
  : gmap nat Row * list nat :=
  match updates with
  | [] => (rowMap, [])
  | u :: rest =>
      match rowMap !! upd_rowNumber u with
      | Some row =>
          let rowMap' :=
            <[upd_rowNumber u := set_filter (upd_status u) (upd_reason u) row]> rowMap in
          let '(m, ks) := applyUpdates rest rowMap' in
          (m, upd_rowNumber u :: ks)
      | None => applyUpdates rest rowMap
      end
  end.

(** [new Map(rows.map(row => [row.rowNumber, row]))]: a later row with
    the same number replaces an earlier one. *)
Definition rowMapOf (rows : list Row) : gmap nat Row :=
  list_to_map (reverse ((fun row => (rowNumber row, row)) <$> rows)).

(** [for (const row of rowsToUpdate) await row.save()] *)
Definition saveAll (E : Env) (objects : gmap nat Row) (rowsToUpdate : list nat)
  : M unit :=
  for_each rowsToUpdate (fun k =>
    match objects !! k with
    | Some row => save E row
    | None => ret tt
    end).

Definition batchUpdateLeadStatuses (E : Env) (updates : list Update) : M unit :=
  match updates with
  | [] => ret tt
  | _ =>
      try_catch
        (rows ← getRows E;
         let '(objects, rowsToUpdate) := applyUpdates updates (rowMapOf rows) in
         saveAll E objects rowsToUpdate)
        (fun msg => throw msg)
  end.

Definition getLeadsForEngagement (E : Env) : M (list ReadyLead) :=
  try_catch
    (rows ← getRows E;
     ret ((fun row => mkReady (rowNumber row) (colUsername row)
                               (colProfileURL row) (colBio row))
             <$> filter (fun row =>
                           JS.toUpperCase (colFilterStatus row) = "PASS"
                           ∧ JS.toUpperCase (colDMStatus row) = "NOT_SENT") rows))
    (fun _ => ret []).

(** [rows.find(row => row.rowNumber === leadId)]; [leadId] may be
    [undefined], which no row number equals. *)
Definition findRow (leadId : option nat) (rows : list Row) : option Row :=
  match leadId with
  | None => None
  | Some n => find (fun row => bool_decide (rowNumber row = n)) rows
  end.

Definition markDMSent (E : Env) (leadId : option nat) : M unit :=
  try_catch
    (rows ← getRows E;
     match findRow leadId rows with
     | Some targetRow =>
         date ← nowIso E;
         save E (set_dm_sent date targetRow)
     | None => ret tt
     end)
    (fun _ => ret tt).

Definition logError (E : Env) (leadId : option nat) (errorMessage : string)
  : M unit :=
  try_catch
    (rows ← getRows E;
     match findRow leadId rows with
     | Some targetRow =>
         date ← nowIso E;
         save E (set_error (JS.substring0 500 errorMessage) date targetRow)
     | None => ret tt
     end)
    (fun _ => ret tt).

(** The status a reading of the 'Control' worksheet stands for: every
    failure, a missing sheet, an empty sheet and an empty cell all read
    as ["RUN"]. *)
Definition statusOf (reading : result ControlSheet) : string :=
  match reading with
  | Throw _ => "RUN"
  | Ok ControlMissing => "RUN"
  | Ok (ControlRows []) => "RUN"
  | Ok (ControlRows (cell :: _)) =>
      JS.toUpperCase (JS.or_else (default "" cell) "RUN")
  end.

(** Reading the control cell never throws. *)
Definition getKillSwitchStatus (E : Env) : M string :=
  t ← next_tick;
  emit EvControlRead;;
  ret (statusOf (env_control E t)).

Definition getAllUsernames (E : Env) : M (gset string) :=
  try_catch
    (rows ← getRows E;
     ret (list_to_set (filter (fun u => JS.truthy u) (colUsername <$> rows))))
    (fun _ => ret ∅).

Definition close : M unit := emit EvSheetsClose.

End Sheets.

(** ** Configuration: [src/config/config.js] *)

Module Config.

Record RateLimits := mkLimits {
  dmPerDay : Z;
  likesPerDay : Z;
  retweetsPerDay : Z;
  commentsPerDay : Z;
  actionsPerHour : Z
}.

Definition rateLimits : RateLimits := mkLimits 30 100 50 20 15.

Definition activitiesPerCycle : nat := 10.
Definition minDelayBetweenActions : Z := 30000.
Definition maxDelayBetweenActions : Z := 180000.

Definition retryDelay : Z := 5 * 60 * 1000.
Definition circuitBreakerThreshold : nat := 5.
Definition cycleWait : Z := 30 * 60 * 1000.

Definition keywords : list string :=
  [ "looking for betting tips"; "who to bet on tonight?";
    "need a good sports bet"; "best betting community?";
    "any good betting groups"; "help with my bets" ].
Definition leadsPerKeyword : nat := 5.
Definition delayBetweenKeywords_min : Z := 30000.
Definition delayBetweenKeywords_max : Z := 60000.

Definition messageTemplates : list string :=
  [ "Hi {username}! I came across your profile and found your work in {industry} really interesting. Would love to connect and learn more about what you're building!";
    "Hey {username}! Your recent posts about {topic} caught my attention. I'm working on something similar - would you be open to a quick chat?";
    "Hi there! I noticed we both are in the {industry} space. I'd love to connect and potentially collaborate. Are you open to new connections?" ].

Definition commentTemplates : list string :=
  [ "Great insight!"; "This is really valuable, thanks for sharing!";
    "Couldn't agree more with this perspective.";
    "Really interesting take on this!";
    "This resonates with my experience too."; "Thanks for sharing this!";
    "Well said!"; "Absolutely agree!"; "Great point!" ].

End Config.

(** ** The planner: [EngagementScheduler] *)

Module Scheduler.

Import Sheets.

Inductive Kind := dm | like | retweet | comment.

#[global] Instance Kind_eq_dec : EqDecision Kind.
Proof. solve_decision. Defined.

(** The [type] string of an activity. *)
Definition kind_name (k : Kind) : string :=
  match k with
  | dm => "dm" | like => "like" | retweet => "retweet" | comment => "comment"
  end.

(** A planned activity. [scheduledTime] is kept as the instant (in
    milliseconds) that its ISO string denotes. *)
Record Activity := mkActivity {
  type : Kind;
  leadId : nat;
  username : string;
  message : option string;
  postUrl : option string;
  commentText : option string;
  scheduledTime : Z;
  priority : Z
}.

(** The scheduler object: its limits, its templates; its counters live in
    the [World]. *)
Record Scheduler := mkScheduler {
  limits : Config.RateLimits;
  messageTemplates : list string;
  commentTemplates : list string
}.

(** Counters as the constructor and a reset leave them. *)
Definition freshCounters (today : string) : DailyCounters :=
  mkCounters 0 0 0 0 today.

Definition resetDailyCountersIfNeeded (E : Env) : M unit :=
  t ← next_tick;
  let today := dateString (env_clock E t) in
  c ← get_counters;
  if String.eqb (lastReset c) today then ret tt
  else put_counters (freshCounters today).

(** [Math.random()] *)
Definition random (E : Env) : M Q :=
  t ← next_tick; ret (env_random E t).

(** The integer a [Date] keeps of a fractional time value. *)
Definition js_trunc (q : Q) : Z :=
  if Qle_bool 0 q then Qfloor q else Qceiling q.

(** [Math.floor(Math.random() * n)] as an array index; [None] when the
    value is not an index. *)
Definition randomIndex (E : Env) (n : nat) : M (option nat) :=
  r ← random E;
  let i := Qfloor (r * inject_Z (Z.of_nat n)) in
  ret (if (0 <=? i)%Z then Some (Z.to_nat i) else None).

Definition getRandomTimeToday (E : Env) : M Z :=
  t ← next_tick;
  let c := env_clock E t in
  let '(startOfDay, endOfDay) :=
    if (now c >? eighteen c)%Z then (nine_next c, eighteen_next c)
    else (nine c, eighteen c) in
  r ← random E;
  ret (js_trunc (inject_Z startOfDay + r * inject_Z (endOfDay - startOfDay))).

Fixpoint skip (n : nat) (s : string) : string :=
  match n, s with
  | S n', String _ s' => skip n' s'
  | _, _ => s
  end.

(** What [String.prototype.replace] puts in the place of a match of a
    string pattern. In the replacement text, [$$] stands for a dollar sign,
    [$&] for the match, [$`] for what precedes the match and [$'] for what
    follows it. A string pattern captures nothing, so a dollar sign
    followed by anything else is kept as it is written. *)
Fixpoint getSubstitution (matched preceding following replacement : string)
  : string :=
  match replacement with
  | EmptyString => EmptyString
  | String c rest =>
      if Ascii.eqb c "$" then
        match rest with
        | EmptyString => String c EmptyString
        | String d rest' =>
            if Ascii.eqb d "$"
            then String d (getSubstitution matched preceding following rest')
            else if Ascii.eqb d "&"
            then matched +:+ getSubstitution matched preceding following rest'
            else if Ascii.eqb d "`"
            then preceding +:+ getSubstitution matched preceding following rest'
            else if Ascii.eqb d "'"
            then following +:+ getSubstitution matched preceding following rest'
            else String c (getSubstitution matched preceding following rest)
        end
      else String c (getSubstitution matched preceding following rest)
  end.

(** The search for the first occurrence of [pat], [preceding] being what
    has been passed over. *)
Fixpoint replace_from (preceding pat rep s : string) : string :=
  if JS.startsWith pat s
  then
    let following := skip (String.length pat) s in
    getSubstitution pat preceding following rep +:+ following
  else match s with
       | EmptyString => EmptyString
       | String c s' =>
           String c (replace_from (preceding +:+ String c EmptyString) pat rep s')
       end.

(** [s.replace(pat, rep)] for a string pattern: the first occurrence
    only. *)
Definition replace_first (pat rep s : string) : string :=
  replace_from EmptyString pat rep s.

Definition lower_ascii (c : Ascii.ascii) : Ascii.ascii :=
  let n := Ascii.nat_of_ascii c in
  if (65 <=? n)%nat && (n <=? 90)%nat then Ascii.ascii_of_nat (n + 32) else c.

Fixpoint toLowerCase (s : string) : string :=
  match s with
  | EmptyString => EmptyString
  | String c s' => String (lower_ascii c) (toLowerCase s')
  end.

Definition topicOf (bio : string) : string :=
  if JS.truthy bio then
    let bioLower := toLowerCase bio in
    if JS.includes "nba" bioLower || JS.includes "basketball" bioLower then "basketball"
    else if JS.includes "football" bioLower || JS.includes "nfl" bioLower then "football"
    else if JS.includes "soccer" bioLower || JS.includes "fifa" bioLower then "soccer"
    else if JS.includes "ufc" bioLower || JS.includes "mma" bioLower then "MMA"
    else if JS.includes "betting" bioLower || JS.includes "odds" bioLower then "sports betting"
    else if JS.includes "baseball" bioLower || JS.includes "mlb" bioLower then "baseball"
    else if JS.includes "hockey" bioLower || JS.includes "nhl" bioLower then "hockey"
    else "sports"
  else "sports".

(** A template index outside the array yields [undefined], the call of
    [replace] on it throws, and the handler returns the fixed greeting. *)
Definition generatePersonalizedMessage (E : Env) (S : Scheduler) (lead : ReadyLead)
  : M string :=
  i ← randomIndex E (length (messageTemplates S));
  ret (match i ≫= (fun i => messageTemplates S !! i) with
       | Some template =>
           replace_first "{topic}" (topicOf (rl_bio lead))
             (replace_first "{username}" (JS.or_else (rl_username lead) "friend")
                template)
       | None =>
           "Hi " +:+ JS.or_else (rl_username lead) "there" +:+ "! Would love to connect!"
       end).

Definition getRandomComment (E : Env) (S : Scheduler) : M (option string) :=
  i ← randomIndex E (length (commentTemplates S));
  ret (i ≫= (fun i => commentTemplates S !! i)).

(** [Math.max(0, limit - counter)] *)
Definition remaining (limit : Z) (counter : nat) : Z :=
  Z.max 0 (limit - Z.of_nat counter).

(** The doubles written [0.3] and [0.2] in the source. *)
Definition p_retweet : Q := 5404319552844595 # 18014398509481984.
Definition p_comment : Q := 7205759403792794 # 36028797018963968.

Definition Qlt_bool (a b : Q) : bool := negb (Qle_bool b a).

Definition profileOf (u : string) : string := "https://twitter.com/" +:+ u.

(** First loop of [createDailyPlan]: direct messages, in lead order,
    until [remainingDMs] are planned. Returns the activities pushed and
    the final [dmCount]. *)
Fixpoint planDMs (E : Env) (S : Scheduler) (remainingDMs : Z)
         (leads : list ReadyLead) (dmCount : nat) : M (list Activity * nat) :=
  match leads with
  | [] => ret ([], dmCount)
  | lead :: rest =>
      if (Z.of_nat dmCount >=? remainingDMs)%Z then ret ([], dmCount)
      else if negb (JS.truthy (rl_username lead))
      then planDMs E S remainingDMs rest dmCount
      else
        msg ← generatePersonalizedMessage E S lead;
        time ← getRandomTimeToday E;
        let a := mkActivity dm (rl_id lead) (rl_username lead) (Some msg)
                            None None time 1 in
        '(acts, n) ← planDMs E S remainingDMs rest (Datatypes.S dmCount);
        ret (a :: acts, n)
  end.

Definition planLike (E : Env) (remainingLikes : Z) (nLeads : nat)
           (lead : ReadyLead) (likeCount : nat) : M (list Activity * nat) :=
  if (Z.of_nat likeCount <? remainingLikes)%Z && (likeCount <? nLeads * 2)%nat
  then
    time ← getRandomTimeToday E;
    ret ([mkActivity like (rl_id lead) (rl_username lead) None
                     (Some (profileOf (rl_username lead))) None time 3],
         Datatypes.S likeCount)
  else ret ([], likeCount).

Definition planRetweet (E : Env) (remainingRetweets : Z)
           (lead : ReadyLead) (retweetCount : nat) : M (list Activity * nat) :=
  if (Z.of_nat retweetCount <? remainingRetweets)%Z
  then
    r ← random E;
    if Qlt_bool r p_retweet
    then
      time ← getRandomTimeToday E;
      ret ([mkActivity retweet (rl_id lead) (rl_username lead) None
                       (Some (profileOf (rl_username lead))) None time 2],
           Datatypes.S retweetCount)
    else ret ([], retweetCount)
  else ret ([], retweetCount).

Definition planComment (E : Env) (S : Scheduler) (remainingComments : Z)
           (lead : ReadyLead) (commentCount : nat) : M (list Activity * nat) :=
  if (Z.of_nat commentCount <? remainingComments)%Z
  then
    r ← random E;
    if Qlt_bool r p_comment
    then
      c ← getRandomComment E S;
      time ← getRandomTimeToday E;
      ret ([mkActivity comment (rl_id lead) (rl_username lead) None
                       (Some (profileOf (rl_username lead))) c time 2],
           Datatypes.S commentCount)
    else ret ([], commentCount)
  else ret ([], commentCount).

(** Second loop of [createDailyPlan]: likes, retweets and comments. *)
Fixpoint planEngagement (E : Env) (S : Scheduler)
         (remainingLikes remainingRetweets remainingComments : Z) (nLeads : nat)
         (leads : list ReadyLead) (counts : nat * nat * nat)
  : M (list Activity * (nat * nat * nat)) :=
  match leads with
  | [] => ret ([], counts)
  | lead :: rest =>
      if negb (JS.truthy (rl_username lead))
      then planEngagement E S remainingLikes remainingRetweets remainingComments
                          nLeads rest counts
      else
        let '(likeCount, retweetCount, commentCount) := counts in
        '(ls, likeCount') ← planLike E remainingLikes nLeads lead likeCount;
        '(rs, retweetCount') ← planRetweet E remainingRetweets lead retweetCount;
        '(cs, commentCount') ← planComment E S remainingComments lead commentCount;
        '(acts, final) ← planEngagement E S remainingLikes remainingRetweets
                           remainingComments nLeads rest
                           (likeCount', retweetCount', commentCount');
        ret ((ls ++ rs ++ cs ++ acts)%list, final)
  end.

(** The comparator handed to [activities.sort]. *)
Definition compareActivities (a b : Activity) : Z :=
  if negb (priority a =? priority b)%Z then (priority a - priority b)%Z
  else (scheduledTime a - scheduledTime b)%Z.

(** [Array.prototype.sort] is a stable sort; stable insertion is the
    reference implementation of that contract. *)
Fixpoint insertSorted (a : Activity) (l : list Activity) : list Activity :=
  match l with
  | [] => [a]
  | b :: l' =>
      if (compareActivities a b <=? 0)%Z then a :: l
      else b :: insertSorted a l'
  end.

Definition sortActivities (l : list Activity) : list Activity :=
  foldr insertSorted [] l.

(** [maxActivities ? activities.slice(0, maxActivities) : activities] *)
Definition limitActivities (maxActivities : option nat) (l : list Activity)
  : list Activity :=
  match maxActivities with
  | Some (Datatypes.S n) => take (Datatypes.S n) l
  | _ => l
  end.

Definition createDailyPlan (E : Env) (S : Scheduler) (leads : list ReadyLead)
           (maxActivities : option nat) : M (list Activity) :=
  try_catch
    (match leads with
     | [] => ret []
     | _ =>
         resetDailyCountersIfNeeded E;;
         _ ← next_tick;
         c ← get_counters;
         let remainingDMs := remaining (Config.dmPerDay (limits S)) (cnt_dm c) in
         let remainingLikes := remaining (Config.likesPerDay (limits S)) (cnt_likes c) in
         let remainingRetweets :=
           remaining (Config.retweetsPerDay (limits S)) (cnt_retweets c) in
         let remainingComments :=
           remaining (Config.commentsPerDay (limits S)) (cnt_comments c) in
         '(dms, _) ← planDMs E S remainingDMs leads 0;
         '(others, _) ← planEngagement E S remainingLikes remainingRetweets
                          remainingComments (length leads) leads (0, 0, 0);
         ret (limitActivities maxActivities (sortActivities (dms ++ others)%list))
     end)
    (fun _ => ret []).

Definition incrementCounter (E : Env) (activityType : string) : M unit :=
  resetDailyCountersIfNeeded E;;
  c ← get_counters;
  if String.eqb activityType "dm"
  then put_counters (mkCounters (Datatypes.S (cnt_dm c)) (cnt_likes c) (cnt_retweets c)
                                (cnt_comments c) (lastReset c))
  else if String.eqb activityType "like"
  then put_counters (mkCounters (cnt_dm c) (Datatypes.S (cnt_likes c)) (cnt_retweets c)
                                (cnt_comments c) (lastReset c))
  else if String.eqb activityType "retweet"
  then put_counters (mkCounters (cnt_dm c) (cnt_likes c) (Datatypes.S (cnt_retweets c))
                                (cnt_comments c) (lastReset c))
  else if String.eqb activityType "comment"
  then put_counters (mkCounters (cnt_dm c) (cnt_likes c) (cnt_retweets c)
                                (Datatypes.S (cnt_comments c)) (lastReset c))
  else ret tt.

(** [getRemainingActivities]: dm, likes, retweets, comments. *)
Definition getRemainingActivities (E : Env) (S : Scheduler) : M (Z * Z * Z * Z) :=
  resetDailyCountersIfNeeded E;;
  c ← get_counters;
  ret (remaining (Config.dmPerDay (limits S)) (cnt_dm c),
       remaining (Config.likesPerDay (limits S)) (cnt_likes c),
       remaining (Config.retweetsPerDay (limits S)) (cnt_retweets c),
       remaining (Config.commentsPerDay (limits S)) (cnt_comments c)).

End Scheduler.

(** ** The orchestrator: [TwitterAutomationSystem] in [src/main.js] *)

Module Main.

Import Sheets Scheduler.

(** The fields of the system object the main loop reads and writes. *)
Record System := mkSystem {
  isDemo : bool;
  keywords : list string;
  scheduler : Scheduler;
  errorCount : nat;
  maxErrors : nat;
  isShuttingDown : bool
}.

Definition set_errorCount (n : nat) (sys : System) : System :=
  mkSystem (isDemo sys) (keywords sys) (scheduler sys) n (maxErrors sys)
           (isShuttingDown sys).

Definition set_isShuttingDown (b : bool) (sys : System) : System :=
  mkSystem (isDemo sys) (keywords sys) (scheduler sys) (errorCount sys)
           (maxErrors sys) b.

(** The system as its constructor leaves it. *)
Definition newSystem (demo : bool) : System :=
  mkSystem demo Config.keywords
           (mkScheduler Config.rateLimits Config.messageTemplates
                        Config.commentTemplates)
           0 Config.circuitBreakerThreshold false.

(** [Math.floor(Math.random() * (max - min + 1)) + min] *)
Definition randomDelay (E : Env) (min max : Z) : M Z :=
  r ← random E;
  ret (Qfloor (r * inject_Z (max - min + 1)) + min)%Z.

Definition checkKillSwitch (E : Env) : M bool :=
  status ← getKillSwitchStatus E;
  ret (negb (String.eqb (JS.toUpperCase status) "RUN")).

Definition shutdown (sys : System) : M System :=
  if isShuttingDown sys then ret sys
  else
    emit EvShutdown;;
    (if isDemo sys then ret tt else emit EvBotClose);;
    Sheets.close;;
    ret (set_isShuttingDown true sys).

(** The keyword loop of [scrapingPhase]; returns [newLeads]. A failure
    of one keyword is logged and the loop goes on. *)
Fixpoint scrapeKeywords (E : Env) (kws : list string) (newLeads : list ScrapedLead)
  : M (list ScrapedLead) :=
  match kws with
  | [] => ret newLeads
  | keyword :: rest =>
      newLeads' ← try_catch
        (t ← next_tick;
         emit (EvScrape keyword);;
         leads ← lift_result (env_scrape E t keyword);
         let found := match leads with
                      | Some (l :: ls) => (newLeads ++ l :: ls)%list
                      | _ => newLeads
                      end in
         match rest with
         | [] => ret found
         | _ =>
             delay ← randomDelay E Config.delayBetweenKeywords_min
                                   Config.delayBetweenKeywords_max;
             sleep delay;;
             ret found
         end)
        (fun _ => ret newLeads);
      scrapeKeywords E rest newLeads'
  end.

(** The leads of a scrape that the set of known usernames does not hold. *)
Definition uniqueNewLeads (existingUsernames : gset string)
           (newLeads : list ScrapedLead) : list ScrapedLead :=
  filter (fun lead => sl_username lead ∉ existingUsernames) newLeads.

Definition scrapingPhase (E : Env) (sys : System) : M unit :=
  newLeads ← scrapeKeywords E (keywords sys) [];
  existingUsernames ← getAllUsernames E;
  match uniqueNewLeads existingUsernames newLeads with
  | [] => ret tt
  | l :: ls => try_catch (appendLeads E (l :: ls)) (fun msg => throw msg)
  end;;
  sleep 5000.

(** The evaluation loop of [filteringPhase]; returns [updates]. *)
Fixpoint collectUpdates (E : Env) (rawLeads : list PendingLead) : M (list Update) :=
  match rawLeads with
  | [] => ret []
  | lead :: rest =>
      u ← try_catch
        (t ← next_tick;
         emit (EvEvaluate (pl_username lead));;
         filterResult ← lift_result (env_evaluate E t (pl_username lead));
         ret (mkUpdate (pl_id lead)
                       (if fst filterResult then "PASS" else "FAIL")
                       (snd filterResult)))
        (fun msg =>
           ret (mkUpdate (pl_id lead) "ERROR"
                         (JS.substring0 500 ("Filter error: " +:+ msg))));
      us ← collectUpdates E rest;
      ret (u :: us)
  end.

Definition filteringPhase (E : Env) (sys : System) : M unit :=
  try_catch
    (rawLeads ← getUnfilteredLeads E;
     match rawLeads with
     | [] => ret tt
     | _ =>
         updates ← collectUpdates E rawLeads;
         match updates with
         | [] => ret tt
         | _ => batchUpdateLeadStatuses E updates
         end
     end)
    (fun _ => ret tt).

(** [const { type, username, id, message, comment } = activity]: the
    objects the scheduler builds carry [leadId], [message] and [comment]
    but no [id] property, so [id] is [undefined]. *)
Definition activity_id (a : Activity) : option nat := None.

Definition falsy (url : option string) : bool :=
  match url with
  | None => true
  | Some u => negb (JS.truthy u)
  end.

Definition executeActivity (E : Env) (activity : Activity) : M unit :=
  match type activity with
  | dm =>
      t ← next_tick;
      emit (EvSendDM (username activity) (message activity));;
      lift_unit (env_sendDM E t (username activity) (message activity));;
      markDMSent E (activity_id activity)
  | k =>
      t ← next_tick;
      emit (EvGetLatestTweetUrl (username activity));;
      postUrl ← lift_result (env_getLatestTweetUrl E t (username activity));
      if falsy postUrl then ret tt
      else
        let url := default "" postUrl in
        t' ← next_tick;
        match k with
        | like => emit (EvLikePost url);; lift_unit (env_likePost E t' url)
        | retweet => emit (EvRetweetPost url);; lift_unit (env_retweetPost E t' url)
        | _ =>
            emit (EvCommentOnPost url (commentText activity));;
            lift_unit (env_commentOnPost E t' url (commentText activity))
        end
  end.

(** The execution loop of [engagementPhase]; returns [successCount]. *)
Fixpoint executeAll (E : Env) (activities : list Activity) (successCount : nat)
  : M nat :=
  match activities with
  | [] => ret successCount
  | activity :: rest =>
      successCount' ← try_catch
        (executeActivity E activity;;
         match rest with
         | [] => ret (Datatypes.S successCount)
         | _ =>
             delay ← randomDelay E Config.minDelayBetweenActions
                                   Config.maxDelayBetweenActions;
             sleep delay;;
             ret (Datatypes.S successCount)
         end)
        (fun msg =>
           logError E (activity_id activity) ("Engagement error: " +:+ msg);;
           ret successCount);
      executeAll E rest successCount'
  end.

Definition engagementPhase (E : Env) (sys : System) : M unit :=
  try_catch
    (leadsToEngage ← getLeadsForEngagement E;
     match leadsToEngage with
     | [] => ret tt
     | _ =>
         dailyPlan ← createDailyPlan E (scheduler sys) leadsToEngage None;
         match dailyPlan with
         | [] => ret tt
         | _ =>
             if isDemo sys then ret tt
             else
               let activitiesToExecute := take Config.activitiesPerCycle dailyPlan in
               _ ← executeAll E activitiesToExecute 0;
               ret tt
         end
     end)
    (fun _ => ret tt).

(** [runPhase]: consult the kill switch, then run the phase. Returns
    whether the loop must stop. *)
Definition runPhase (E : Env) (phaseFn : M unit) (phaseName : string) : M bool :=
  stop ← checkKillSwitch E;
  if (stop : bool) then ret true
  else
    emit (EvPhase phaseName);;
    phaseFn;;
    ret false.

(** The three phases of one cycle; [true] stands for [break]. *)
Definition runPhases (E : Env) (sys : System) : M bool :=
  b1 ← runPhase E (scrapingPhase E sys) "scraping";
  if (b1 : bool) then ret true else
  b2 ← runPhase E (filteringPhase E sys) "filtering";
  if (b2 : bool) then ret true else
  b3 ← runPhase E (engagementPhase E sys) "engagement";
  ret b3.

Definition isPermissionError (msg : string) : bool :=
  JS.includes "permission" msg || JS.includes "403" msg.

(** How one pass through the body of the [while] loop ends. *)
Inductive Step :=
| Break (sys : System)
| Continue (sys : System).

Definition cycle (E : Env) (sys : System) : M Step :=
  try_catch
    (stop ← runPhases E sys;
     if (stop : bool) then ret (Break sys)
     else
       let sys' := set_errorCount 0 sys in
       sleep Config.cycleWait;;
       ret (Continue sys'))
    (fun msg =>
       let sys' := set_errorCount (Datatypes.S (errorCount sys)) sys in
       if isPermissionError msg
       then sys'' ← shutdown sys'; ret (Break sys'')
       else if (maxErrors sys' <=? errorCount sys')%nat
       then sys'' ← shutdown sys'; ret (Break sys'')
       else
         sleep Config.retryDelay;;
         ret (Continue sys')).

(** The [while (!this.isShuttingDown)] loop. [fuel] bounds the number of
    cycles; the boolean returned tells whether the loop was left ([true])
    or the bound was reached while it was still running ([false]). *)
Fixpoint runAutomationLoop (E : Env) (fuel : nat) (sys : System) (cycleCount : nat)
  : M (System * nat * bool) :=
  match fuel with
  | 0 => ret (sys, cycleCount, isShuttingDown sys)
  | Datatypes.S fuel' =>
      if isShuttingDown sys then ret (sys, cycleCount, true)
      else
        let cycleCount' := Datatypes.S cycleCount in
        emit (EvCycleStart cycleCount');;
        step ← cycle E sys;
        match step with
        | Break sys' => ret (sys', cycleCount', true)
        | Continue sys' => runAutomationLoop E fuel' sys' cycleCount'
        end
  end.

End Main.

(** ** The single-cycle test runner, a sibling of [src/main.js]

    Its kill-switch check distinguishes the three values. *)

Module TestMain.

(** [checkKillSwitch] of the test runner; [fuel] bounds the number of
    re-checks while the cell reads PAUSE ([None]: still paused). Its
    [catch] branch is left out: [getKillSwitchStatus] never throws. *)
Fixpoint checkKillSwitch (E : Env) (fuel : nat) : M (option bool) :=
  match fuel with
  | 0 => ret None
  | S fuel' =>
      killSwitchValue ← Sheets.getKillSwitchStatus E;
      if String.eqb killSwitchValue "STOP" then ret (Some true)
      else if String.eqb killSwitchValue "PAUSE"
      then sleep 60000;; checkKillSwitch E fuel'
      else ret (Some false)
  end.

End TestMain.

(** ** Vocabulary of the statements *)

Module Spec.

Import Sheets Scheduler Main.

(** The next [n] cycles each raise an error that is not a permission
    error. Each cycle body is taken in the world in which the loop runs
    it: after the cycle-start mark, and after the retry delay that follows
    the previous failure. *)
Fixpoint failingCycles (E : Env) (n : nat) (sys : System) (cycleCount : nat)
         (w : World) : Prop :=
  match n with
  | 0 => True
  | S n' =>
      match runPhases E sys (snd (emit (EvCycleStart (S cycleCount)) w)) with
      | (Throw msg, w') =>
          isPermissionError msg = false
          ∧ failingCycles E n' (set_errorCount (S (errorCount sys)) sys)
                          (S cycleCount) (snd (sleep Config.retryDelay w'))
      | _ => False
      end
  end.

(** The events by which the system announces that it shuts down. *)
Definition shutdownEvents (sys : System) : list Event :=
  [EvShutdown] ++ (if isDemo sys then [] else [EvBotClose]) ++ [EvSheetsClose].

(** A computation, wherever it is started, moves the world along [R]. *)
Definition steps (R : World -> World -> Prop) {A} (m : M A) : Prop :=
  forall w, R w (snd (m w)).

(** The later world's trace extends the earlier one's by events that all
    satisfy [phi]. *)
Definition extends (phi : Event -> Prop) (w w' : World) : Prop :=
  exists d, trace w' = trace w ++ d /\ Forall phi d.

(** No counter is higher in the later world. *)
Definition counters_le (w w' : World) : Prop :=
  cnt_dm (dailyCounters w') <= cnt_dm (dailyCounters w)
  /\ cnt_likes (dailyCounters w') <= cnt_likes (dailyCounters w)
  /\ cnt_retweets (dailyCounters w') <= cnt_retweets (dailyCounters w)
  /\ cnt_comments (dailyCounters w') <= cnt_comments (dailyCounters w).

Definition same_counters (w w' : World) : Prop :=
  dailyCounters w' = dailyCounters w.

Definition same_sheet (w w' : World) : Prop :=
  leadsSheet w' = leadsSheet w.

(** The first effect of executing an activity: the request to the bot
    that opens it. *)
Definition attemptOf (a : Activity) : Event :=
  match type a with
  | dm => EvSendDM (username a) (message a)
  | _ => EvGetLatestTweetUrl (username a)
  end.

Definition isAttempt (e : Event) : bool :=
  match e with
  | EvSendDM _ _ | EvGetLatestTweetUrl _ => true
  | _ => false
  end.

Definition notAttempt (e : Event) : Prop := isAttempt e = false.

(** The events that happened between an earlier and a later world. *)
Definition newEvents (w w' : World) : list Event :=
  drop (length (trace w)) (trace w').

(** The activities whose execution was begun between two worlds, as the
    requests that open them. *)
Definition executed (w w' : World) : list Event :=
  List.filter isAttempt (newEvents w w').

(** Whether a verification attempt started in [w] finds the whole batch:
    the refresh succeeds and finds the worksheet, the read that follows
    succeeds, and the username of every lead is among those read. *)
Definition visible (E : Env) (leads : list ScrapedLead) (w : World) : bool :=
  match env_loadInfo E (tick w) with
  | Ok true =>
      match env_getRows E (S (tick w)) (leadsSheet w) with
      | Ok view =>
          forallb (fun l => existsb (String.eqb (sl_username l)) (colUsername <$> view))
                  leads
      | Throw _ => false
      end
  | _ => false
  end.

(** The world in which attempt [k] of the verification loop begins its
    refresh, after its delay, when the loop was entered in [w] at index [i]
    and no earlier attempt verified. *)
Fixpoint attemptStart (E : Env) (leads : list ScrapedLead) (k i : nat) (w : World)
  : World :=
  let w0 := snd (sleep (7000 * (Z.of_nat i + 1)) w) in
  match k with
  | 0 => w0
  | S k' => attemptStart E leads k' (S i) (snd (verifyAttempt E leads w0))
  end.

Definition isSleep (e : Event) : bool :=
  match e with EvSleep _ => true | _ => false end.

Definition notSleep (e : Event) : Prop := isSleep e = false.

(** The delays slept between two worlds. *)
Definition sleeps (w w' : World) : list Event :=
  List.filter isSleep (newEvents w w').

(** Of the events, only the insert requests are constrained: the row of
    each satisfies [P]. *)
Definition addsOnly (P : Row -> Prop) (e : Event) : Prop :=
  match e with
  | EvAddRow r => P r
  | _ => True
  end.

(** The usernames on the sheet, line by line. *)
Definition usernames (w : World) : list string := colUsername <$> leadsSheet w.

(** The line numbers of the rows whose save was requested between two
    worlds, in order. *)
Definition savedRowNumbers (w w' : World) : list nat :=
  omap (fun e => match e with
                 | EvSaveRow r => Some (rowNumber r)
                 | _ => None
                 end) (newEvents w w').

(** The line numbers of the updates that find their row in what was
    read, in the order of the updates. *)
Definition matchedRows (updates : list Update) (view : list Row) : list nat :=
  List.filter (fun k => existsb (Nat.eqb k) (rowNumber <$> view))
              (upd_rowNumber <$> updates).

(** How many activities of a kind a plan holds. *)
Definition countKind (k : Kind) (acts : list Activity) : nat :=
  length (List.filter (fun a => bool_decide (type a = k)) acts).

(** Whom an activity is aimed at. *)
Definition target (a : Activity) : nat * string := (leadId a, username a).

(** The order the plan is sorted by: priority rank first, scheduled time
    second. *)
Definition planOrder (a b : Activity) : Prop :=
  (priority a < priority b)%Z
  \/ (priority a = priority b /\ (scheduledTime a <= scheduledTime b)%Z).

(** The counters the planner works with: those a reset check leaves. *)
Definition countersAtPlanning (E : Env) (w : World) : DailyCounters :=
  dailyCounters (snd (resetDailyCountersIfNeeded E w)).

(** A scheduler with another per-hour cap and everything else the same. *)
Definition withActionsPerHour (h : Z) (S : Scheduler) : Scheduler :=
  mkScheduler
    (Config.mkLimits (Config.dmPerDay (limits S)) (Config.likesPerDay (limits S))
                     (Config.retweetsPerDay (limits S))
                     (Config.commentsPerDay (limits S)) h)
    (messageTemplates S) (commentTemplates S).

(** The leads the planner can use: those with a username. *)
Definition usable (leads : list ReadyLead) : list ReadyLead :=
  List.filter (fun l => JS.truthy (rl_username l)) leads.

End Spec.

(** ** Concrete environments and worlds *)

Module Scenarios.

Import Sheets Scheduler Main.

(** Nine in the morning to six in the evening of one day and of the
    next; it is noon. *)
Definition noon : ClockReading :=
  mkClock 43200000 32400000 64800000 118800000 151200000
          "Thu Jan 01 1970" "1970-01-01T12:00:00.000Z".

(** Every collaborator answers and succeeds, the sheet is read as it is,
    the control cell reads RUN and the scraper finds nothing. *)
Definition calm : Env :=
  mkEnv (fun _ => (1 # 2)%Q) (fun _ => noon)
        (fun _ _ => Ok None)
        (fun _ _ => None)
        (fun _ => Ok true)
        (fun _ rows => Ok rows)
        (fun _ _ => None)
        (fun _ => Ok (ControlRows [Some "RUN"]))
        (fun _ _ => Ok (true, "ok"))
        (fun _ _ _ => None)
        (fun _ _ => Ok (Some "https://twitter.com/i/status/1"))
        (fun _ _ => None) (fun _ _ => None) (fun _ _ _ => None).

Definition with_control (c : nat -> result ControlSheet) (E : Env) : Env :=
  mkEnv (env_random E) (env_clock E) (env_scrape E) (env_addRow E)
        (env_loadInfo E) (env_getRows E) (env_saveRow E) c (env_evaluate E)
        (env_sendDM E) (env_getLatestTweetUrl E) (env_likePost E)
        (env_retweetPost E) (env_commentOnPost E).

Definition with_scrape (f : nat -> string -> result (option (list ScrapedLead)))
           (E : Env) : Env :=
  mkEnv (env_random E) (env_clock E) f (env_addRow E)
        (env_loadInfo E) (env_getRows E) (env_saveRow E) (env_control E)
        (env_evaluate E) (env_sendDM E) (env_getLatestTweetUrl E)
        (env_likePost E) (env_retweetPost E) (env_commentOnPost E).

Definition with_addRow (f : nat -> Row -> option string) (E : Env) : Env :=
  mkEnv (env_random E) (env_clock E) (env_scrape E) f
        (env_loadInfo E) (env_getRows E) (env_saveRow E) (env_control E)
        (env_evaluate E) (env_sendDM E) (env_getLatestTweetUrl E)
        (env_likePost E) (env_retweetPost E) (env_commentOnPost E).

Definition with_getRows (f : nat -> list Row -> result (list Row)) (E : Env) : Env :=
  mkEnv (env_random E) (env_clock E) (env_scrape E) (env_addRow E)
        (env_loadInfo E) f (env_saveRow E) (env_control E)
        (env_evaluate E) (env_sendDM E) (env_getLatestTweetUrl E)
        (env_likePost E) (env_retweetPost E) (env_commentOnPost E).


(** An empty sheet at logical time zero, counters fresh for the day. *)
Definition emptyWorld : World :=
  mkWorld [] 0 [] (freshCounters (dateString noon)).

Definition alice : ScrapedLead :=
  mkScraped "alice" "https://twitter.com/alice" "NBA fan, love the odds" 420
            "looking for betting tips" false "1970-01-01T11:00:00.000Z".

Definition bob : ScrapedLead :=
  mkScraped "bob" "https://twitter.com/bob" "football all day" 77
            "help with my bets" false "1970-01-01T11:30:00.000Z".

(** A row of the sheet for a lead, at a given line and filter status. *)
Definition rowOf (n : nat) (lead : ScrapedLead) (status : string) : Row :=
  set_filter status "" (set_rowNumber n (leadRow lead (sl_scrapedAt lead))).

(** The operator has set the control cell to PAUSE. *)
Definition paused : Env :=
  with_control (fun _ => Ok (ControlRows [Some "PAUSE"])) calm.

(** The operator pauses, then resumes before the second reading. *)
Definition pausedThenRun : Env :=
  with_control (fun t => Ok (ControlRows [Some (if (t <? 2)%nat then "PAUSE" else "RUN")]))
               calm.

(** The scraper finds alice under every keyword; every insert request
    fails with a network error. *)
Definition networkDown : Env :=
  with_addRow (fun _ _ => Some "socket hang up")
              (with_scrape (fun _ _ => Ok (Some [alice])) calm).

(** One lead has passed the filter and has not been written to yet. *)
Definition oneReady : World :=
  mkWorld [rowOf 2 alice "PASS"] 0 [] (freshCounters (dateString noon)).

(** Seven such leads. *)
Definition sevenReady : World :=
  mkWorld (imap (fun i u => rowOf (i + 2)
                   (mkScraped u "" "" 100 "help with my bets" false "t") "PASS")
                ["u1"; "u2"; "u3"; "u4"; "u5"; "u6"; "u7"])
          0 [] (freshCounters (dateString noon)).

(** The leads read from [sevenReady], the plan made for them, and the
    worlds in between. *)
Definition sevenLeads : list ReadyLead :=
  match fst (getLeadsForEngagement calm sevenReady) with
  | Ok leads => leads
  | Throw _ => []
  end.

Definition sevenRead : World := snd (getLeadsForEngagement calm sevenReady).

Definition sevenPlan : list Activity :=
  match fst (createDailyPlan calm (scheduler (newSystem false)) sevenLeads None
                             sevenRead) with
  | Ok plan => plan
  | Throw _ => []
  end.

Definition sevenPlanned : World :=
  snd (createDailyPlan calm (scheduler (newSystem false)) sevenLeads None sevenRead).

(** The store accepts every insert but never shows bob to a reader. *)
Definition bobNeverShows : Env :=
  with_getRows (fun _ rows =>
                  Ok (List.filter (fun r => negb (String.eqb (colUsername r) "bob")) rows))
               calm.

(** The store shows bob only to reads made at logical time 8 or later,
    which is when the third attempt reads. *)
Definition bobShowsLate : Env :=
  with_getRows (fun t rows =>
                  Ok (List.filter (fun r => (8 <=? t)%nat
                                            || negb (String.eqb (colUsername r) "bob"))
                                  rows))
               calm.

(** The world after the two insert requests for alice and bob. *)
Definition twoInserted (E : Env) : World := snd (insertAll E [alice; bob] emptyWorld).

(** One keyword instead of the six configured ones. *)
Definition oneKeyword : System :=
  mkSystem false ["help with my bets"]
           (mkScheduler Config.rateLimits Config.messageTemplates
                        Config.commentTemplates)
           0 Config.circuitBreakerThreshold false.

(** alice is on the sheet already. *)
Definition aliceKnown : World :=
  mkWorld [rowOf 2 alice "PASS"] 0 [] (freshCounters (dateString noon)).

(** The scraper finds alice again; the read of the existing usernames (at
    logical time 1) fails, every other read shows the sheet as it is. *)
Definition readGlitch : Env :=
  with_getRows (fun t rows => if (t =? 1)%nat then Throw "Quota exceeded" else Ok rows)
               (with_scrape (fun _ _ => Ok (Some [alice])) calm).

(** The scraper finds alice again and every read succeeds. *)
Definition aliceAgain : Env := with_scrape (fun _ _ => Ok (Some [alice])) calm.

(** alice and bob are on the sheet, pending. *)
Definition twoPending : World :=
  mkWorld [rowOf 2 alice "PENDING"; rowOf 3 bob "PENDING"] 0 []
          (freshCounters (dateString noon)).


(** The verdicts of the filter for the two pending leads. *)
Definition twoVerdicts : list Update :=
  [mkUpdate 2 "PASS" "ok"; mkUpdate 3 "FAIL" "too few followers"].


(** Three ready leads, and a day on which 28 of the 30 direct messages
    have been recorded. *)
Definition ann : ReadyLead := mkReady 2 "ann" "https://twitter.com/ann" "NFL and odds".
Definition ben : ReadyLead := mkReady 3 "ben" "https://twitter.com/ben" "".
Definition cat : ReadyLead := mkReady 4 "cat" "https://twitter.com/cat" "hockey mom".

Definition twoDMsLeft : World :=
  mkWorld [] 0 [] (mkCounters 28 0 0 0 (dateString noon)).

(** A source of randomness that varies: the draw at time [t] is the
    fractional part of [t * 3 / 10]. *)
Definition varied : Env :=
  mkEnv (fun t => (Z.of_nat ((t * 3) mod 10) # 10)%Q) (env_clock calm) (env_scrape calm)
        (env_addRow calm) (env_loadInfo calm) (env_getRows calm) (env_saveRow calm)
        (env_control calm) (env_evaluate calm) (env_sendDM calm)
        (env_getLatestTweetUrl calm) (env_likePost calm) (env_retweetPost calm)
        (env_commentOnPost calm).

(** Sixteen ready leads. *)
Definition sixteenLeads : list ReadyLead :=
  imap (fun i u => mkReady (i + 2) u "" "")
       ["a01"; "a02"; "a03"; "a04"; "a05"; "a06"; "a07"; "a08";
        "a09"; "a10"; "a11"; "a12"; "a13"; "a14"; "a15"; "a16"].

Definition sixteenPlan : list Activity :=
  match fst (createDailyPlan calm (scheduler (newSystem false)) sixteenLeads None
                             emptyWorld) with
  | Ok plan => plan
  | Throw _ => []
  end.

End Scenarios.

(** ** The rest of the planner's interface: [EngagementScheduler] *)

Module Quota.

Import Sheets Scheduler.

(** [canPerformActivity]: whether the day's count of the type is below
    its limit; an unknown type may never be performed. *)
Definition canPerformActivity (E : Env) (S : Scheduler) (activityType : string)
  : M bool :=
  resetDailyCountersIfNeeded E;;
  c ← get_counters;
  ret (if String.eqb activityType "dm"
       then (Z.of_nat (cnt_dm c) <? Config.dmPerDay (limits S))%Z
       else if String.eqb activityType "like"
       then (Z.of_nat (cnt_likes c) <? Config.likesPerDay (limits S))%Z
       else if String.eqb activityType "retweet"
       then (Z.of_nat (cnt_retweets c) <? Config.retweetsPerDay (limits S))%Z
       else if String.eqb activityType "comment"
       then (Z.of_nat (cnt_comments c) <? Config.commentsPerDay (limits S))%Z
       else false).

(** [getHumanLikeDelay]: between thirty seconds and three minutes. *)
Definition getHumanLikeDelay (E : Env) : M Z :=
  let min := (30 * 1000)%Z in
  let max := (3 * 60 * 1000)%Z in
  r ← random E;
  ret (Qfloor (r * inject_Z (max - min + 1)) + min)%Z.

(** Truthiness of a property that may be absent. *)
Definition truthy_opt (o : option string) : bool :=
  match o with
  | Some s => JS.truthy s
  | None => false
  end.

(** [validateActivity]; [None] stands for a missing activity. The [type]
    of an [Activity] is one of the four known ones, which leaves the
    [default] branch of the [switch] without a case. *)
Definition validateActivity (activity : option Activity) : bool :=
  match activity with
  | None => false
  | Some a =>
      if negb (JS.truthy (kind_name (type a))) then false
      else if negb (JS.truthy (username a)) then false
      else if (leadId a =? 0)%nat then false
      else match type a with
           | dm => truthy_opt (message a)
           | like | retweet => truthy_opt (postUrl a)
           | comment => truthy_opt (postUrl a) && truthy_opt (commentText a)
           end
  end.

End Quota.


(** ** The filter: [src/FilterEngine.js] *)

Module FilterEngine.

Import Sheets Scheduler.

Record Rules := mkRules {
  minFollowers : Z;
  maxFollowers : Z;
  preFilterCheckDMs : bool;
  failIfVerified : bool;
  bioBlacklist : list string;
  bioWhitelist : list string
}.

(** The rules of [config.js]. *)
Definition configRules : Rules :=
  mkRules 50 5000 true true
          [ "crypto"; "NFT"; "bitcoin"; "forex"; "trading"; "investment advice";
            "not seeking opportunities"; "no DMs"; "DM = block"; "tipster service";
            "premium picks"; "subscribe for tips"; "betting service"; "link in bio";
            "official account"; "customer support"; "business inquiries" ]
          [].

(** [{ passed, reason, score }]; only a pass carries a score. *)
Record FilterResult := mkFilterResult {
  passed : bool;
  reason : string;
  score : option Z
}.

Definition fail (why : string) : FilterResult := mkFilterResult false why None.

(** White space, on the ASCII range: tab, line feed, vertical tab, form
    feed, carriage return and space. *)
Definition is_space (c : Ascii.ascii) : bool :=
  let n := Ascii.nat_of_ascii c in
  ((9 <=? n)%nat && (n <=? 13)%nat) || (n =? 32)%nat.

Fixpoint trimStart (s : string) : string :=
  match s with
  | EmptyString => EmptyString
  | String c s' => if is_space c then trimStart s' else s
  end.

Fixpoint trimEnd (s : string) : string :=
  match s with
  | EmptyString => EmptyString
  | String c s' =>
      match trimEnd s' with
      | EmptyString => if is_space c then EmptyString else String c EmptyString
      | t => String c t
      end
  end.

(** [String.prototype.trim] *)
Definition trim (s : string) : string := trimEnd (trimStart s).

(** *** Numbers written out and read back

    [parseInt] writes its argument out before it reads it. A follower
    count is a whole number; [n] stands for the Number value nearest to
    it. *)

(** The decimal digits of a whole number. *)
Definition showZ (n : Z) : string := NilZero.string_of_int (Z.to_int n).

(** The Number value nearest to a whole number: 53 significant bits,
    ties to even. *)
Definition toNumber (v : Z) : Z :=
  let a := Z.abs v in
  let e := (Z.log2 a - 52)%Z in
  if (e <=? 0)%Z then v
  else
    let q := Z.shiftr a e in
    let r := (a - Z.shiftl q e)%Z in
    let half := Z.shiftl 1 (e - 1) in
    let q' := if (half <? r)%Z || ((r =? half)%Z && Z.odd q) then (q + 1)%Z else q in
    (Z.sgn v * Z.shiftl q' e)%Z.

(** The decimal of [k] significant digits whose nearest Number is [x], if
    there is one; of two, the one closer to [x], and the even one when
    they are equally close. *)
Definition withDigits (x : Z) (k : nat) : option Z :=
  let P := (10 ^ Z.of_nat (String.length (showZ x) - k))%Z in
  let lo := (x / P * P)%Z in
  let hi := (lo + P)%Z in
  match (toNumber lo =? x)%Z, (toNumber hi =? x)%Z with
  | true, true =>
      Some (if (x - lo <? hi - x)%Z then lo
            else if (hi - x <? x - lo)%Z then hi
            else if Z.even (lo / P) then lo else hi)
  | true, false => Some lo
  | false, true => Some hi
  | false, false => None
  end.

Fixpoint shortestFrom (x : Z) (k fuel : nat) : Z :=
  match fuel with
  | O => x
  | Datatypes.S fuel' =>
      match withDigits x k with
      | Some v => v
      | None => shortestFrom x (Datatypes.S k) fuel'
      end
  end.

(** The decimal with the fewest significant digits that identifies the
    Number [x]; seventeen digits always do. *)
Definition shortest (x : Z) : Z := shortestFrom x 1 17.

Fixpoint stripZeros (s : string) : string :=
  match s with
  | EmptyString => EmptyString
  | String c s' =>
      match stripZeros s' with
      | EmptyString => if Ascii.eqb c "0" then EmptyString else String c EmptyString
      | t => String c t
      end
  end.

(** [Number::toString] of a whole number: the shortest digits that
    identify it, followed by zeros below 10^21 and in exponent notation
    from there on. *)
Definition numberToString (n : Z) : string :=
  let x := toNumber n in
  let sign := if (x <? 0)%Z then "-" else "" in
  if (2 ^ 1024 <=? Z.abs x)%Z then sign +:+ "Infinity"
  else
    let v := shortest (Z.abs x) in
    let ds := showZ v in
    if (v <? 10 ^ 21)%Z then sign +:+ ds
    else
      sign
      +:+ match stripZeros ds with
          | String d EmptyString => String d EmptyString
          | String d more => String d ("." +:+ more)
          | EmptyString => EmptyString
          end
      +:+ "e+" +:+ showZ (Z.of_nat (String.length ds - 1)).

(** The value of a character as a digit of the radix. *)
Definition digitValue (radix : Z) (c : Ascii.ascii) : option Z :=
  let n := Z.of_nat (Ascii.nat_of_ascii c) in
  let d := if (48 <=? n)%Z && (n <=? 57)%Z then Some (n - 48)%Z
           else if (97 <=? n)%Z && (n <=? 122)%Z then Some (n - 87)%Z
           else if (65 <=? n)%Z && (n <=? 90)%Z then Some (n - 55)%Z
           else None in
  match d with
  | Some v => if (v <? radix)%Z then Some v else None
  | None => None
  end.

(** The value of the leading digits; [acc] is what has been read. *)
Fixpoint readDigits (radix : Z) (s : string) (acc : option Z) : option Z :=
  match s with
  | EmptyString => acc
  | String c s' =>
      match digitValue radix c with
      | Some d => readDigits radix s' (Some (radix * default 0%Z acc + d)%Z)
      | None => acc
      end
  end.

(** [parseInt(text)] without a radix: white space is skipped, a sign and
    the prefix [0x] are honoured, and the digits up to the first other
    character are read; [None] stands for [NaN]. *)
Definition parseInt (text : string) : option Z :=
  let s := trimStart text in
  let '(negative, s1) :=
    match s with
    | String c r =>
        if Ascii.eqb c "-" then (true, r)
        else if Ascii.eqb c "+" then (false, r)
        else (false, s)
    | EmptyString => (false, s)
    end in
  let '(radix, s2) :=
    match s1 with
    | String c (String x r) =>
        if Ascii.eqb c "0" && (Ascii.eqb x "x" || Ascii.eqb x "X")
        then (16%Z, r) else (10%Z, s1)
    | _ => (10%Z, s1)
    end in
  match readDigits radix s2 None with
  | Some v => Some (toNumber (if negative : bool then (- v)%Z else v))
  | None => None
  end.

(** [parseInt(count) || 0] *)
Definition parseIntOr0 (count : Z) : Z :=
  match parseInt (numberToString count) with
  | Some v => v
  | None => 0%Z
  end.

(** The value of a decimal, most significant digit first, after [acc]. *)
Fixpoint uval (d : Decimal.uint) (acc : Z) : Z :=
  match d with
  | Decimal.Nil => acc
  | Decimal.D0 l => uval l (10 * acc + 0)
  | Decimal.D1 l => uval l (10 * acc + 1)
  | Decimal.D2 l => uval l (10 * acc + 2)
  | Decimal.D3 l => uval l (10 * acc + 3)
  | Decimal.D4 l => uval l (10 * acc + 4)
  | Decimal.D5 l => uval l (10 * acc + 5)
  | Decimal.D6 l => uval l (10 * acc + 6)
  | Decimal.D7 l => uval l (10 * acc + 7)
  | Decimal.D8 l => uval l (10 * acc + 8)
  | Decimal.D9 l => uval l (10 * acc + 9)
  end%Z.

(** Nothing but decimal digits. *)
Fixpoint digitsOnly (s : string) : bool :=
  match s with
  | EmptyString => true
  | String c s' =>
      match digitValue 10 c with Some _ => digitsOnly s' | None => false end
  end.

(** No character outside the ASCII range, on which [trim],
    [toLowerCase] and [length] are rendered here. *)
Fixpoint asciiOnly (s : string) : bool :=
  match s with
  | EmptyString => true
  | String c s' => (Ascii.nat_of_ascii c <? 128)%nat && asciiOnly s'
  end.

Definition quote : string := String (Ascii.ascii_of_nat 34) EmptyString.

Definition sportsTerms : list string :=
  ["sports"; "nba"; "nfl"; "football"; "basketball"; "soccer"; "fan"; "game"].

Definition calculateQualityScore (lead : PendingLead) : Z :=
  let followers := parseIntOr0 (pl_followersCount lead) in
  let s1 := if (followers >? 1000)%Z then (50 + 20)%Z
            else if (followers >? 500)%Z then (50 + 10)%Z
            else if (followers <? 100)%Z then (50 - 10)%Z
            else 50%Z in
  let bio := JS.or_else (pl_bio lead) "" in
  let s2 := if (50 <? String.length bio)%nat then (s1 + 10)%Z else s1 in
  let s3 := if (100 <? String.length bio)%nat then (s2 + 5)%Z else s2 in
  let bioLower := toLowerCase bio in
  let sportsMatches :=
    length (List.filter (fun term => JS.includes term bioLower) sportsTerms) in
  let s4 := (s3 + Z.of_nat sportsMatches * 5)%Z in
  Z.min 100 (Z.max 0 s4).

(** [isBioBlacklisted] *)
Definition isBioBlacklisted (R : Rules) (bio : string) : bool :=
  if negb (JS.truthy bio) then false
  else existsb (fun term => JS.includes (toLowerCase term) (toLowerCase bio))
               (bioBlacklist R).

(** [isFollowerCountValid] *)
Definition isFollowerCountValid (R : Rules) (count : Z) : bool :=
  (count >=? minFollowers R)%Z && (count <=? maxFollowers R)%Z.

Section Evaluate.

(** [containsSuspiciousPatterns] tests the bio against five regular
    expressions; the test is taken as given. *)
Variable containsSuspiciousPatterns : string -> bool.

(** [this.twitterBot]: absent, or the answer of [checkDMButtonExists]
    for a username. *)
Variable twitterBot : option (string -> result bool).

(** [evaluateLead], for a lead as [getUnfilteredLeads] returns it. *)
Definition evaluateLead (R : Rules) (lead : PendingLead) : FilterResult :=
  if negb (JS.truthy (pl_username lead)) || String.eqb (trim (pl_username lead)) ""
  then fail "Username is missing or empty"
  else if failIfVerified R && pl_isVerified lead
  then fail "User is verified"
  else
    let followersCount := parseIntOr0 (pl_followersCount lead) in
    if (followersCount >? 0)%Z && (followersCount <? minFollowers R)%Z
    then fail ("Too few followers: " +:+ numberToString followersCount +:+ " < "
               +:+ numberToString (minFollowers R))
    else if (followersCount >? maxFollowers R)%Z
    then fail ("Too many followers: " +:+ numberToString followersCount +:+ " > "
               +:+ numberToString (maxFollowers R))
    else
      let bio := trim (toLowerCase (JS.or_else (pl_bio lead) "")) in
      match List.find (fun term => JS.includes (toLowerCase term) bio)
                      (bioBlacklist R) with
      | Some blacklistedTerm =>
          fail ("Bio contains blacklisted term: " +:+ quote +:+ blacklistedTerm
                +:+ quote)
      | None =>
          if (0 <? length (bioWhitelist R))%nat
             && negb (existsb (fun term => JS.includes (toLowerCase term) bio)
                              (bioWhitelist R))
          then fail "Bio doesn't contain any whitelisted terms"
          else if negb (String.length bio =? 0)%nat && (String.length bio <? 5)%nat
          then fail "Bio is too short (less than 5 characters)"
          else if containsSuspiciousPatterns bio
          then fail "Bio contains suspicious patterns"
          else
            match (if preFilterCheckDMs R then twitterBot else None) with
            | Some checkDMButtonExists =>
                match checkDMButtonExists (pl_username lead) with
                | Ok canDM =>
                    if negb canDM then fail "DMs are closed (pre-flight check)"
                    else mkFilterResult true "All filters passed"
                                        (Some (calculateQualityScore lead))
                | Throw msg => fail ("Filter evaluation error: " +:+ msg)
                end
            | None =>
                mkFilterResult true "All filters passed"
                               (Some (calculateQualityScore lead))
            end
      end.

End Evaluate.

End FilterEngine.

(** ** The demo scraper: [src/mockleadscraper.js] *)

Module MockLeadScraper.

Import Sheets Scheduler.

Record MockLead := mkMock {
  m_username : string;
  m_bio : string;
  m_followersCount : Z;
  m_profileUrl : string
}.

Definition mockLeads : list MockLead :=
  [ mkMock "sports_fan_2024" "Love NBA and football! Always watching games" 1500
           "https://twitter.com/sports_fan_2024";
    mkMock "basketball_lover" "Basketball enthusiast | Lakers fan | Sports betting tips"
           850 "https://twitter.com/basketball_lover";
    mkMock "nfl_watcher" "NFL every Sunday | Fantasy football expert" 2300
           "https://twitter.com/nfl_watcher";
    mkMock "ufc_fanatic" "UFC fights every weekend | MMA news" 670
           "https://twitter.com/ufc_fanatic";
    mkMock "soccer_world" "Soccer/Football from around the world | Premier League" 1200
           "https://twitter.com/soccer_world";
    mkMock "nba_insider" "NBA news and analysis | Draft expert" 3400
           "https://twitter.com/nba_insider";
    mkMock "sports_better" "Sports betting strategies and tips" 950
           "https://twitter.com/sports_better";
    mkMock "football_fan_joe" "College and NFL football fanatic" 560
           "https://twitter.com/football_fan_joe" ].

(** The predicate of the [filter] over the mock leads. *)
Definition relevant (keywordLower : string) (lead : MockLead) : bool :=
  JS.includes keywordLower (toLowerCase (m_bio lead))
  || JS.includes keywordLower (toLowerCase (m_username lead))
  || (String.eqb keywordLower "sports"
      && (JS.includes "nba" (toLowerCase (m_bio lead))
          || JS.includes "nfl" (toLowerCase (m_bio lead))
          || JS.includes "football" (toLowerCase (m_bio lead))
          || JS.includes "basketball" (toLowerCase (m_bio lead))
          || JS.includes "ufc" (toLowerCase (m_bio lead))
          || JS.includes "soccer" (toLowerCase (m_bio lead)))).

(** [xs.map(f)] for a callback with effects. *)
Fixpoint map_each {A B} (f : A -> M B) (xs : list A) : M (list B) :=
  match xs with
  | [] => ret []
  | x :: xs' => y ← f x; ys ← map_each f xs'; ret (y :: ys)
  end.

(** [scrapeByKeyword]. The [id] given to a lead is built from
    [Date.now()] and [Math.random()], which are consulted and whose values
    no caller reads; a mock lead has no verification mark. *)
Definition scrapeByKeyword (E : Env) (keyword : string) (limit : nat)
  : M (list ScrapedLead) :=
  sleep 2000;;
  let keywordLower := toLowerCase keyword in
  let relevantLeads := List.filter (relevant keywordLower) mockLeads in
  let results := take (Nat.min limit (length relevantLeads)) relevantLeads in
  leads ← map_each (fun lead =>
             _ ← next_tick;
             _ ← random E;
             scrapedAt ← nowIso E;
             ret (mkScraped (m_username lead) (m_profileUrl lead) (m_bio lead)
                            (m_followersCount lead) keyword false scrapedAt))
           results;
  sleep 1000;;
  ret leads.

End MockLeadScraper.

(** ** The worksheet's columns: [ensureLeadsWorksheet] *)

Module Worksheet.

Definition requiredHeaders : list string :=
  [ "Timestamp"; "Username"; "Profile URL"; "Bio"; "Follower Count"; "Keyword";
    "Filter Status"; "Filter Reason"; "Verified"; "DM Status"; "DM Sent Date";
    "Last Error"; "Error Timestamp" ].

(** [ensureLeadsWorksheet]. [existing] is what the document holds under
    the title 'Leads': nothing, or a worksheet whose header row loads or
    fails to load; [addSheet] and [setHeaderRow] are the outcomes of the
    two requests the function may make. Returns the header row of the
    worksheet it leaves. *)
Definition ensureLeadsWorksheet (existing : option (result (list string)))
           (addSheet : option string) (setHeaderRow : list string -> option string)
  : result (list string) :=
  match existing with
  | None =>
      match addSheet with
      | None => Ok requiredHeaders
      | Some msg => Throw msg
      end
  | Some (Throw msg) => Throw msg
  | Some (Ok currentHeaders) =>
      let missingHeaders :=
        List.filter (fun h => negb (existsb (String.eqb h) currentHeaders))
                    requiredHeaders in
      if (0 <? length missingHeaders)%nat
      then
        let newHeaders := (currentHeaders ++ missingHeaders)%list in
        match setHeaderRow newHeaders with
        | None => Ok newHeaders
        | Some msg => Throw msg
        end
      else Ok currentHeaders
  end.

End Worksheet.
(** ** Further vocabulary *)

Module Notions.

Import Sheets Scheduler Main Spec.

(** Every draw of [Math.random] lies in the unit interval, one excluded. *)
Definition unitDraws (E : Env) : Prop :=
  forall t, (0 <= env_random E t)%Q /\ (env_random E t < 1)%Q.

(** The next [n] cycles each run their three phases to the end. Each
    cycle body is taken in the world in which the loop runs it: after the
    cycle-start mark, and after the wait that follows the previous cycle. *)
Fixpoint completingCycles (E : Env) (n : nat) (sys : System) (cycleCount : nat)
         (w : World) : Prop :=
  match n with
  | 0 => True
  | S n' =>
      match runPhases E sys (snd (emit (EvCycleStart (S cycleCount)) w)) with
      | (Ok false, w') =>
          completingCycles E n' (set_errorCount 0 sys) (S cycleCount)
                           (snd (sleep Config.cycleWait w'))
      | _ => False
      end
  end.

(** The events of the cycle's skeleton: a reading of the control cell and
    the start of a phase. *)
Definition isGate (e : Event) : bool :=
  match e with
  | EvControlRead | EvPhase _ => true
  | _ => false
  end.

(** The events a phase itself can cause. *)
Definition inner (e : Event) : Prop := isGate e = false.

(** The skeleton of what happened between two worlds. *)
Definition gates (w w' : World) : list Event :=
  List.filter isGate (newEvents w w').

(** The keywords the scraper was asked for between two worlds, in order. *)
Definition scraped (w w' : World) : list string :=
  omap (fun e => match e with
                 | EvScrape keyword => Some keyword
                 | _ => None
                 end) (newEvents w w').

(** The counter and the limit that belong to a kind of activity. *)
Definition counterOf (k : Kind) (c : DailyCounters) : nat :=
  match k with
  | dm => cnt_dm c
  | like => cnt_likes c
  | retweet => cnt_retweets c
  | comment => cnt_comments c
  end.

Definition limitOf (k : Kind) (L : Config.RateLimits) : Z :=
  match k with
  | dm => Config.dmPerDay L
  | like => Config.likesPerDay L
  | retweet => Config.retweetsPerDay L
  | comment => Config.commentsPerDay L
  end.

(** The component of [getRemainingActivities] that belongs to a kind. *)
Definition remainingOf (k : Kind) (r : Z * Z * Z * Z) : Z :=
  let '(d, l, rt, c) := r in
  match k with
  | dm => d
  | like => l
  | retweet => rt
  | comment => c
  end.

(** The working hours a clock reading stands for: nine to six of the same
    day, or of the next day once six has passed. *)
Definition inWindow (c : ClockReading) (t : Z) : Prop :=
  if (now c >? eighteen c)%Z
  then (nine_next c <= t <= eighteen_next c)%Z
  else (nine c <= t <= eighteen c)%Z.

(** The day's windows are well formed: nine is not after six. *)
Definition orderedClock (E : Env) : Prop :=
  forall t, (nine (env_clock E t) <= eighteen (env_clock E t))%Z
            /\ (nine_next (env_clock E t) <= eighteen_next (env_clock E t))%Z.

(** The local date never changes and is the one the counters were last
    reset on. *)
Definition sameDay (E : Env) (w : World) : Prop :=
  forall t, dateString (env_clock E t) = lastReset (dailyCounters w).

(** A read of the sheet shows the sheet as it is. *)
Definition faithfulReads (E : Env) : Prop :=
  forall t rows, env_getRows E t rows = Ok rows.


(** What the control worksheet shows gives no value: the read failed, the
    worksheet is missing or has no data row, or its first cell is empty. *)
Definition unreadable (reading : result ControlSheet) : Prop :=
  match reading with
  | Throw _ => True
  | Ok ControlMissing => True
  | Ok (ControlRows []) => True
  | Ok (ControlRows (cell :: _)) => default "" cell = ""
  end.


(** What the evaluation loop may record for a lead. *)
Definition verdict (u : Update) : Prop :=
  upd_status u = "PASS" \/ upd_status u = "FAIL"
  \/ (upd_status u = "ERROR" /\ String.length (upd_reason u) <= 500).

(** What the filter says of each lead when the leads are put to it one
    after the other, the first at time [t]. *)
Fixpoint answers (E : Env) (t : nat) (leads : list PendingLead)
  : list (result (bool * string)) :=
  match leads with
  | [] => []
  | lead :: rest => env_evaluate E t (pl_username lead) :: answers E (S t) rest
  end.

(** The update records the filter's answer for the lead: under the
    lead's line, PASS or FAIL as the filter says and with the filter's
    reason, or ERROR with the start of the error's message when the filter
    throws. *)
Definition records (lead : PendingLead) (answer : result (bool * string))
           (u : Update) : Prop :=
  upd_rowNumber u = pl_id lead
  /\ match answer with
     | Ok (true, why) => upd_status u = "PASS" /\ upd_reason u = why
     | Ok (false, why) => upd_status u = "FAIL" /\ upd_reason u = why
     | Throw msg =>
         upd_status u = "ERROR"
         /\ upd_reason u = JS.substring0 500 ("Filter error: " +:+ msg)
     end.

(** The requests made to the bot. *)
Definition isBotRequest (e : Event) : bool :=
  match e with
  | EvSendDM _ _ | EvGetLatestTweetUrl _ | EvLikePost _ | EvRetweetPost _
  | EvCommentOnPost _ _ => true
  | _ => false
  end.

(** Neither an insert nor a save. *)
Definition noWrite (e : Event) : Prop :=
  match e with
  | EvAddRow _ | EvSaveRow _ => False
  | _ => True
  end.

(** A read of the sheet, a request to the bot, or a pause between the
    configured bounds. *)
Definition paced (e : Event) : Prop :=
  match e with
  | EvGetRows => True
  | EvSleep ms =>
      (Config.minDelayBetweenActions <= ms <= Config.maxDelayBetweenActions)%Z
  | _ => isBotRequest e = true
  end.

(** The skeleton of a cycle that runs to its end. *)
Definition fullSkeleton : list Event :=
  [EvControlRead; EvPhase "scraping"; EvControlRead; EvPhase "filtering";
   EvControlRead; EvPhase "engagement"].


(** The row is the one written for the lead, at some line and time. *)
Definition madeFrom (lead : ScrapedLead) (r : Row) : Prop :=
  exists n ts, r = set_rowNumber n (leadRow lead ts).

(** A row as it is when first written: awaiting the filter, not yet
    messaged, no error logged, its bio cut at 500 characters. *)
Definition freshRow (r : Row) : Prop :=
  colFilterStatus r = "PENDING" /\ colFilterReason r = ""
  /\ colDMStatus r = "NOT_SENT" /\ colDMSentDate r = ""
  /\ colLastError r = "" /\ colErrorTimestamp r = ""
  /\ (colVerified r = "YES" \/ colVerified r = "NO")
  /\ String.length (colBio r) <= 500.



(** The last of the updates given for a line, if any. *)
Fixpoint lastVerdict (updates : list Update) (n : nat) : option Update :=
  match updates with
  | [] => None
  | u :: rest =>
      match lastVerdict rest n with
      | Some u' => Some u'
      | None => if decide (upd_rowNumber u = n) then Some u else None
      end
  end.

(** A row once the updates are applied: it carries the status and the
    reason of the last update for its line; a row no update names is
    untouched. *)
Definition afterVerdicts (updates : list Update) (r : Row) : Row :=
  match lastVerdict updates (rowNumber r) with
  | Some u => set_filter (upd_status u) (upd_reason u) r
  | None => r
  end.

(** Every line number occurs once on the sheet. *)
Definition distinctLines (rows : list Row) : Prop := NoDup (rowNumber <$> rows).

(** The store accepts every save. *)
Definition savesSucceed (E : Env) : Prop := forall t r, env_saveRow E t r = None.


(** The activity is one the planner builds for the lead: it names the
    lead, its time is a draw of [getRandomTimeToday], and its payload is
    that of its kind. *)
Definition plannedFor (E : Env) (S : Scheduler) (lead : ReadyLead) (a : Activity)
  : Prop :=
  leadId a = rl_id lead /\ username a = rl_username lead
  /\ (exists w, fst (getRandomTimeToday E w) = Ok (scheduledTime a))
  /\ match type a with
     | dm =>
         priority a = 1%Z /\ postUrl a = None /\ commentText a = None
         /\ exists w m, fst (generatePersonalizedMessage E S lead w) = Ok m
                        /\ message a = Some m
     | like =>
         priority a = 3%Z /\ message a = None /\ commentText a = None
         /\ postUrl a = Some (profileOf (rl_username lead))
     | retweet =>
         priority a = 2%Z /\ message a = None /\ commentText a = None
         /\ postUrl a = Some (profileOf (rl_username lead))
     | comment =>
         priority a = 2%Z /\ message a = None
         /\ postUrl a = Some (profileOf (rl_username lead))
         /\ exists w, fst (getRandomComment E S w) = Ok (commentText a)
     end.

(** The activity is planned for one of the leads that have a username. *)
Definition wellPlanned (E : Env) (S : Scheduler) (leads : list ReadyLead)
           (a : Activity) : Prop :=
  exists lead, lead ∈ leads /\ JS.truthy (rl_username lead) = true
               /\ plannedFor E S lead a.

(** The targets the leads offer. *)
Definition targets (leads : list ReadyLead) : list (nat * string) :=
  (fun l => (rl_id l, rl_username l)) <$> usable leads.

(** The targets of the activities of a kind. *)
Definition targetsOf (k : Kind) (acts : list Activity) : list (nat * string) :=
  target <$> List.filter (fun a => bool_decide (type a = k)) acts.


(** What the filter demands of a lead, rule by rule; [bio] is the bio in
    lower case, trimmed, and [followers] the follower count as [parseInt]
    reads it. *)
Definition acceptable (suspicious : string -> bool)
           (bot : option (string -> result bool)) (R : FilterEngine.Rules)
           (lead : PendingLead) : Prop :=
  let bio := FilterEngine.trim (toLowerCase (pl_bio lead)) in
  let followers := FilterEngine.parseIntOr0 (pl_followersCount lead) in
  FilterEngine.trim (pl_username lead) <> ""
  /\ (FilterEngine.failIfVerified R = true -> pl_isVerified lead = false)
  /\ ((followers <= 0)%Z \/ (FilterEngine.minFollowers R <= followers)%Z)
  /\ (followers <= FilterEngine.maxFollowers R)%Z
  /\ (forall term, In term (FilterEngine.bioBlacklist R) ->
                   JS.includes (toLowerCase term) bio = false)
  /\ (FilterEngine.bioWhitelist R = []
      \/ exists term, In term (FilterEngine.bioWhitelist R)
                      /\ JS.includes (toLowerCase term) bio = true)
  /\ (String.length bio = 0 \/ 5 <= String.length bio)
  /\ suspicious bio = false
  /\ (FilterEngine.preFilterCheckDMs R = true ->
      forall check, bot = Some check -> check (pl_username lead) = Ok true).

(** The lead with another bio. *)
Definition withBio (bio : string) (lead : PendingLead) : PendingLead :=
  mkPending (pl_id lead) (pl_username lead) bio (pl_followersCount lead)
            (pl_isVerified lead).


(** The scraped lead is the mock lead, tagged with the keyword. *)
Definition tagged (keyword : string) (m : MockLeadScraper.MockLead) (l : ScrapedLead)
  : Prop :=
  sl_username l = MockLeadScraper.m_username m
  /\ sl_profileUrl l = MockLeadScraper.m_profileUrl m
  /\ sl_bio l = MockLeadScraper.m_bio m
  /\ sl_followersCount l = MockLeadScraper.m_followersCount m
  /\ sl_keyword l = keyword
  /\ sl_isVerified l = false.

End Notions.

(** ** Further environments *)

Module Cases.

Import Sheets Scheduler Main.

(** The scraper finds alice under every keyword; the store refuses every
    insert for want of permission. *)
Definition forbidden : Env :=
  Scenarios.with_addRow (fun _ _ => Some "The caller does not have permission")
    (Scenarios.with_scrape (fun _ _ => Ok (Some [Scenarios.alice])) Scenarios.calm).

(** Reading the control worksheet fails. *)
Definition controlDown : Env :=
  Scenarios.with_control (fun _ => Throw "socket hang up") Scenarios.calm.


(** A filter that fails the lead put to it first, throws on the second
    and passes every later one. *)
Definition moodyFilter : Env :=
  mkEnv (env_random Scenarios.calm) (env_clock Scenarios.calm)
        (env_scrape Scenarios.calm) (env_addRow Scenarios.calm)
        (env_loadInfo Scenarios.calm) (env_getRows Scenarios.calm)
        (env_saveRow Scenarios.calm) (env_control Scenarios.calm)
        (fun t _ => match t with
                    | 0 => Ok (false, "Too few followers: 3 < 50")
                    | 1 => Throw "net::ERR_TIMED_OUT"
                    | _ => Ok (true, "All filters passed")
                    end)
        (env_sendDM Scenarios.calm) (env_getLatestTweetUrl Scenarios.calm)
        (env_likePost Scenarios.calm) (env_retweetPost Scenarios.calm)
        (env_commentOnPost Scenarios.calm).

(** One ready lead, whose username is a dollar sign and an apostrophe. *)
Definition dollarLeads : list ReadyLead := [mkReady 2 "$'" "" ""].

(** Twelve direct messages and three likes were recorded yesterday. *)
Definition yesterdaysCounts : World :=
  mkWorld [] 0 [] (mkCounters 12 3 0 0 "Wed Dec 31 1969").

End Cases.

(** * Properties *)

Import Sheets Scheduler Main Spec.

(** ** The string primitives on examples *)

Example toUpperCase_pause : JS.toUpperCase "Pause" = "PAUSE".
Proof. reflexivity. Qed.

Example includes_permission :
  JS.includes "permission" "The caller does not have permission" = true
  /\ JS.includes "403" "Request failed with status code 403" = true
  /\ JS.includes "permission" "socket hang up" = false
  /\ JS.includes "" "" = true.
Proof. repeat split. Qed.

Example statusOf_defaults :
  statusOf (Throw "network") = "RUN"
  /\ statusOf (Ok ControlMissing) = "RUN"
  /\ statusOf (Ok (ControlRows [])) = "RUN"
  /\ statusOf (Ok (ControlRows [None])) = "RUN"
  /\ statusOf (Ok (ControlRows [Some "stop"; Some "RUN"])) = "STOP".
Proof. repeat split. Qed.

Example replace_first_once :
  replace_first "{username}" "ann" "Hi {username}, {username}!" = "Hi ann, {username}!".
Proof. reflexivity. Qed.

(** ** The kill switch *)

Lemma getKillSwitchStatus_eq E w :
  getKillSwitchStatus E w =
  (Ok (statusOf (env_control E (tick w))),
   mkWorld (leadsSheet w) (S (tick w)) (trace w ++ [EvControlRead]) (dailyCounters w)).
Proof. reflexivity. Qed.

Lemma checkKillSwitch_eq E w :
  checkKillSwitch E w =
  (Ok (negb (String.eqb (JS.toUpperCase (statusOf (env_control E (tick w)))) "RUN")),
   mkWorld (leadsSheet w) (S (tick w)) (trace w ++ [EvControlRead]) (dailyCounters w)).
Proof. reflexivity. Qed.

(** A first check that does not read RUN ends the cycle before any phase. *)
Lemma runPhases_stopped E sys w :
  JS.toUpperCase (statusOf (env_control E (tick w))) <> "RUN" ->
  runPhases E sys w =
  (Ok true,
   mkWorld (leadsSheet w) (S (tick w)) (trace w ++ [EvControlRead]) (dailyCounters w)).
Proof.
  intros Hne. apply String.eqb_neq in Hne.
  unfold runPhases, runPhase, bind. rewrite checkKillSwitch_eq, Hne.
  reflexivity.
Qed.

Lemma runAutomationLoop_S E fuel sys c w :
  isShuttingDown sys = false ->
  runAutomationLoop E (S fuel) sys c w =
  match cycle E sys (snd (emit (EvCycleStart (S c)) w)) with
  | (Ok (Break sys'), w') => (Ok (sys', S c, true), w')
  | (Ok (Continue sys'), w') => runAutomationLoop E fuel sys' (S c) w'
  | (Throw msg, w') => (Throw msg, w')
  end.
Proof.
  intros Hrun. cbn [runAutomationLoop]. rewrite Hrun.
  unfold bind at 1. cbn [emit snd].
  unfold bind at 1.
  destruct (cycle E sys _) as [[[s'|s']|msg] w']; reflexivity.
Qed.

(** C1 (the code departs from the claim). The kill-switch check of the
    orchestrator maps the control value to a single bit, "is not RUN": when
    the first reading of a cycle is anything but RUN (STOP, but PAUSE and
    every unrecognized value as well), the loop is left at once, after that
    one reading, without sleeping, without reading the cell again and
    without running a phase. The claim has PAUSE block and re-check, and
    unrecognized values proceed. *)
Theorem C1_not_RUN_leaves_the_loop E sys w fuel :
  isShuttingDown sys = false ->
  JS.toUpperCase (statusOf (env_control E (tick w))) <> "RUN" ->
  runAutomationLoop E (S fuel) sys 0 w =
  (Ok (sys, 1, true),
   mkWorld (leadsSheet w) (S (tick w))
           (trace w ++ [EvCycleStart 1; EvControlRead]) (dailyCounters w)).
Proof.
  intros Hrun Hne. rewrite runAutomationLoop_S by assumption.
  set (w1 := snd (emit (EvCycleStart 1) w)).
  assert (Hstop : runPhases E sys w1 = _) by (apply runPhases_stopped; exact Hne).
  unfold cycle, try_catch, bind. rewrite Hstop.
  cbn. now rewrite <- app_assoc.
Qed.

Lemma C1_not_RUN_leaves_the_loop_witness :
  runAutomationLoop Scenarios.paused 3 (newSystem false) 0 Scenarios.emptyWorld =
  (Ok (newSystem false, 1, true),
   mkWorld [] 1 [EvCycleStart 1; EvControlRead]
           (dailyCounters Scenarios.emptyWorld)).
Proof.
  apply (C1_not_RUN_leaves_the_loop Scenarios.paused (newSystem false)
           Scenarios.emptyWorld 2).
  - reflexivity.
  - vm_compute. discriminate.
Defined.

(** The same holds for a value that is none of RUN, PAUSE and STOP. *)
Example unrecognized_value_stops :
  fst (checkKillSwitch
         (Scenarios.with_control (fun _ => Ok (ControlRows [Some "resume"]))
                                 Scenarios.calm)
         Scenarios.emptyWorld) = Ok true.
Proof. reflexivity. Qed.

Example RUN_proceeds :
  fst (checkKillSwitch Scenarios.calm Scenarios.emptyWorld) = Ok false.
Proof. reflexivity. Qed.

(** The test runner's check does what the orchestrator's does not: on
    PAUSE it sleeps a minute and reads the cell again. *)
Lemma sibling_pause_waits E fuel w :
  statusOf (env_control E (tick w)) = "PAUSE" ->
  TestMain.checkKillSwitch E (S fuel) w =
  TestMain.checkKillSwitch E fuel
    (mkWorld (leadsSheet w) (S (S (tick w)))
             (trace w ++ [EvControlRead; EvSleep 60000]) (dailyCounters w)).
Proof.
  intros Hp. cbn [TestMain.checkKillSwitch]. unfold bind at 1.
  rewrite getKillSwitchStatus_eq, Hp. cbn [String.eqb Ascii.eqb Bool.eqb].
  unfold bind, sleep, bind, next_tick, emit. cbn [tick trace leadsSheet dailyCounters].
  now rewrite <- app_assoc.
Qed.

(** On a value it does not know it lets the phase proceed. *)
Lemma sibling_fails_open E fuel w :
  statusOf (env_control E (tick w)) <> "STOP" ->
  statusOf (env_control E (tick w)) <> "PAUSE" ->
  fst (TestMain.checkKillSwitch E (S fuel) w) = Ok (Some false).
Proof.
  intros Hs Hp. cbn [TestMain.checkKillSwitch]. unfold bind.
  rewrite getKillSwitchStatus_eq.
  apply String.eqb_neq in Hs, Hp. now rewrite Hs, Hp.
Qed.

Example sibling_resumes :
  fst (TestMain.checkKillSwitch Scenarios.pausedThenRun 5 Scenarios.emptyWorld)
  = Ok (Some false).
Proof. reflexivity. Qed.

(** ** The circuit breaker *)

Lemma cycle_completed E sys w w1 :
  runPhases E sys w = (Ok false, w1) ->
  cycle E sys w =
  (Ok (Continue (set_errorCount 0 sys)), snd (sleep Config.cycleWait w1)).
Proof.
  intros H. unfold cycle, try_catch, bind at 1. rewrite H. reflexivity.
Qed.

Lemma cycle_failed_retry E sys w msg w1 :
  runPhases E sys w = (Throw msg, w1) ->
  isPermissionError msg = false ->
  S (errorCount sys) < maxErrors sys ->
  cycle E sys w =
  (Ok (Continue (set_errorCount (S (errorCount sys)) sys)),
   snd (sleep Config.retryDelay w1)).
Proof.
  intros H Hperm Hlt. unfold cycle, try_catch, bind at 1. rewrite H, Hperm.
  cbn [maxErrors errorCount set_errorCount].
  destruct (Nat.leb_spec (maxErrors sys) (S (errorCount sys))); [lia|].
  reflexivity.
Qed.

Lemma shutdown_running sys w :
  isShuttingDown sys = false ->
  shutdown sys w =
  (Ok (set_isShuttingDown true sys),
   mkWorld (leadsSheet w) (tick w) (trace w ++ shutdownEvents sys) (dailyCounters w)).
Proof.
  intros H. unfold shutdown. rewrite H. unfold shutdownEvents.
  destruct (isDemo sys); cbn; now rewrite <- !app_assoc.
Qed.

Lemma cycle_failed_trip E sys w msg w1 :
  runPhases E sys w = (Throw msg, w1) ->
  isPermissionError msg = false ->
  isShuttingDown sys = false ->
  maxErrors sys <= S (errorCount sys) ->
  cycle E sys w =
  (Ok (Break (set_isShuttingDown true (set_errorCount (S (errorCount sys)) sys))),
   mkWorld (leadsSheet w1) (tick w1) (trace w1 ++ shutdownEvents sys)
           (dailyCounters w1)).
Proof.
  intros H Hperm Hrun Hle. unfold cycle, try_catch, bind at 1. rewrite H, Hperm.
  cbn [maxErrors errorCount set_errorCount].
  destruct (Nat.leb_spec (maxErrors sys) (S (errorCount sys))); [|lia].
  unfold bind. rewrite shutdown_running by assumption. reflexivity.
Qed.

(** [n] failing cycles that bring the counter up to the threshold: the
    loop runs exactly these and shuts down after the last. *)
Lemma loop_trips_after n : forall E sys c w fuel,
  isShuttingDown sys = false ->
  errorCount sys + S n = maxErrors sys ->
  failingCycles E (S n) sys c w ->
  S n <= fuel ->
  exists sys' w' pre,
    runAutomationLoop E fuel sys c w = (Ok (sys', c + S n, true), w')
    /\ isShuttingDown sys' = true
    /\ errorCount sys' = maxErrors sys
    /\ trace w' = pre ++ shutdownEvents sys.
Proof.
  induction n as [|n IH]; intros E sys c w fuel Hrun Hcnt Hfail Hfuel;
    (destruct fuel as [|fuel]; [lia|]);
    rewrite runAutomationLoop_S by assumption;
    cbn [failingCycles] in Hfail;
    destruct (runPhases E sys _) as [[b|msg] w1] eqn:Hbody; try contradiction;
    destruct Hfail as [Hperm Hrest].
  - rewrite (cycle_failed_trip _ _ _ _ _ Hbody Hperm Hrun) by lia.
    rewrite Nat.add_1_r.
    eexists _, _, (trace w1). split; [reflexivity|].
    cbn [isShuttingDown errorCount maxErrors set_errorCount set_isShuttingDown trace].
    repeat split; lia.
  - rewrite (cycle_failed_retry _ _ _ _ _ Hbody Hperm) by lia.
    destruct (IH E (set_errorCount (S (errorCount sys)) sys) (S c)
                 (snd (sleep Config.retryDelay w1)) fuel)
      as (sys' & w' & pre & Hloop & Hdown & Hcount & Htrace);
      cbn [isShuttingDown errorCount maxErrors set_errorCount]; try assumption; try lia.
    exists sys', w', pre. rewrite Hloop.
    replace (c + S (S n)) with (S c + S n) by lia.
    repeat split; assumption.
Qed.

(** C9. With the threshold at five, when five consecutive cycles each
    raise an error that is not a permission error, the loop runs exactly
    those five cycles: it shuts the system down after the fifth, with the
    consecutive-error counter at the threshold, and no sixth cycle is
    started (given fuel for at least five cycles, the loop is left with its
    cycle counter at five). And a cycle whose three phases complete without
    exception sets the counter back to zero before the next one. *)
Theorem C9_five_failures_trip_the_breaker E sys w fuel :
  isShuttingDown sys = false ->
  errorCount sys = 0 ->
  maxErrors sys = Config.circuitBreakerThreshold ->
  failingCycles E 5 sys 0 w ->
  5 <= fuel ->
  (exists sys' w' pre,
      runAutomationLoop E fuel sys 0 w = (Ok (sys', 5, true), w')
      /\ isShuttingDown sys' = true
      /\ errorCount sys' = 5
      /\ trace w' = pre ++ shutdownEvents sys)
  /\ (forall sys1 w1 w2,
         runPhases E sys1 w1 = (Ok false, w2) ->
         exists sys2 w3,
           cycle E sys1 w1 = (Ok (Continue sys2), w3) /\ errorCount sys2 = 0).
Proof.
  intros Hrun Hzero Hmax Hfail Hfuel. split.
  - destruct (loop_trips_after 4 E sys 0 w fuel) as (sys' & w' & pre & H1 & H2 & H3 & H4);
      try assumption.
    + rewrite Hzero, Hmax. reflexivity.
    + exists sys', w', pre. rewrite H3, Hmax in *. auto.
  - intros sys1 w1 w2 Hok. eexists _, _. split.
    + apply cycle_completed. exact Hok.
    + reflexivity.
Qed.

Lemma C9_five_failures_trip_the_breaker_witness :
  (exists sys' w' pre,
      runAutomationLoop Scenarios.networkDown 7 (newSystem false) 0
                        Scenarios.emptyWorld = (Ok (sys', 5, true), w')
      /\ isShuttingDown sys' = true
      /\ errorCount sys' = 5
      /\ trace w' = pre ++ shutdownEvents (newSystem false))
  /\ (forall sys1 w1 w2,
         runPhases Scenarios.networkDown sys1 w1 = (Ok false, w2) ->
         exists sys2 w3,
           cycle Scenarios.networkDown sys1 w1 = (Ok (Continue sys2), w3)
           /\ errorCount sys2 = 0).
Proof.
  apply (C9_five_failures_trip_the_breaker Scenarios.networkDown (newSystem false)
           Scenarios.emptyWorld 7).
  - reflexivity.
  - reflexivity.
  - reflexivity.
  - vm_compute. repeat split.
  - lia.
Defined.

(** In that run the cycles started are the first five, and the last
    events are those of the shutdown. *)
Example five_cycle_starts_then_shutdown :
  let w' := snd (runAutomationLoop Scenarios.networkDown 7 (newSystem false) 0
                                   Scenarios.emptyWorld) in
  List.filter (fun e => match e with EvCycleStart _ => true | _ => false end) (trace w')
  = [EvCycleStart 1; EvCycleStart 2; EvCycleStart 3; EvCycleStart 4; EvCycleStart 5]
  /\ drop (length (trace w') - 3) (trace w') = [EvShutdown; EvBotClose; EvSheetsClose].
Proof. cbv zeta. split; vm_compute; reflexivity. Qed.

(** Four failures leave the system running, its counter at four. *)
Example four_failures_keep_running :
  let '(r, _) := runAutomationLoop Scenarios.networkDown 4 (newSystem false) 0
                                   Scenarios.emptyWorld in
  r = Ok (set_errorCount 4 (newSystem false), 4, false).
Proof. vm_compute. reflexivity. Qed.

(** ** Frame rules

    A relation between worlds that is reflexive and transitive is moved
    along by the monad's combinators; what remains to be shown for a
    program is that its primitive effects respect the relation. *)

Section StepRules.

Variable R : World -> World -> Prop.
Hypothesis R_refl : forall w, R w w.
Hypothesis R_trans : forall a b c, R a b -> R b c -> R a c.

Lemma steps_ret {A} (a : A) : steps R (ret a).
Proof. intros w. apply R_refl. Qed.

Lemma steps_throw {A} msg : steps R (@throw A msg).
Proof. intros w. apply R_refl. Qed.

Lemma steps_bind {A B} (m : M A) (k : A -> M B) :
  steps R m -> (forall a, steps R (k a)) -> steps R (bind m k).
Proof.
  intros Hm Hk w. unfold bind. specialize (Hm w).
  destruct (m w) as [[a|msg] w1]; cbn [snd] in *; [|assumption].
  eapply R_trans; [exact Hm|apply Hk].
Qed.

Lemma steps_try_catch {A} (m : M A) h :
  steps R m -> (forall msg, steps R (h msg)) -> steps R (try_catch m h).
Proof.
  intros Hm Hh w. unfold try_catch. specialize (Hm w).
  destruct (m w) as [[a|msg] w1]; cbn [snd] in *; [assumption|].
  eapply R_trans; [exact Hm|apply Hh].
Qed.

Lemma steps_for_each {A} (xs : list A) body :
  (forall x, steps R (body x)) -> steps R (for_each xs body).
Proof.
  intros Hb. induction xs as [|x xs IH]; cbn [for_each].
  - apply steps_ret.
  - apply steps_bind; [apply Hb|intros _; exact IH].
Qed.

Lemma steps_lift_unit o : steps R (lift_unit o).
Proof. destruct o; [apply steps_throw|apply steps_ret]. Qed.

Lemma steps_lift_result {A} (r : result A) : steps R (lift_result r).
Proof. destruct r; [apply steps_ret|apply steps_throw]. Qed.

Lemma steps_get_sheet : steps R get_sheet.
Proof. intros w. apply R_refl. Qed.

Lemma steps_get_counters : steps R get_counters.
Proof. intros w. apply R_refl. Qed.

End StepRules.

(** Take a program apart along its combinators; [prim] settles the
    primitive effects and the calls already dealt with. *)
Ltac steps_by refl trans prim :=
  repeat (intros; first
    [ apply (steps_ret _ refl)
    | apply (steps_throw _ refl)
    | apply (steps_lift_unit _ refl)
    | apply (steps_lift_result _ refl)
    | apply (steps_get_sheet _ refl)
    | apply (steps_get_counters _ refl)
    | solve [prim]
    | apply (steps_bind _ trans)
    | apply (steps_try_catch _ trans)
    | apply (steps_for_each _ refl trans)
    | match goal with
      | |- steps _ (match ?x with _ => _ end) => destruct x
      end ]).

Lemma extends_refl phi w : extends phi w w.
Proof. exists []. split; [now rewrite app_nil_r|constructor]. Qed.

Lemma extends_trans phi a b c :
  extends phi a b -> extends phi b c -> extends phi a c.
Proof.
  intros (d1 & H1 & F1) (d2 & H2 & F2). exists (d1 ++ d2). split.
  - now rewrite H2, H1, app_assoc.
  - apply Forall_app. now split.
Qed.

Lemma extends_same_trace phi w w' : trace w' = trace w -> extends phi w w'.
Proof. intros H. exists []. split; [now rewrite app_nil_r|constructor]. Qed.

Lemma extends_next_tick phi : steps (extends phi) next_tick.
Proof. intros w. now apply extends_same_trace. Qed.

Lemma extends_emit (phi : Event -> Prop) e : phi e -> steps (extends phi) (emit e).
Proof. intros He w. exists [e]. split; [reflexivity|]. repeat constructor. exact He. Qed.

Lemma extends_put_sheet phi rows : steps (extends phi) (put_sheet rows).
Proof. intros w. now apply extends_same_trace. Qed.

(** ** What the program's functions respect

    [R] is any reflexive, transitive relation that the clock tick respects,
    that emitting a [good] event respects, and that writes to the sheet and
    resets of the counters respect when [sheet_ok] and [reset_ok] hold. *)

Create HintDb frame.

Section Frame.

Variable R : World -> World -> Prop.
Variable good : Event -> Prop.
Variables sheet_ok reset_ok : Prop.
Hypothesis R_refl : forall w, R w w.
Hypothesis R_trans : forall a b c, R a b -> R b c -> R a c.
Hypothesis R_tick : steps R next_tick.
Hypothesis R_emit : forall e, good e -> steps R (emit e).
Hypothesis R_put_sheet : sheet_ok -> forall rows, steps R (put_sheet rows).
Hypothesis R_reset : reset_ok -> forall E, steps R (resetDailyCountersIfNeeded E).

Ltac frame :=
  steps_by R_refl R_trans
    ltac:(first [ apply R_tick
                | apply R_emit; first [assumption | solve [auto]]
                | apply R_put_sheet; assumption
                | apply R_reset; assumption
                | solve [eauto with frame] ]).

Lemma sleep_frame ms : good (EvSleep ms) -> steps R (sleep ms).
Proof. intros. unfold sleep. frame. Qed.

Lemma nowIso_frame E : steps R (nowIso E).
Proof. unfold nowIso. frame. Qed.

Lemma getRows_frame E : good EvGetRows -> steps R (getRows E).
Proof. intros. unfold getRows. frame. Qed.

Lemma random_frame E : steps R (random E).
Proof. unfold random. frame. Qed.

Local Hint Resolve sleep_frame nowIso_frame getRows_frame random_frame : frame.

Lemma randomDelay_frame E lo hi : steps R (randomDelay E lo hi).
Proof. unfold randomDelay. frame. Qed.

Lemma randomIndex_frame E n : steps R (randomIndex E n).
Proof. unfold randomIndex. frame. Qed.

Lemma getRandomTimeToday_frame E : steps R (getRandomTimeToday E).
Proof. unfold getRandomTimeToday. frame. Qed.

Local Hint Resolve randomDelay_frame randomIndex_frame getRandomTimeToday_frame : frame.

Lemma save_frame E r :
  sheet_ok -> good (EvSaveRow r) -> steps R (save E r).
Proof. intros. unfold save. frame. Qed.

Lemma addRow_frame E data :
  sheet_ok -> (forall n, good (EvAddRow (set_rowNumber n data))) ->
  steps R (addRow E data).
Proof. intros. unfold addRow. frame. Qed.

Lemma verifyAttempt_frame E leads :
  good EvLoadInfo -> good EvGetRows -> steps R (verifyAttempt E leads).
Proof. intros. unfold verifyAttempt. frame. Qed.

Local Hint Resolve save_frame addRow_frame verifyAttempt_frame : frame.

Lemma verifyLoop_frame E leads n : forall i,
  (forall ms, good (EvSleep ms)) -> good EvLoadInfo -> good EvGetRows ->
  steps R (verifyLoop E leads n i).
Proof.
  induction n as [|n IH]; intros; cbn [verifyLoop]; frame.
Qed.

Lemma getLeadsForEngagement_frame E :
  good EvGetRows -> steps R (getLeadsForEngagement E).
Proof. intros. unfold getLeadsForEngagement. frame. Qed.

Lemma getAllUsernames_frame E : good EvGetRows -> steps R (getAllUsernames E).
Proof. intros. unfold getAllUsernames. frame. Qed.

Lemma markDMSent_frame E leadId :
  sheet_ok -> good EvGetRows -> (forall r, good (EvSaveRow r)) ->
  steps R (markDMSent E leadId).
Proof. intros. unfold markDMSent. frame. Qed.

Lemma logError_frame E leadId msg :
  sheet_ok -> good EvGetRows -> (forall r, good (EvSaveRow r)) ->
  steps R (logError E leadId msg).
Proof. intros. unfold logError. frame. Qed.

Lemma generatePersonalizedMessage_frame E S lead :
  steps R (generatePersonalizedMessage E S lead).
Proof. unfold generatePersonalizedMessage. frame. Qed.

Lemma getRandomComment_frame E S : steps R (getRandomComment E S).
Proof. unfold getRandomComment. frame. Qed.

Local Hint Resolve verifyLoop_frame getLeadsForEngagement_frame
  getAllUsernames_frame markDMSent_frame logError_frame
  generatePersonalizedMessage_frame getRandomComment_frame : frame.

Lemma planDMs_frame E S rem leads : forall n, steps R (planDMs E S rem leads n).
Proof.
  induction leads as [|lead rest IH]; intros; cbn [planDMs]; frame.
Qed.

Lemma planLike_frame E rem n lead k : steps R (planLike E rem n lead k).
Proof. unfold planLike. frame. Qed.

Lemma planRetweet_frame E rem lead k : steps R (planRetweet E rem lead k).
Proof. unfold planRetweet. frame. Qed.

Lemma planComment_frame E S rem lead k : steps R (planComment E S rem lead k).
Proof. unfold planComment. frame. Qed.

Local Hint Resolve planDMs_frame planLike_frame planRetweet_frame
  planComment_frame : frame.

Lemma planEngagement_frame E S rl rr rc n leads : forall counts,
  steps R (planEngagement E S rl rr rc n leads counts).
Proof.
  induction leads as [|lead rest IH]; intros; cbn [planEngagement]; frame.
Qed.

Local Hint Resolve planEngagement_frame : frame.

Lemma createDailyPlan_frame E S leads lim :
  reset_ok -> steps R (createDailyPlan E S leads lim).
Proof. intros. unfold createDailyPlan. frame. Qed.

Local Hint Resolve createDailyPlan_frame : frame.

Lemma insertAll_frame E leads :
  sheet_ok ->
  Forall (fun lead => forall n ts, good (EvAddRow (set_rowNumber n (leadRow lead ts))))
         leads ->
  steps R (insertAll E leads).
Proof.
  intros Hs Hall. unfold insertAll.
  induction Hall as [|lead rest Hlead Hrest IH]; cbn [for_each]; frame.
Qed.

Local Hint Resolve insertAll_frame : frame.

Lemma appendLeads_frame E leads :
  sheet_ok ->
  Forall (fun lead => forall n ts, good (EvAddRow (set_rowNumber n (leadRow lead ts))))
         leads ->
  (forall ms, good (EvSleep ms)) -> good EvLoadInfo -> good EvGetRows ->
  steps R (appendLeads E leads).
Proof. intros. unfold appendLeads, handleConnectionError. frame. Qed.

Lemma scrapeKeywords_frame E kws : forall acc,
  (forall kw, good (EvScrape kw)) -> (forall ms, good (EvSleep ms)) ->
  steps R (scrapeKeywords E kws acc).
Proof.
  induction kws as [|kw rest IH]; intros; cbn [scrapeKeywords]; frame.
Qed.

Lemma executeActivity_frame E a :
  sheet_ok -> (forall e, good e) -> steps R (executeActivity E a).
Proof. intros. unfold executeActivity. frame. Qed.

Local Hint Resolve executeActivity_frame : frame.

Lemma executeAll_frame E acts : forall n,
  sheet_ok -> (forall e, good e) -> steps R (executeAll E acts n).
Proof.
  induction acts as [|a rest IH]; intros; cbn [executeAll]; frame.
Qed.

Local Hint Resolve executeAll_frame : frame.

Lemma engagementPhase_frame E sys :
  sheet_ok -> reset_ok -> (forall e, good e) -> steps R (engagementPhase E sys).
Proof. intros. unfold engagementPhase. frame. Qed.

End Frame.

(** ** Instances of the frame rules *)

Lemma extends_reset phi E : steps (extends phi) (resetDailyCountersIfNeeded E).
Proof.
  intros w. apply extends_same_trace. unfold resetDailyCountersIfNeeded, bind.
  cbn. now destruct (String.eqb _ _).
Qed.

Ltac ext_side phi :=
  first [ exact (extends_refl phi) | exact (extends_trans phi)
        | exact (extends_next_tick phi) | exact (extends_emit phi)
        | (intros _; exact (extends_put_sheet phi))
        | (intros _; exact (extends_reset phi))
        | exact I | reflexivity | (intros; reflexivity) | assumption ].

Lemma counters_le_refl w : counters_le w w.
Proof. unfold counters_le. lia. Qed.

Lemma counters_le_trans a b c : counters_le a b -> counters_le b c -> counters_le a c.
Proof. unfold counters_le. lia. Qed.

Lemma counters_le_reset E : steps counters_le (resetDailyCountersIfNeeded E).
Proof.
  intros w. unfold resetDailyCountersIfNeeded, bind, counters_le. cbn.
  destruct (String.eqb _ _); cbn; lia.
Qed.

(** No engagement phase ever raises a counter of the scheduler. *)
Lemma engagementPhase_never_records E sys : steps counters_le (engagementPhase E sys).
Proof.
  apply (engagementPhase_frame counters_le (fun _ => True) True True).
  - exact counters_le_refl.
  - exact counters_le_trans.
  - intros w. unfold counters_le. cbn. lia.
  - intros e _ w. unfold counters_le. cbn. lia.
  - intros _ rows w. unfold counters_le. cbn. lia.
  - intros _. exact counters_le_reset.
  - exact I.
  - exact I.
  - intros; exact I.
Qed.

(** C3 (the code departs from the claim). One lead is ready, the bot sends
    the direct message and likes the latest post, both without error, and
    the engagement phase returns normally; yet every counter of the
    scheduler is what it was before the phase. [incrementCounter], the
    operation that records an action, would have raised the count to one:
    the orchestrator never calls it. The claim has every successful action
    recorded. *)
Theorem C3_successful_action_is_not_recorded :
  let w := Scenarios.oneReady in
  let w' := snd (engagementPhase Scenarios.calm (newSystem false) w) in
  fst (engagementPhase Scenarios.calm (newSystem false) w) = Ok tt
  /\ executed w w' = [EvSendDM "alice" (Some "Hey alice! Your recent posts about basketball caught my attention. I'm working on something similar - would you be open to a quick chat?");
                      EvGetLatestTweetUrl "alice"]
  /\ In (EvLikePost "https://twitter.com/i/status/1") (trace w')
  /\ (forall t u m, env_sendDM Scenarios.calm t u m = None)
  /\ (forall t u, env_likePost Scenarios.calm t u = None)
  /\ dailyCounters w' = dailyCounters w
  /\ cnt_dm (dailyCounters w') = 0
  /\ cnt_likes (dailyCounters w') = 0
  /\ cnt_dm (dailyCounters (snd (incrementCounter Scenarios.calm (kind_name dm) w'))) = 1.
Proof.
  cbv zeta.
  split; [vm_compute; reflexivity|].
  split; [vm_compute; reflexivity|].
  split; [vm_compute; tauto|].
  split; [intros; reflexivity|].
  split; [intros; reflexivity|].
  split; [vm_compute; reflexivity|].
  split; [vm_compute; reflexivity|].
  split; vm_compute; reflexivity.
Qed.

(** ** The engagement phase executes the head of the plan *)

Lemma markDMSent_quiet E leadId : steps (extends notAttempt) (markDMSent E leadId).
Proof.
  apply (markDMSent_frame (extends notAttempt) notAttempt True); ext_side notAttempt.
Qed.

Lemma logError_quiet E leadId msg : steps (extends notAttempt) (logError E leadId msg).
Proof.
  apply (logError_frame (extends notAttempt) notAttempt True); ext_side notAttempt.
Qed.

Lemma randomDelay_quiet E lo hi : steps (extends notAttempt) (randomDelay E lo hi).
Proof. apply randomDelay_frame; ext_side notAttempt. Qed.

Lemma sleep_quiet ms : steps (extends notAttempt) (sleep ms).
Proof. apply (sleep_frame (extends notAttempt) notAttempt); ext_side notAttempt. Qed.

Lemma getLeadsForEngagement_quiet E :
  steps (extends notAttempt) (getLeadsForEngagement E).
Proof.
  apply (getLeadsForEngagement_frame (extends notAttempt) notAttempt);
    ext_side notAttempt.
Qed.

Lemma createDailyPlan_quiet E S leads lim :
  steps (extends notAttempt) (createDailyPlan E S leads lim).
Proof.
  apply (createDailyPlan_frame (extends notAttempt) True); ext_side notAttempt.
Qed.

Ltac quiet :=
  steps_by (extends_refl notAttempt) (extends_trans notAttempt)
    ltac:(first [ apply extends_next_tick
                | apply extends_emit; reflexivity
                | apply markDMSent_quiet | apply logError_quiet
                | apply randomDelay_quiet | apply sleep_quiet ]).

(** A handler that returns makes the whole [try] return. *)
Lemma try_catch_total {A} (m : M A) (h : string -> M A) w :
  (forall msg w1, exists a w2, h msg w1 = (Ok a, w2)) ->
  exists a w', try_catch m h w = (Ok a, w').
Proof.
  intros Hh. unfold try_catch. destruct (m w) as [[a|msg] w1]; eauto.
Qed.

Lemma logError_total E leadId msg w :
  exists w', logError E leadId msg w = (Ok tt, w').
Proof.
  destruct (try_catch_total
              (rows ← getRows E;
               match findRow leadId rows with
               | Some targetRow =>
                   date ← nowIso E;
                   save E (set_error (JS.substring0 500 msg) date targetRow)
               | None => ret tt
               end)
              (fun _ => ret tt) w) as ([] & w' & H).
  - intros m w1. exists tt, w1. reflexivity.
  - exists w'. exact H.
Qed.

Lemma after_first_event {A} phi e (k : nat -> M A) w :
  (forall t, steps (extends phi) (k t)) ->
  exists d,
    trace (snd ((t ← next_tick; emit e;; k t) w)) = trace w ++ e :: d
    /\ Forall phi d.
Proof.
  intros Hk.
  set (w1 := mkWorld (leadsSheet w) (S (tick w)) (trace w ++ [e]) (dailyCounters w)).
  assert (Heq : (t ← next_tick; emit e;; k t) w = k (tick w) w1) by reflexivity.
  rewrite Heq. destruct (Hk (tick w) w1) as (d & Hd & Fd).
  exists d. split; [|exact Fd].
  rewrite Hd. cbn [trace w1]. now rewrite <- app_assoc.
Qed.

(** Executing an activity begins with its request to the bot, and issues
    no other request of that kind. *)
Lemma executeActivity_attempt E a w :
  exists d,
    trace (snd (executeActivity E a w)) = trace w ++ attemptOf a :: d
    /\ Forall notAttempt d.
Proof.
  unfold executeActivity, attemptOf.
  destruct (type a); apply after_first_event; intros t; quiet.
Qed.

Lemma execute_one E a (rest : list Activity) n w :
  exists n' w1 d,
    try_catch
      (executeActivity E a;;
       match rest with
       | [] => ret (S n)
       | _ =>
           delay ← randomDelay E Config.minDelayBetweenActions
                                 Config.maxDelayBetweenActions;
           sleep delay;;
           ret (S n)
       end)
      (fun msg =>
         logError E (activity_id a) ("Engagement error: " +:+ msg);;
         ret n) w = (Ok n', w1)
    /\ trace w1 = trace w ++ attemptOf a :: d
    /\ Forall notAttempt d.
Proof.
  destruct (executeActivity_attempt E a w) as (d0 & Hd0 & Fd0).
  unfold try_catch, bind at 1.
  destruct (executeActivity E a w) as [[[]|msg] w0]; cbn [snd] in Hd0.
  - assert (Hq : steps (extends notAttempt)
                   (match rest with
                    | [] => ret (S n)
                    | _ =>
                        delay ← randomDelay E Config.minDelayBetweenActions
                                              Config.maxDelayBetweenActions;
                        sleep delay;;
                        ret (S n)
                    end)) by quiet.
    destruct (Hq w0) as (d1 & Hd1 & Fd1).
    assert (Hok : exists w1,
               (match rest with
                | [] => ret (S n)
                | _ =>
                    delay ← randomDelay E Config.minDelayBetweenActions
                                          Config.maxDelayBetweenActions;
                    sleep delay;;
                    ret (S n)
                end) w0 = (Ok (S n), w1)).
    { destruct rest; [eexists; reflexivity|]. eexists. reflexivity. }
    destruct Hok as (w1 & Hw1). rewrite Hw1 in *. cbn [snd] in Hd1.
    exists (S n), w1, (d0 ++ d1). repeat split.
    + rewrite Hd1, Hd0, <- app_assoc. reflexivity.
    + apply Forall_app. now split.
  - destruct (logError_total E (activity_id a) ("Engagement error: " +:+ msg) w0)
      as (w1 & Hw1).
    destruct (logError_quiet E (activity_id a) ("Engagement error: " +:+ msg) w0)
      as (d1 & Hd1 & Fd1).
    unfold bind. rewrite Hw1 in *. cbn [snd] in Hd1.
    exists n, w1, (d0 ++ d1). repeat split.
    + rewrite Hd1, Hd0, <- app_assoc. reflexivity.
    + apply Forall_app. now split.
Qed.

Lemma filter_notAttempt d : Forall notAttempt d -> List.filter isAttempt d = [].
Proof.
  induction 1 as [|e d He _ IH]; [reflexivity|].
  cbn. unfold notAttempt in He. now rewrite He.
Qed.

Lemma isAttempt_attemptOf a : isAttempt (attemptOf a) = true.
Proof. unfold attemptOf. now destruct (type a). Qed.

(** The execution loop never throws, and begins the activities it is
    given, all of them and in their order. *)
Lemma executeAll_attempts E acts : forall n w,
  exists k w' d,
    executeAll E acts n w = (Ok k, w')
    /\ trace w' = trace w ++ d
    /\ List.filter isAttempt d = attemptOf <$> acts.
Proof.
  induction acts as [|a rest IH]; intros n w; cbn [executeAll].
  - exists n, w, []. repeat split. now rewrite app_nil_r.
  - destruct (execute_one E a rest n w) as (n' & w1 & d1 & H1 & T1 & F1).
    destruct (IH n' w1) as (k & w' & d & H2 & T2 & F2).
    exists k, w', (attemptOf a :: d1 ++ d). split; [|split].
    + unfold bind at 1. rewrite H1. exact H2.
    + rewrite T2, T1, <- app_assoc. reflexivity.
    + cbn [List.filter]. rewrite isAttempt_attemptOf, List.filter_app,
        (filter_notAttempt _ F1), F2. reflexivity.
Qed.

Lemma newEvents_app w w' d : trace w' = trace w ++ d -> newEvents w w' = d.
Proof. intros H. unfold newEvents. rewrite H. apply drop_app_length. Qed.

(** C10. Outside demo mode the engagement phase begins exactly the first
    [activitiesPerCycle] (ten) activities of the sorted plan, in plan
    order, and so at most ten, however many were planned. It never throws,
    and the world it leaves is the one the execution loop leaves when given
    that prefix alone: what the plan held beyond the prefix has no effect
    and is kept nowhere; the next phase builds its plan anew. *)
Theorem C10_first_ten_of_the_plan E sys w leads w1 plan w2 :
  isDemo sys = false ->
  getLeadsForEngagement E w = (Ok leads, w1) ->
  createDailyPlan E (scheduler sys) leads None w1 = (Ok plan, w2) ->
  exists w',
    engagementPhase E sys w = (Ok tt, w')
    /\ executed w w' = attemptOf <$> take Config.activitiesPerCycle plan
    /\ length (executed w w') <= Config.activitiesPerCycle
    /\ Config.activitiesPerCycle = 10
    /\ w' = snd (executeAll E (take Config.activitiesPerCycle plan) 0 w2).
Proof.
  intros Hdemo Hleads Hplan.
  destruct (getLeadsForEngagement_quiet E w) as (d1 & T1 & F1).
  rewrite Hleads in T1. cbn [snd] in T1.
  destruct (createDailyPlan_quiet E (scheduler sys) leads None w1) as (d2 & T2 & F2).
  rewrite Hplan in T2. cbn [snd] in T2.
  destruct (executeAll_attempts E (take Config.activitiesPerCycle plan) 0 w2)
    as (k & w3 & d3 & H3 & T3 & F3).
  assert (Hex : executed w w3 = attemptOf <$> take Config.activitiesPerCycle plan).
  { unfold executed. rewrite (newEvents_app w w3 (d1 ++ d2 ++ d3)).
    - rewrite !List.filter_app, (filter_notAttempt _ F1), (filter_notAttempt _ F2).
      exact F3.
    - rewrite T3, T2, T1, <- !app_assoc. reflexivity. }
  exists w3. split; [|split; [exact Hex|split; [|split; [reflexivity|]]]].
  - unfold engagementPhase, try_catch, bind at 1. rewrite Hleads.
    destruct leads as [|l ls].
    + cbn in Hplan. injection Hplan as <- <-. cbn in H3. injection H3 as _ <-.
      reflexivity.
    + unfold bind at 1. rewrite Hplan. destruct plan as [|a plan'].
      * cbn in H3. injection H3 as _ <-. reflexivity.
      * rewrite Hdemo. unfold bind. rewrite H3. reflexivity.
  - rewrite Hex, length_fmap, length_take. lia.
  - now rewrite H3.
Qed.

Lemma C10_first_ten_of_the_plan_witness :
  exists w',
    engagementPhase Scenarios.calm (newSystem false) Scenarios.sevenReady = (Ok tt, w')
    /\ executed Scenarios.sevenReady w'
       = attemptOf <$> take Config.activitiesPerCycle Scenarios.sevenPlan
    /\ length (executed Scenarios.sevenReady w') <= Config.activitiesPerCycle
    /\ Config.activitiesPerCycle = 10
    /\ w' = snd (executeAll Scenarios.calm
                   (take Config.activitiesPerCycle Scenarios.sevenPlan) 0
                   Scenarios.sevenPlanned).
Proof.
  apply (C10_first_ten_of_the_plan Scenarios.calm (newSystem false)
           Scenarios.sevenReady Scenarios.sevenLeads Scenarios.sevenRead
           Scenarios.sevenPlan Scenarios.sevenPlanned).
  - reflexivity.
  - vm_compute. reflexivity.
  - vm_compute. reflexivity.
Defined.

(** Fourteen activities are planned for the seven leads; ten are begun. *)
Example seven_leads_fourteen_planned_ten_begun :
  length Scenarios.sevenPlan = 14
  /\ length (executed Scenarios.sevenReady
               (snd (engagementPhase Scenarios.calm (newSystem false)
                                     Scenarios.sevenReady))) = 10.
Proof. split; vm_compute; reflexivity. Qed.

(** In demo mode the plan is only shown: nothing is begun. *)
Lemma engagementPhase_demo E sys w :
  isDemo sys = true -> executed w (snd (engagementPhase E sys w)) = [].
Proof.
  intros Hdemo.
  destruct (getLeadsForEngagement_quiet E w) as (d1 & T1 & F1).
  destruct (getLeadsForEngagement E w) as [[leads|msg] w1] eqn:Hleads; cbn [snd] in T1.
  - destruct (createDailyPlan_quiet E (scheduler sys) leads None w1) as (d2 & T2 & F2).
    assert (Hw : exists w', snd (engagementPhase E sys w) = w'
                            /\ (w' = w1 \/ w' = snd (createDailyPlan E (scheduler sys)
                                                                      leads None w1))).
    { unfold engagementPhase, try_catch, bind at 1. rewrite Hleads.
      destruct leads; [eexists; split; [reflexivity|now left]|].
      unfold bind at 1.
      destruct (createDailyPlan E (scheduler sys) _ None w1) as [[plan|m] w2].
      - destruct plan; [eexists; split; [reflexivity|now right]|].
        rewrite Hdemo. eexists; split; [reflexivity|now right].
      - eexists; split; [reflexivity|now right]. }
    destruct Hw as (w' & -> & [-> | ->]); unfold executed.
    + rewrite (newEvents_app w w1 d1 T1). now apply filter_notAttempt.
    + rewrite (newEvents_app w _ (d1 ++ d2)).
      * rewrite List.filter_app, (filter_notAttempt _ F1), (filter_notAttempt _ F2).
        reflexivity.
      * rewrite T2, T1, <- app_assoc. reflexivity.
  - assert (Hw : snd (engagementPhase E sys w) = w1).
    { unfold engagementPhase, try_catch, bind at 1. now rewrite Hleads. }
    unfold executed. rewrite Hw, (newEvents_app w w1 d1 T1).
    now apply filter_notAttempt.
Qed.

(** ** Write verification *)

Lemma unverified_none leads view :
  bool_decide (length (unverifiedLeads leads view) = 0)
  = forallb (fun l => existsb (String.eqb (sl_username l)) (colUsername <$> view)) leads.
Proof.
  unfold unverifiedLeads.
  induction leads as [|l leads IH]; [reflexivity|].
  cbn [forallb]. rewrite <- IH. clear IH.
  rewrite filter_cons.
  destruct (existsb (String.eqb (sl_username l)) (colUsername <$> view)) eqn:Hex.
  - apply existsb_exists in Hex as (u & Hin & Heq). apply String.eqb_eq in Heq. subst u.
    rewrite decide_False; [reflexivity|].
    intros Hnot. apply Hnot. apply elem_of_list_to_set. now apply list_elem_of_In.
  - rewrite decide_True.
    + cbn [length]. now rewrite bool_decide_eq_false_2.
    + intros Hin. apply elem_of_list_to_set, list_elem_of_In in Hin.
      assert (existsb (String.eqb (sl_username l)) (colUsername <$> view) = true).
      { apply existsb_exists. exists (sl_username l). split; [assumption|].
        apply String.eqb_refl. }
      congruence.
Qed.

(** An attempt returns, and returns whether the batch was visible. *)
Lemma verifyAttempt_visible E leads w :
  fst (verifyAttempt E leads w) = Ok (visible E leads w).
Proof.
  unfold verifyAttempt, visible, try_catch, bind, next_tick, emit, lift_result, getRows,
    get_sheet.
  cbn [tick leadsSheet trace dailyCounters].
  destruct (env_loadInfo E (tick w)) as [[|]|msg]; cbn; try reflexivity.
  destruct (env_getRows E (S (tick w)) (leadsSheet w)) as [view|msg]; cbn; [|reflexivity].
  now rewrite unverified_none.
Qed.

Lemma verifyAttempt_no_sleep E leads : steps (extends notSleep) (verifyAttempt E leads).
Proof.
  apply (verifyAttempt_frame (extends notSleep) notSleep); ext_side notSleep.
Qed.

Lemma filter_notSleep d : Forall notSleep d -> List.filter isSleep d = [].
Proof.
  induction 1 as [|e d He _ IH]; [reflexivity|].
  cbn. unfold notSleep in He. now rewrite He.
Qed.

Lemma sleep_eq ms w :
  sleep ms w =
  (Ok tt, mkWorld (leadsSheet w) (S (tick w)) (trace w ++ [EvSleep ms]) (dailyCounters w)).
Proof. reflexivity. Qed.

(** The verification loop returns. It returns [true] exactly when one of
    its attempts finds the batch; when none does, it has slept once before
    each attempt, seven seconds longer each time. *)
Lemma verifyLoop_spec E leads n : forall i w,
  exists b w',
    verifyLoop E leads n i w = (Ok b, w')
    /\ (b = true <-> exists k, k < n /\ visible E leads (attemptStart E leads k i w) = true)
    /\ (b = false ->
        sleeps w w' = (fun j => EvSleep (7000 * (Z.of_nat j + 1))) <$> seq i n).
Proof.
  induction n as [|n IH]; intros i w.
  - exists false, w. split; [reflexivity|]. split.
    + split; [discriminate|]. intros (k & Hk & _). lia.
    + intros _. unfold sleeps.
      rewrite (newEvents_app w w []) by (now rewrite app_nil_r). reflexivity.
  - cbn [verifyLoop]. unfold bind at 1. rewrite sleep_eq.
    set (w0 := mkWorld _ _ _ _).
    assert (Hw0 : snd (sleep (7000 * (Z.of_nat i + 1)) w) = w0) by reflexivity.
    pose proof (verifyAttempt_visible E leads w0) as Hv.
    destruct (verifyAttempt_no_sleep E leads w0) as (d1 & T1 & F1).
    unfold bind at 1.
    destruct (verifyAttempt E leads w0) as [[b|msg] w1] eqn:Hatt; cbn [fst snd] in *;
      [|discriminate].
    injection Hv as ->.
    destruct (visible E leads w0) eqn:Hvis.
    + exists true, w1. split; [reflexivity|]. split; [|discriminate].
      split; [|reflexivity]. intros _. exists 0. split; [lia|].
      cbn [attemptStart]. now rewrite Hw0.
    + destruct (IH (S i) w1) as (b & w' & Hloop & Hiff & Hsl).
      exists b, w'. split; [exact Hloop|]. split.
      * rewrite Hiff. split.
        -- intros (k & Hk & Hk'). exists (S k). split; [lia|].
           cbn [attemptStart]. now rewrite Hw0, Hatt.
        -- intros (k & Hk & Hk'). destruct k as [|k].
           ++ cbn [attemptStart] in Hk'. rewrite Hw0 in Hk'. congruence.
           ++ exists k. split; [lia|]. cbn [attemptStart] in Hk'.
              now rewrite Hw0, Hatt in Hk'.
      * intros Hb. specialize (Hsl Hb). unfold sleeps in *.
        assert (Hd : exists d, trace w' = trace w1 ++ d /\ newEvents w1 w' = d).
        { destruct (verifyLoop_frame (extends (fun _ => True)) (fun _ => True)
                      (extends_refl _) (extends_trans _) (extends_next_tick _)
                      (extends_emit _) E leads n (S i)
                      (fun _ => I) I I w1) as (d & Hd & _).
          rewrite Hloop in Hd. cbn [snd] in Hd. exists d. split; [exact Hd|].
          now apply newEvents_app. }
        destruct Hd as (d & Td & Nd). rewrite Nd in Hsl.
        rewrite (newEvents_app w w' ([EvSleep (7000 * (Z.of_nat i + 1))] ++ d1 ++ d)).
        -- rewrite !List.filter_app, (filter_notSleep _ F1), Hsl. reflexivity.
        -- rewrite Td, T1. subst w0. cbn [trace]. now rewrite <- !app_assoc.
Qed.

(** C2. Once all insert requests of a non-empty batch have been issued
    without error: if none of the three verification attempts (each a
    forced refresh and a fresh read, after delays of 7, 14 and 21 seconds)
    shows every username of the batch, [appendLeads] fails, and the error
    it throws is the write-not-verified error "Post-write content
    verification failed."; if some attempt among the three shows every
    username, [appendLeads] returns without error. *)
Theorem C2_write_verification E leads w w1 :
  leads <> [] ->
  insertAll E leads w = (Ok tt, w1) ->
  ((forall k, k < maxRetries -> visible E leads (attemptStart E leads k 0 w1) = false) ->
   exists w',
     appendLeads E leads w = (Throw verificationFailed, w')
     /\ sleeps w1 w' = [EvSleep 7000; EvSleep 14000; EvSleep 21000])
  /\ ((exists k, k < maxRetries /\ visible E leads (attemptStart E leads k 0 w1) = true) ->
      exists w', appendLeads E leads w = (Ok tt, w')).
Proof.
  intros Hne Hins.
  destruct (verifyLoop_spec E leads maxRetries 0 w1) as (b & w' & Hloop & Hiff & Hsl).
  assert (Happ : appendLeads E leads w =
                 if b then (Ok tt, w') else (Throw verificationFailed, w')).
  { unfold appendLeads. destruct leads as [|l ls]; [contradiction|].
    unfold bind at 1. rewrite Hins. unfold bind at 1. rewrite Hloop.
    destruct b; reflexivity. }
  split.
  - intros Hnever. destruct b.
    + destruct (proj1 Hiff eq_refl) as (k & Hk & Hvis).
      rewrite (Hnever k Hk) in Hvis. discriminate.
    + exists w'. split; [exact Happ|]. exact (Hsl eq_refl).
  - intros Hsome. apply Hiff in Hsome. subst b. exists w'. exact Happ.
Qed.

Lemma C2_write_verification_witness :
  exists w',
    appendLeads Scenarios.bobNeverShows [Scenarios.alice; Scenarios.bob]
                Scenarios.emptyWorld = (Throw verificationFailed, w')
    /\ sleeps (Scenarios.twoInserted Scenarios.bobNeverShows) w'
       = [EvSleep 7000; EvSleep 14000; EvSleep 21000].
Proof.
  apply (proj1 (C2_write_verification Scenarios.bobNeverShows
                  [Scenarios.alice; Scenarios.bob] Scenarios.emptyWorld
                  (Scenarios.twoInserted Scenarios.bobNeverShows)
                  ltac:(discriminate) ltac:(vm_compute; reflexivity))).
  intros k Hk. unfold maxRetries in Hk.
  destruct k as [|[|[|k]]]; [vm_compute; reflexivity ..|lia].
Defined.

(** When bob shows up in time for the third attempt, the append succeeds
    after the three delays; the sheet then holds both rows. *)
Example third_attempt_verifies :
  let '(r, w') := appendLeads Scenarios.bobShowsLate [Scenarios.alice; Scenarios.bob]
                              Scenarios.emptyWorld in
  r = Ok tt
  /\ sleeps Scenarios.emptyWorld w' = [EvSleep 7000; EvSleep 14000; EvSleep 21000]
  /\ colUsername <$> leadsSheet w' = ["alice"; "bob"].
Proof. vm_compute. auto. Qed.

(** The error thrown is the one handed to [handleConnectionError], whose
    message names no permission; the longer message prepared for the
    caller, which does, is never thrown. *)
Example verification_error_is_not_a_permission_error :
  isPermissionError verificationFailed = false
  /\ isPermissionError verificationErrorMsg = true.
Proof. split; vm_compute; reflexivity. Qed.

(** ** Appending and deduplication *)

Lemma or_else_empty s : JS.or_else s "" = s.
Proof. now destruct s. Qed.

Lemma leadRow_username lead ts n :
  colUsername (set_rowNumber n (leadRow lead ts)) = sl_username lead.
Proof. cbn. apply or_else_empty. Qed.

Lemma same_sheet_refl w : same_sheet w w.
Proof. reflexivity. Qed.

Lemma same_sheet_trans a b c : same_sheet a b -> same_sheet b c -> same_sheet a c.
Proof. unfold same_sheet. congruence. Qed.

Lemma verifyLoop_same_sheet E leads n i : steps same_sheet (verifyLoop E leads n i).
Proof.
  apply (verifyLoop_frame same_sheet (fun _ => True));
    first [ exact same_sheet_refl | exact same_sheet_trans | exact I
          | (intros; exact I) | (intros w; reflexivity) | (intros e _ w; reflexivity) ].
Qed.

Lemma scrapeKeywords_same_sheet E kws acc : steps same_sheet (scrapeKeywords E kws acc).
Proof.
  apply (scrapeKeywords_frame same_sheet (fun _ => True));
    first [ exact same_sheet_refl | exact same_sheet_trans | exact I
          | (intros; exact I) | (intros w; reflexivity) | (intros e _ w; reflexivity) ].
Qed.

(** An insert that returns has put its row last on the sheet. *)
Lemma addRow_Ok E data w w1 :
  addRow E data w = (Ok tt, w1) ->
  leadsSheet w1 = leadsSheet w ++ [set_rowNumber (length (leadsSheet w) + 2) data].
Proof.
  unfold addRow, bind, next_tick, get_sheet, emit, lift_unit, put_sheet.
  cbn [tick leadsSheet trace dailyCounters].
  destruct (env_addRow E _ _); cbn; [discriminate|].
  now intros [= <-].
Qed.

(** The insertion loop, when it returns, has added one row per lead of the
    batch, in batch order, whatever the sheet held. *)
Lemma insertAll_Ok E leads : forall w w1,
  insertAll E leads w = (Ok tt, w1) ->
  usernames w1 = usernames w ++ (sl_username <$> leads).
Proof.
  unfold insertAll, usernames.
  induction leads as [|lead rest IH]; intros w w1; cbn [for_each].
  - intros [= <-]. now rewrite app_nil_r.
  - unfold bind at 1, try_catch.
    destruct ((timestamp ← (if JS.truthy (sl_scrapedAt lead)
                            then ret (sl_scrapedAt lead) else nowIso E);
               addRow E (leadRow lead timestamp)) w) as [[[]|msg] w0] eqn:Hadd.
    + intros Hrest. apply IH in Hrest. rewrite Hrest. clear Hrest IH.
      assert (Hrow : exists ts, leadsSheet w0 = leadsSheet w
                   ++ [set_rowNumber (length (leadsSheet w) + 2) (leadRow lead ts)]).
      { destruct (JS.truthy (sl_scrapedAt lead)).
        - change (addRow E (leadRow lead (sl_scrapedAt lead)) w = (Ok tt, w0)) in Hadd.
          eexists. apply (addRow_Ok E _ _ _ Hadd).
        - change (addRow E (leadRow lead (isoString (env_clock E (tick w))))
                         (snd (nowIso E w)) = (Ok tt, w0)) in Hadd.
          eexists. apply (addRow_Ok E _ _ _ Hadd). }
      destruct Hrow as (ts & ->).
      rewrite fmap_app, <- app_assoc. cbn [fmap list_fmap app].
      now rewrite (leadRow_username lead ts).
    + unfold handleConnectionError, bind, throw. discriminate.
Qed.

(** [appendLeads] never looks before it writes: when it returns, the sheet
    has grown by the whole batch. *)
Lemma appendLeads_Ok E leads w w1 :
  appendLeads E leads w = (Ok tt, w1) ->
  usernames w1 = usernames w ++ (sl_username <$> leads).
Proof.
  unfold appendLeads. destruct leads as [|l ls].
  - intros [= <-]. unfold usernames. now rewrite app_nil_r.
  - unfold bind at 1.
    destruct (insertAll E (l :: ls) w) as [[[]|msg] w0] eqn:Hins; [|discriminate].
    apply insertAll_Ok in Hins. unfold bind at 1.
    pose proof (verifyLoop_same_sheet E (l :: ls) maxRetries 0 w0) as Hsame.
    destruct (verifyLoop E (l :: ls) maxRetries 0 w0) as [[[|]|msg] w2];
      cbn [snd] in Hsame; try discriminate.
    intros [= <-]. unfold usernames in *. now rewrite Hsame.
Qed.

(** A read that succeeds gives the set of the non-empty usernames read. *)
Lemma getAllUsernames_Ok E w view :
  env_getRows E (tick w) (leadsSheet w) = Ok view ->
  fst (getAllUsernames E w)
  = Ok (list_to_set (filter (fun u => JS.truthy u) (colUsername <$> view))).
Proof.
  intros Hread. unfold getAllUsernames, try_catch, bind, getRows, bind, next_tick,
    emit, get_sheet, lift_result.
  cbn [tick leadsSheet trace dailyCounters]. now rewrite Hread.
Qed.

(** A batch whose usernames are all non-empty and all read back is empty
    after the filter of the scraping phase. *)
Lemma uniqueNewLeads_none (names : list string) leads :
  Forall (fun l => JS.truthy (sl_username l) = true /\ In (sl_username l) names) leads ->
  uniqueNewLeads (list_to_set (filter (fun u => JS.truthy u) names)) leads = [].
Proof.
  unfold uniqueNewLeads. induction 1 as [|l ls [Ht Hin] _ IH]; [reflexivity|].
  rewrite filter_cons, decide_False; [exact IH|].
  intros Hnot. apply Hnot. apply elem_of_list_to_set, list_elem_of_filter.
  split; [now rewrite Ht|now apply list_elem_of_In].
Qed.

(** C7 (as stated, refuted). On an empty sheet, with a store that accepts
    every write and shows it at once, appending the batch [alice] twice
    leaves two rows for alice. *)
Lemma C7_append_twice_duplicates :
  let w1 := snd (appendLeads Scenarios.calm [Scenarios.alice] Scenarios.emptyWorld) in
  let w2 := snd (appendLeads Scenarios.calm [Scenarios.alice] w1) in
  fst (appendLeads Scenarios.calm [Scenarios.alice] Scenarios.emptyWorld) = Ok tt
  /\ fst (appendLeads Scenarios.calm [Scenarios.alice] w1) = Ok tt
  /\ usernames w2 = ["alice"; "alice"]
  /\ ~ (length (List.filter (fun r => String.eqb (colUsername r) "alice")
                            (leadsSheet w2)) <= 1).
Proof.
  cbv zeta.
  split; [vm_compute; reflexivity|].
  split; [vm_compute; reflexivity|].
  split; [vm_compute; reflexivity|].
  vm_compute. lia.
Qed.

(** C7 (amended). [appendLeads] adds the whole batch each time it
    returns: after two calls with the same batch the sheet holds the batch
    twice over. Duplicates are kept out by the caller alone: when the
    usernames of the batch are non-empty and the first append has made them
    visible to a read, the filter the scraping phase applies before it
    appends leaves nothing of the batch, and appending that remainder
    changes nothing. *)
Theorem C7_append_is_not_idempotent E leads w w1 :
  appendLeads E leads w = (Ok tt, w1) ->
  usernames w1 = usernames w ++ (sl_username <$> leads)
  /\ (forall w2, appendLeads E leads w1 = (Ok tt, w2) ->
                 usernames w2
                 = usernames w ++ (sl_username <$> leads) ++ (sl_username <$> leads))
  /\ (Forall (fun l => JS.truthy (sl_username l) = true) leads ->
      env_getRows E (tick w1) (leadsSheet w1) = Ok (leadsSheet w1) ->
      exists existing w1',
        getAllUsernames E w1 = (Ok existing, w1')
        /\ uniqueNewLeads existing leads = []
        /\ appendLeads E (uniqueNewLeads existing leads) w1' = (Ok tt, w1')).
Proof.
  intros Hfirst. pose proof (appendLeads_Ok _ _ _ _ Hfirst) as H1.
  split; [exact H1|]. split.
  - intros w2 Hsecond. apply appendLeads_Ok in Hsecond.
    now rewrite Hsecond, H1, <- app_assoc.
  - intros Htruthy Hread.
    pose proof (getAllUsernames_Ok E w1 _ Hread) as Hset.
    destruct (getAllUsernames E w1) as [r w1'] eqn:Hget. cbn [fst] in Hset. subst r.
    eexists _, w1'. split; [reflexivity|].
    assert (Hnone : uniqueNewLeads
                      (list_to_set (filter (fun u => JS.truthy u)
                                           (colUsername <$> leadsSheet w1))) leads = []).
    { apply uniqueNewLeads_none. fold (usernames w1). rewrite H1.
      rewrite Forall_forall in Htruthy |- *. intros l Hl. split; [now apply Htruthy|].
      apply in_or_app. right. apply list_elem_of_In, list_elem_of_fmap.
      exists l. split; [reflexivity|assumption]. }
    split; [exact Hnone|]. now rewrite Hnone.
Qed.

Lemma C7_append_is_not_idempotent_witness :
  let w := Scenarios.emptyWorld in
  let w1 := snd (appendLeads Scenarios.calm [Scenarios.alice; Scenarios.bob] w) in
  usernames w1 = usernames w ++ ["alice"; "bob"]
  /\ (forall w2, appendLeads Scenarios.calm [Scenarios.alice; Scenarios.bob] w1 = (Ok tt, w2) ->
                 usernames w2 = usernames w ++ ["alice"; "bob"] ++ ["alice"; "bob"])
  /\ (Forall (fun l => JS.truthy (sl_username l) = true) [Scenarios.alice; Scenarios.bob] ->
      env_getRows Scenarios.calm (tick w1) (leadsSheet w1) = Ok (leadsSheet w1) ->
      exists existing w1',
        getAllUsernames Scenarios.calm w1 = (Ok existing, w1')
        /\ uniqueNewLeads existing [Scenarios.alice; Scenarios.bob] = []
        /\ appendLeads Scenarios.calm
                       (uniqueNewLeads existing [Scenarios.alice; Scenarios.bob]) w1'
           = (Ok tt, w1')).
Proof.
  apply (C7_append_is_not_idempotent Scenarios.calm [Scenarios.alice; Scenarios.bob]
           Scenarios.emptyWorld).
  vm_compute. reflexivity.
Defined.

(** What the scraping phase sends to the sheet. *)

Lemma in_newEvents_extends phi w w' e :
  extends phi w w' -> In e (newEvents w w') -> phi e.
Proof.
  intros (d & Hd & Fd) Hin. rewrite (newEvents_app w w' d Hd) in Hin.
  rewrite Forall_forall in Fd. apply Fd. now apply list_elem_of_In.
Qed.

Lemma scrapeKeywords_adds_nothing P E kws acc :
  steps (extends (addsOnly P)) (scrapeKeywords E kws acc).
Proof.
  apply (scrapeKeywords_frame (extends (addsOnly P)) (addsOnly P));
    ext_side (addsOnly P).
Qed.

Lemma getAllUsernames_adds_nothing P E :
  steps (extends (addsOnly P)) (getAllUsernames E).
Proof.
  apply (getAllUsernames_frame (extends (addsOnly P)) (addsOnly P));
    ext_side (addsOnly P).
Qed.

Lemma appendLeads_adds P E leads :
  Forall (fun lead => forall n ts, P (set_rowNumber n (leadRow lead ts))) leads ->
  steps (extends (addsOnly P)) (appendLeads E leads).
Proof.
  intros Hall.
  apply (appendLeads_frame (extends (addsOnly P)) (addsOnly P) True);
    ext_side (addsOnly P).
Qed.

Lemma sleep_adds_nothing P ms : steps (extends (addsOnly P)) (sleep ms).
Proof.
  apply (sleep_frame (extends (addsOnly P)) (addsOnly P)); ext_side (addsOnly P).
Qed.

(** The rows the scraping phase asks the sheet to add all carry a username
    outside the set it got from [getAllUsernames]. *)
Lemma scrapingPhase_adds_unknown E sys w newLeads w1 existing w2 :
  scrapeKeywords E (keywords sys) [] w = (Ok newLeads, w1) ->
  getAllUsernames E w1 = (Ok existing, w2) ->
  extends (addsOnly (fun r => colUsername r ∉ existing)) w
          (snd (scrapingPhase E sys w)).
Proof.
  intros Hscrape Hget.
  set (P := fun r : Row => colUsername r ∉ existing).
  pose proof (scrapeKeywords_adds_nothing P E (keywords sys) [] w) as X1.
  pose proof (getAllUsernames_adds_nothing P E w1) as X2.
  rewrite Hscrape in X1. rewrite Hget in X2. cbn [snd] in X1, X2.
  eapply extends_trans; [exact X1|]. eapply extends_trans; [exact X2|].
  unfold scrapingPhase. unfold bind at 1. rewrite Hscrape.
  unfold bind at 1. rewrite Hget.
  assert (Hu : Forall (fun lead => forall n ts, P (set_rowNumber n (leadRow lead ts)))
                      (uniqueNewLeads existing newLeads)).
  { apply Forall_forall. intros lead Hin n ts. unfold P.
    rewrite leadRow_username. unfold uniqueNewLeads in Hin.
    now apply list_elem_of_filter in Hin as [Hnot _]. }
  assert (Hrest : steps (extends (addsOnly P))
                    (match uniqueNewLeads existing newLeads with
                     | [] => ret tt
                     | l :: ls => try_catch (appendLeads E (l :: ls)) (fun msg => throw msg)
                     end;; sleep 5000)).
  { destruct (uniqueNewLeads existing newLeads) as [|l ls].
    - steps_by (extends_refl (addsOnly P)) (extends_trans (addsOnly P))
        ltac:(apply sleep_adds_nothing).
    - steps_by (extends_refl (addsOnly P)) (extends_trans (addsOnly P))
        ltac:(first [apply sleep_adds_nothing | apply appendLeads_adds; exact Hu]). }
  apply Hrest.
Qed.

(** C5 (as stated, refuted). alice is on the sheet when the scraping phase
    starts. The scraper finds her again, the read of the existing usernames
    fails, [getAllUsernames] answers with the empty set, and the phase adds
    a second row for alice and returns normally. *)
Lemma C5_known_handle_appended_again :
  let w := Scenarios.aliceKnown in
  let w' := snd (scrapingPhase Scenarios.readGlitch Scenarios.oneKeyword w) in
  usernames w = ["alice"]
  /\ fst (scrapingPhase Scenarios.readGlitch Scenarios.oneKeyword w) = Ok tt
  /\ usernames w' = ["alice"; "alice"]
  /\ ~ (forall r, In (EvAddRow r) (newEvents w w') -> ~ In (colUsername r) (usernames w)).
Proof.
  cbv zeta.
  split; [vm_compute; reflexivity|].
  split; [vm_compute; reflexivity|].
  split; [vm_compute; reflexivity|].
  intros H.
  apply (H (Scenarios.rowOf 3 Scenarios.alice "PENDING")); vm_compute; tauto.
Qed.

(** C5 (amended). When the read of the existing usernames succeeds, no
    row the scraping phase asks the sheet to add carries a non-empty
    username that this read showed. The keyword loop before the read does
    not write to the sheet, so a read that shows the sheet as it is shows
    the sheet as it was when the phase started: a non-empty handle present
    then is not appended again. *)
Theorem C5_dedup_when_the_read_succeeds E sys w view :
  let w1 := snd (scrapeKeywords E (keywords sys) [] w) in
  env_getRows E (tick w1) (leadsSheet w1) = Ok view ->
  leadsSheet w1 = leadsSheet w
  /\ forall r,
      In (EvAddRow r) (newEvents w (snd (scrapingPhase E sys w))) ->
      JS.truthy (colUsername r) = true ->
      ~ In (colUsername r) (colUsername <$> view).
Proof.
  intros w1 Hread. split.
  - apply (scrapeKeywords_same_sheet E (keywords sys) [] w).
  - intros r Hin Htruthy Hview.
    pose proof (getAllUsernames_Ok E w1 view Hread) as Hset.
    destruct (getAllUsernames E w1) as [ex w2] eqn:Hget. cbn [fst] in Hset. subst ex.
    destruct (scrapeKeywords E (keywords sys) [] w) as [[newLeads|msg] w1'] eqn:Hscrape.
    + pose proof (scrapingPhase_adds_unknown E sys w newLeads w1' _ w2 Hscrape Hget) as Hx.
      apply (in_newEvents_extends _ _ _ _ Hx) in Hin. cbn [addsOnly] in Hin.
      apply Hin. apply elem_of_list_to_set, list_elem_of_filter.
      split; [now rewrite Htruthy|now apply list_elem_of_In].
    + pose proof (scrapeKeywords_adds_nothing (fun _ => False) E (keywords sys) [] w) as Hx.
      assert (Hw : snd (scrapingPhase E sys w) = w1').
      { unfold scrapingPhase, bind at 1. now rewrite Hscrape. }
      rewrite Hw in Hin. rewrite Hscrape in Hx. cbn [snd] in Hx.
      apply (in_newEvents_extends _ _ _ _ Hx) in Hin. exact Hin.
Qed.

Lemma C5_dedup_when_the_read_succeeds_witness :
  leadsSheet (snd (scrapeKeywords Scenarios.aliceAgain (keywords Scenarios.oneKeyword) []
                                  Scenarios.aliceKnown))
  = leadsSheet Scenarios.aliceKnown
  /\ forall r,
      In (EvAddRow r)
         (newEvents Scenarios.aliceKnown
                    (snd (scrapingPhase Scenarios.aliceAgain Scenarios.oneKeyword
                                        Scenarios.aliceKnown))) ->
      JS.truthy (colUsername r) = true ->
      ~ In (colUsername r) (colUsername <$> leadsSheet Scenarios.aliceKnown).
Proof.
  apply (C5_dedup_when_the_read_succeeds Scenarios.aliceAgain Scenarios.oneKeyword
           Scenarios.aliceKnown (leadsSheet Scenarios.aliceKnown)).
  vm_compute. reflexivity.
Defined.

(** With the read succeeding, alice is not added a second time. *)
Example known_handle_skipped :
  usernames (snd (scrapingPhase Scenarios.aliceAgain Scenarios.oneKeyword
                                Scenarios.aliceKnown)) = ["alice"].
Proof. vm_compute. reflexivity. Qed.

(** ** Batch status updates *)


Lemma save_eq E r w :
  save E r w =
  let w1 := mkWorld (leadsSheet w) (S (tick w)) (trace w ++ [EvSaveRow r])
                    (dailyCounters w) in
  match env_saveRow E (tick w) r with
  | Some msg => (Throw msg, w1)
  | None =>
      (Ok tt,
       mkWorld ((fun old => if decide (rowNumber old = rowNumber r) then r else old)
                  <$> leadsSheet w)
               (S (tick w)) (trace w ++ [EvSaveRow r]) (dailyCounters w))
  end.
Proof.
  unfold save, bind, next_tick, emit, lift_unit, get_sheet, put_sheet.
  cbn [tick leadsSheet trace dailyCounters].
  now destruct (env_saveRow E (tick w) r).
Qed.

Lemma savedRowNumbers_app w w' d :
  trace w' = trace w ++ d ->
  savedRowNumbers w w'
  = omap (fun e => match e with
                   | EvSaveRow r => Some (rowNumber r)
                   | _ => None
                   end) d.
Proof. intros H. unfold savedRowNumbers. now rewrite (newEvents_app w w' d H). Qed.


Lemma set_filter_rowNumber st rs r : rowNumber (set_filter st rs r) = rowNumber r.
Proof. reflexivity. Qed.

(** The objects pushed on [rowsToUpdate] are in the map, under their own
    line numbers. *)
Lemma applyUpdates_keys updates : forall (m m' : gmap nat Row) ks,
  (forall k row, m !! k = Some row -> rowNumber row = k) ->
  applyUpdates updates m = (m', ks) ->
  (forall k row, m' !! k = Some row -> rowNumber row = k)
  /\ (forall k, is_Some (m !! k) -> is_Some (m' !! k))
  /\ Forall (fun k => is_Some (m' !! k)) ks.
Proof.
  induction updates as [|u rest IH]; intros m m' ks Hinv; cbn [applyUpdates].
  - intros [= <- <-]. repeat split; auto.
  - destruct (m !! upd_rowNumber u) as [row|] eqn:Hrow.
    + destruct (applyUpdates rest _) as [m1 ks1] eqn:Hrest. intros [= <- <-].
      apply IH in Hrest as (I1 & I2 & I3).
      * repeat split; [exact I1| |].
        -- intros k Hk. apply I2. destruct (decide (upd_rowNumber u = k)) as [->|Hne].
           ++ rewrite lookup_insert_eq. eauto.
           ++ now rewrite lookup_insert_ne.
        -- constructor; [|exact I3]. apply I2. rewrite lookup_insert_eq. eauto.
      * intros k r. destruct (decide (upd_rowNumber u = k)) as [<-|Hne].
        -- rewrite lookup_insert_eq. intros [= <-]. rewrite set_filter_rowNumber.
           now apply Hinv.
        -- rewrite lookup_insert_ne by assumption. apply Hinv.
    + intros Hrest. apply IH in Hrest; assumption.
Qed.

Lemma rowMapOf_keys rows k row : rowMapOf rows !! k = Some row -> rowNumber row = k.
Proof.
  unfold rowMapOf. intros H. apply elem_of_list_to_map_2 in H.
  apply elem_of_reverse, list_elem_of_fmap in H as (r & [= -> ->] & _).
  reflexivity.
Qed.

Lemma rowMapOf_is_Some view k :
  bool_decide (is_Some (rowMapOf view !! k)) = existsb (Nat.eqb k) (rowNumber <$> view).
Proof.
  unfold rowMapOf.
  destruct (existsb (Nat.eqb k) (rowNumber <$> view)) eqn:Hex.
  - apply bool_decide_eq_true_2.
    apply existsb_exists in Hex as (k' & Hin & Heq). apply Nat.eqb_eq in Heq. subst k'.
    apply not_eq_None_Some. intros Hnone.
    apply not_elem_of_list_to_map in Hnone. apply Hnone.
    apply list_elem_of_In, list_elem_of_fmap in Hin as (r & -> & Hr).
    apply list_elem_of_fmap. exists (rowNumber r, r). split; [reflexivity|].
    apply elem_of_reverse, list_elem_of_fmap. eauto.
  - apply bool_decide_eq_false_2. intros [row Hrow].
    apply elem_of_list_to_map_2 in Hrow.
    apply elem_of_reverse, list_elem_of_fmap in Hrow as (r & [= -> ->] & Hr).
    assert (existsb (Nat.eqb (rowNumber r)) (rowNumber <$> view) = true); [|congruence].
    apply existsb_exists. exists (rowNumber r). split; [|apply Nat.eqb_refl].
    apply list_elem_of_In, list_elem_of_fmap. eauto.
Qed.

Lemma applyUpdates_ks updates : forall (m m' : gmap nat Row) ks,
  applyUpdates updates m = (m', ks) ->
  ks = List.filter (fun k => bool_decide (is_Some (m !! k))) (upd_rowNumber <$> updates).
Proof.
  induction updates as [|u rest IH]; intros m m' ks; cbn [applyUpdates].
  - now intros [= <- <-].
  - cbn [fmap list_fmap List.filter].
    destruct (m !! upd_rowNumber u) as [row|] eqn:Hrow.
    + destruct (applyUpdates rest _) as [m1 ks1] eqn:Hrest. intros [= <- <-].
      apply IH in Hrest. rewrite bool_decide_eq_true_2 by eauto. f_equal.
      rewrite Hrest. apply List.filter_ext. intros k.
      apply bool_decide_ext.
      destruct (decide (upd_rowNumber u = k)) as [<-|Hne].
      * rewrite lookup_insert_eq, Hrow. split; eauto.
      * now rewrite lookup_insert_ne.
    + intros Hrest. apply IH in Hrest.
      rewrite bool_decide_eq_false_2; [exact Hrest|].
      now intros [? ?].
Qed.



(** ** Planning *)

Lemma getRandomTimeToday_returns E w :
  exists t w', getRandomTimeToday E w = (Ok t, w').
Proof.
  unfold getRandomTimeToday, bind at 1. cbn [next_tick].
  destruct (_ >? _)%Z; eexists _, _; reflexivity.
Qed.

Lemma generatePersonalizedMessage_returns E S lead w :
  exists m w', generatePersonalizedMessage E S lead w = (Ok m, w').
Proof. eexists _, _. reflexivity. Qed.

Lemma getRandomComment_returns E S w :
  exists c w', getRandomComment E S w = (Ok c, w').
Proof. eexists _, _. reflexivity. Qed.

(** The first loop plans direct messages only, rank 1, for the leads that
    have a username, in lead order, as many as the quota leaves. *)
Lemma planDMs_spec E S rem leads : forall n w,
  exists acts n' w',
    planDMs E S rem leads n w = (Ok (acts, n'), w')
    /\ Forall (fun a => type a = dm /\ priority a = 1%Z) acts
    /\ target <$> acts
       = take (Z.to_nat (rem - Z.of_nat n))
              ((fun l => (rl_id l, rl_username l))
                 <$> List.filter (fun l => JS.truthy (rl_username l)) leads).
Proof.
  induction leads as [|lead rest IH]; intros n w; cbn [planDMs].
  - exists [], n, w. repeat split; [constructor|].
    cbn. now destruct (Z.to_nat (rem - Z.of_nat n)).
  - destruct (Z.geb_spec (Z.of_nat n) rem) as [Hge|Hlt].
    + exists [], n, w. repeat split; [constructor|].
      replace (Z.to_nat (rem - Z.of_nat n)) with 0 by lia. reflexivity.
    + cbn [List.filter]. destruct (JS.truthy (rl_username lead)) eqn:Hu; cbn [negb].
      * destruct (generatePersonalizedMessage_returns E S lead w) as (msg & w1 & H1).
        destruct (getRandomTimeToday_returns E w1) as (time & w2 & H2).
        destruct (IH (Datatypes.S n) w2) as (acts & n' & w' & H3 & F3 & T3).
        eexists (_ :: acts), n', w'. split; [|split].
        -- unfold bind at 1. rewrite H1. unfold bind at 1. rewrite H2.
           unfold bind at 1. rewrite H3. reflexivity.
        -- constructor; [split; reflexivity|exact F3].
        -- cbn [fmap list_fmap]. unfold target at 1. cbn [leadId username].
           replace (Z.to_nat (rem - Z.of_nat n))
             with (Datatypes.S (Z.to_nat (rem - Z.of_nat (Datatypes.S n)))) by lia.
           cbn [take]. f_equal. exact T3.
      * apply IH.
Qed.

Lemma countKind_app k l1 l2 : countKind k (l1 ++ l2) = countKind k l1 + countKind k l2.
Proof. unfold countKind. now rewrite List.filter_app, length_app. Qed.

Lemma countKind_same k l : Forall (fun a => type a = k) l -> countKind k l = length l.
Proof.
  unfold countKind. induction 1 as [|a l Ha _ IH]; [reflexivity|].
  cbn [List.filter]. rewrite bool_decide_eq_true_2 by assumption. cbn. now rewrite IH.
Qed.

Lemma countKind_other k k' l :
  k <> k' -> Forall (fun a => type a = k) l -> countKind k' l = 0.
Proof.
  intros Hne. unfold countKind. induction 1 as [|a l Ha _ IH]; [reflexivity|].
  cbn [List.filter]. rewrite bool_decide_eq_false_2 by congruence. exact IH.
Qed.

(** Each of the three steps taken for a lead plans at most one activity,
    of its own kind and rank, and none once its count has reached the
    quota that remains. *)
Lemma planLike_spec E rem nLeads lead k w :
  exists acts k' w',
    planLike E rem nLeads lead k w = (Ok (acts, k'), w')
    /\ Forall (fun a => type a = like) acts
    /\ Forall (fun a => priority a = 3%Z) acts
    /\ k' = k + length acts
    /\ (Z.of_nat k' <= Z.max (Z.of_nat k) rem)%Z.
Proof.
  unfold planLike.
  destruct (Z.ltb_spec (Z.of_nat k) rem); cbn [andb];
    [destruct (Nat.ltb_spec k (nLeads * 2))|].
  - destruct (getRandomTimeToday_returns E w) as (t & w1 & H1).
    eexists [_], _, w1. split; [unfold bind; rewrite H1; reflexivity|].
    repeat split; try (repeat constructor); cbn; lia.
  - exists [], k, w. repeat split; try constructor; cbn; lia.
  - exists [], k, w. repeat split; try constructor; cbn; lia.
Qed.

Lemma planRetweet_spec E rem lead k w :
  exists acts k' w',
    planRetweet E rem lead k w = (Ok (acts, k'), w')
    /\ Forall (fun a => type a = retweet) acts
    /\ Forall (fun a => priority a = 2%Z) acts
    /\ k' = k + length acts
    /\ (Z.of_nat k' <= Z.max (Z.of_nat k) rem)%Z.
Proof.
  unfold planRetweet.
  destruct (Z.ltb_spec (Z.of_nat k) rem).
  - unfold bind at 1. cbn [random bind next_tick ret].
    destruct (Qlt_bool _ p_retweet).
    + match goal with |- context [bind (getRandomTimeToday E) _ ?w0] =>
        destruct (getRandomTimeToday_returns E w0) as (t & w1 & H1) end.
      eexists [_], _, w1. split; [unfold bind; rewrite H1; reflexivity|].
      repeat split; try (repeat constructor); cbn; lia.
    + eexists [], k, _. split; [reflexivity|].
      repeat split; try constructor; cbn; lia.
  - exists [], k, w. repeat split; try constructor; cbn; lia.
Qed.

Lemma planComment_spec E S rem lead k w :
  exists acts k' w',
    planComment E S rem lead k w = (Ok (acts, k'), w')
    /\ Forall (fun a => type a = comment) acts
    /\ Forall (fun a => priority a = 2%Z) acts
    /\ k' = k + length acts
    /\ (Z.of_nat k' <= Z.max (Z.of_nat k) rem)%Z.
Proof.
  unfold planComment.
  destruct (Z.ltb_spec (Z.of_nat k) rem).
  - unfold bind at 1. cbn [random bind next_tick ret].
    destruct (Qlt_bool _ p_comment).
    + match goal with |- context [bind (getRandomComment E S) _ ?w0] =>
        destruct (getRandomComment_returns E S w0) as (c & w1 & H1) end.
      destruct (getRandomTimeToday_returns E w1) as (t & w2 & H2).
      eexists [_], _, w2.
      split; [unfold bind at 1; rewrite H1; unfold bind; rewrite H2; reflexivity|].
      repeat split; try (repeat constructor); cbn; lia.
    + eexists [], k, _. split; [reflexivity|].
      repeat split; try constructor; cbn; lia.
  - exists [], k, w. repeat split; try constructor; cbn; lia.
Qed.

Lemma Forall_not_dm k p (acts : list Activity) :
  k <> dm -> (1 < p)%Z ->
  Forall (fun a => type a = k) acts -> Forall (fun a => priority a = p) acts ->
  Forall (fun a => type a <> dm /\ (1 < priority a)%Z) acts.
Proof.
  intros Hk Hp Ht Hpr. rewrite Forall_forall in *. intros a Ha.
  rewrite (Ht a Ha), (Hpr a Ha). now split.
Qed.

(** The second loop returns; it plans no direct message and nothing of
    rank 1; its three counts are the numbers of activities it has planned
    of each kind, and none passes the quota that remains for its kind. *)
Lemma planEngagement_spec E S rl rr rc nLeads leads : forall l r c w,
  exists acts l' r' c' w',
    planEngagement E S rl rr rc nLeads leads (l, r, c) w = (Ok (acts, (l', r', c')), w')
    /\ Forall (fun a => type a <> dm /\ (1 < priority a)%Z) acts
    /\ l' = l + countKind like acts
    /\ r' = r + countKind retweet acts
    /\ c' = c + countKind comment acts
    /\ (Z.of_nat l' <= Z.max (Z.of_nat l) rl)%Z
    /\ (Z.of_nat r' <= Z.max (Z.of_nat r) rr)%Z
    /\ (Z.of_nat c' <= Z.max (Z.of_nat c) rc)%Z.
Proof.
  induction leads as [|lead rest IH]; intros l r c w; cbn [planEngagement].
  - exists [], l, r, c, w. split; [reflexivity|]. split; [constructor|].
    unfold countKind. cbn. repeat split; lia.
  - destruct (JS.truthy (rl_username lead)); cbn [negb]; [|apply IH].
    destruct (planLike_spec E rl nLeads lead l w)
      as (ls & l1 & w1 & H1 & T1 & P1 & N1 & B1).
    destruct (planRetweet_spec E rr lead r w1)
      as (rs & r1 & w2 & H2 & T2 & P2 & N2 & B2).
    destruct (planComment_spec E S rc lead c w2)
      as (cs & c1 & w3 & H3 & T3 & P3 & N3 & B3).
    destruct (IH l1 r1 c1 w3)
      as (acts & l' & r' & c' & w' & H4 & F4 & Nl & Nr & Nc & Bl & Br & Bc).
    exists (ls ++ rs ++ cs ++ acts), l', r', c', w'. split.
    { unfold bind at 1. rewrite H1. unfold bind at 1. rewrite H2.
      unfold bind at 1. rewrite H3. unfold bind at 1. rewrite H4. reflexivity. }
    split.
    { repeat (apply Forall_app; split); [| | |exact F4].
      - now apply (Forall_not_dm like 3%Z).
      - now apply (Forall_not_dm retweet 2%Z).
      - now apply (Forall_not_dm comment 2%Z). }
    rewrite !countKind_app.
    rewrite (countKind_same like ls T1), (countKind_other retweet like rs), 
      (countKind_other comment like cs) by (assumption || discriminate).
    rewrite (countKind_other like retweet ls), (countKind_same retweet rs T2),
      (countKind_other comment retweet cs) by (assumption || discriminate).
    rewrite (countKind_other like comment ls), (countKind_other retweet comment rs),
      (countKind_same comment cs T3) by (assumption || discriminate).
    repeat split; lia.
Qed.

(** *** Sorting *)

Lemma compare_planOrder a b : (compareActivities a b <= 0)%Z <-> planOrder a b.
Proof.
  unfold compareActivities, planOrder.
  destruct (Z.eqb_spec (priority a) (priority b)); cbn [negb]; lia.
Qed.

Lemma planOrder_total a b : planOrder a b \/ planOrder b a.
Proof. unfold planOrder. lia. Qed.

Lemma planOrder_trans a b c : planOrder a b -> planOrder b c -> planOrder a c.
Proof. unfold planOrder. lia. Qed.

Lemma insertSorted_perm a l : Permutation (insertSorted a l) (a :: l).
Proof.
  induction l as [|b l IH]; cbn [insertSorted]; [reflexivity|].
  destruct (compareActivities a b <=? 0)%Z; [reflexivity|].
  rewrite IH. apply perm_swap.
Qed.

Lemma sortActivities_perm l : Permutation (sortActivities l) l.
Proof.
  unfold sortActivities. induction l as [|a l IH]; cbn [foldr]; [reflexivity|].
  rewrite insertSorted_perm. now constructor.
Qed.

Lemma insertSorted_sorted a l :
  StronglySorted planOrder l -> StronglySorted planOrder (insertSorted a l).
Proof.
  induction 1 as [|b l Hs IH Hb]; cbn [insertSorted].
  - repeat constructor.
  - destruct (Z.leb_spec (compareActivities a b) 0) as [Hle|Hgt].
    + apply compare_planOrder in Hle. constructor; [now constructor|].
      constructor; [exact Hle|].
      eapply Forall_impl; [exact Hb|]. intros c Hc. eapply planOrder_trans; eassumption.
    + assert (Hba : planOrder b a).
      { destruct (planOrder_total a b) as [Hab|Hba]; [|exact Hba].
        apply compare_planOrder in Hab. lia. }
      constructor; [exact IH|].
      rewrite Forall_forall in Hb |- *. intros c Hc.
      apply list_elem_of_In in Hc.
      apply (Permutation_in _ (insertSorted_perm a l)) in Hc as [<-|Hc]; [exact Hba|].
      apply Hb. now apply list_elem_of_In.
Qed.

(** The plan is sorted by rank, then by scheduled time. *)
Lemma sortActivities_sorted l : StronglySorted planOrder (sortActivities l).
Proof.
  unfold sortActivities. induction l as [|a l IH]; cbn [foldr]; [constructor|].
  now apply insertSorted_sorted.
Qed.

(** *** The plan as a whole *)

Lemma same_counters_refl w : same_counters w w.
Proof. reflexivity. Qed.

Lemma same_counters_trans a b c :
  same_counters a b -> same_counters b c -> same_counters a c.
Proof. unfold same_counters. congruence. Qed.

Lemma planDMs_same_counters E S rem leads n :
  steps same_counters (planDMs E S rem leads n).
Proof.
  apply (planDMs_frame same_counters);
    first [ exact same_counters_refl | exact same_counters_trans
          | (intros w; reflexivity) ].
Qed.

Lemma planEngagement_same_counters E S rl rr rc n leads counts :
  steps same_counters (planEngagement E S rl rr rc n leads counts).
Proof.
  apply (planEngagement_frame same_counters);
    first [ exact same_counters_refl | exact same_counters_trans
          | (intros w; reflexivity) ].
Qed.

Lemma resetDailyCountersIfNeeded_returns E w :
  resetDailyCountersIfNeeded E w = (Ok tt, snd (resetDailyCountersIfNeeded E w)).
Proof.
  unfold resetDailyCountersIfNeeded, bind. cbn.
  now destruct (String.eqb _ _).
Qed.

Lemma remaining_nonneg limit counter : (0 <= remaining limit counter)%Z.
Proof. unfold remaining. lia. Qed.

(** What [createDailyPlan] returns: it never throws; its plan is the
    sorted, possibly truncated, list of the direct messages of the first
    loop followed by the activities of the second; the direct messages go
    to the first leads that have a username, as many as the per-day quota
    for direct messages leaves; the second loop plans no more likes,
    retweets and comments than their per-day quotas leave. The quotas are
    taken from the counters as they stand when the call returns. *)
Lemma createDailyPlan_spec E S leads lim w :
  exists dms others w',
    createDailyPlan E S leads lim w
    = (Ok (limitActivities lim (sortActivities (dms ++ others))), w')
    /\ (leads <> [] -> dailyCounters w' = countersAtPlanning E w)
    /\ Forall (fun a => type a = dm /\ priority a = 1%Z) dms
    /\ target <$> dms
       = take (Z.to_nat (remaining (Config.dmPerDay (limits S))
                                   (cnt_dm (dailyCounters w'))))
              ((fun l => (rl_id l, rl_username l))
                 <$> List.filter (fun l => JS.truthy (rl_username l)) leads)
    /\ Forall (fun a => type a <> dm /\ (1 < priority a)%Z) others
    /\ (Z.of_nat (countKind like others)
        <= remaining (Config.likesPerDay (limits S)) (cnt_likes (dailyCounters w')))%Z
    /\ (Z.of_nat (countKind retweet others)
        <= remaining (Config.retweetsPerDay (limits S))
                     (cnt_retweets (dailyCounters w')))%Z
    /\ (Z.of_nat (countKind comment others)
        <= remaining (Config.commentsPerDay (limits S))
                     (cnt_comments (dailyCounters w')))%Z.
Proof.
  destruct leads as [|lead rest].
  - exists [], [], w. split; [now destruct lim as [[|n]|]|].
    split; [congruence|]. split; [constructor|].
    split; [cbn; now destruct (Z.to_nat _)|]. split; [constructor|].
    unfold countKind. cbn [List.filter length].
    pose proof (remaining_nonneg (Config.likesPerDay (limits S))
                                 (cnt_likes (dailyCounters w))).
    pose proof (remaining_nonneg (Config.retweetsPerDay (limits S))
                                 (cnt_retweets (dailyCounters w))).
    pose proof (remaining_nonneg (Config.commentsPerDay (limits S))
                                 (cnt_comments (dailyCounters w))).
    repeat split; lia.
  - remember (lead :: rest) as leads eqn:Hleads.
    set (wr := snd (resetDailyCountersIfNeeded E w)).
    set (wt := snd (next_tick wr)).
    set (c := dailyCounters wr).
    destruct (planDMs_spec E S (remaining (Config.dmPerDay (limits S)) (cnt_dm c))
                           leads 0 wt) as (dms & n' & w1 & H1 & F1 & T1).
    destruct (planEngagement_spec E S
                (remaining (Config.likesPerDay (limits S)) (cnt_likes c))
                (remaining (Config.retweetsPerDay (limits S)) (cnt_retweets c))
                (remaining (Config.commentsPerDay (limits S)) (cnt_comments c))
                (length leads) leads 0 0 0 w1)
      as (others & l' & r' & c' & w' & H2 & F2 & Nl & Nr & Nc & Bl & Br & Bc).
    assert (Hc1 : dailyCounters w1 = c).
    { pose proof (planDMs_same_counters E S
                    (remaining (Config.dmPerDay (limits S)) (cnt_dm c)) leads 0 wt) as X.
      rewrite H1 in X. exact X. }
    assert (Hc' : dailyCounters w' = c).
    { pose proof (planEngagement_same_counters E S
                    (remaining (Config.likesPerDay (limits S)) (cnt_likes c))
                    (remaining (Config.retweetsPerDay (limits S)) (cnt_retweets c))
                    (remaining (Config.commentsPerDay (limits S)) (cnt_comments c))
                    (length leads) leads (0, 0, 0) w1) as X.
      rewrite H2 in X. unfold same_counters in X. cbn [snd] in X. congruence. }
    exists dms, others, w'. split.
    { subst leads. unfold createDailyPlan, try_catch. cbv iota.
      unfold bind at 1. rewrite resetDailyCountersIfNeeded_returns. fold wr.
      unfold bind at 1. cbn [next_tick].
      unfold bind at 1. cbn [get_counters].
      change (mkWorld (leadsSheet wr) (Datatypes.S (tick wr)) (trace wr)
                      (dailyCounters wr)) with wt.
      change (dailyCounters wt) with c.
      unfold bind at 1. rewrite H1. unfold bind at 1. rewrite H2. reflexivity. }
    split; [intros _; exact Hc'|]. split; [exact F1|].
    rewrite Hc'. split; [rewrite T1; repeat f_equal; lia|]. split; [exact F2|].
    pose proof (remaining_nonneg (Config.likesPerDay (limits S)) (cnt_likes c)).
    pose proof (remaining_nonneg (Config.retweetsPerDay (limits S)) (cnt_retweets c)).
    pose proof (remaining_nonneg (Config.commentsPerDay (limits S)) (cnt_comments c)).
    repeat split; lia.
Qed.

Lemma filter_perm {A} (f : A -> bool) l l' :
  Permutation l l' -> Permutation (List.filter f l) (List.filter f l').
Proof.
  induction 1 as [|x l l' _ IH|x y l|l l' l'' _ IH1 _ IH2]; cbn [List.filter].
  - reflexivity.
  - destruct (f x); [now constructor|exact IH].
  - destruct (f x), (f y); try reflexivity. apply perm_swap.
  - now rewrite IH1.
Qed.

Lemma filter_all {A} (f : A -> bool) l :
  Forall (fun a => f a = true) l -> List.filter f l = l.
Proof.
  induction 1 as [|a l Ha _ IH]; [reflexivity|]. cbn. now rewrite Ha, IH.
Qed.

Lemma filter_none {A} (f : A -> bool) l :
  Forall (fun a => f a = false) l -> List.filter f l = [].
Proof.
  induction 1 as [|a l Ha _ IH]; [reflexivity|]. cbn. now rewrite Ha.
Qed.

(** The direct messages of a plan are those of the first loop. *)
Lemma dms_of_the_plan (dms others plan : list Activity) :
  Forall (fun a => type a = dm /\ priority a = 1%Z) dms ->
  Forall (fun a => type a <> dm /\ (1 < priority a)%Z) others ->
  Permutation plan (dms ++ others) ->
  Permutation (List.filter (fun a => bool_decide (type a = dm)) plan) dms.
Proof.
  intros Hd Ho Hp. rewrite (filter_perm _ _ _ Hp), List.filter_app.
  rewrite (filter_all _ dms), (filter_none _ others), app_nil_r; [reflexivity| |].
  - eapply Forall_impl; [exact Ho|]. intros a [Ha _]. now apply bool_decide_eq_false_2.
  - eapply Forall_impl; [exact Hd|]. intros a [Ha _]. now apply bool_decide_eq_true_2.
Qed.

(** C8. Three ready leads A, B, C, each with a username, and a remaining
    quota of two direct messages: the plan holds exactly two direct
    messages, aimed at A and at B; every direct message in it has a
    strictly lower rank than every activity of another kind; and the plan
    is sorted by rank ascending, then by scheduled time ascending. This
    holds whatever the random draws and the clock are. *)
Theorem C8_two_direct_messages_first E S A B C w :
  JS.truthy (rl_username A) = true ->
  JS.truthy (rl_username B) = true ->
  JS.truthy (rl_username C) = true ->
  remaining (Config.dmPerDay (limits S)) (cnt_dm (countersAtPlanning E w)) = 2%Z ->
  exists plan w',
    createDailyPlan E S [A; B; C] None w = (Ok plan, w')
    /\ countKind dm plan = 2
    /\ Permutation (target <$> List.filter (fun a => bool_decide (type a = dm)) plan)
                   [(rl_id A, rl_username A); (rl_id B, rl_username B)]
    /\ (forall a b, In a plan -> In b plan -> type a = dm -> type b <> dm ->
                    (priority a < priority b)%Z)
    /\ StronglySorted planOrder plan.
Proof.
  intros HA HB HC Hrem.
  destruct (createDailyPlan_spec E S [A; B; C] None w)
    as (dms & others & w' & Hplan & Hcnt & Fd & Td & Fo & _).
  rewrite Hcnt, Hrem in Td by discriminate.
  cbn [List.filter] in Td. rewrite HA, HB, HC in Td.
  change (target <$> dms = [(rl_id A, rl_username A); (rl_id B, rl_username B)]) in Td.
  cbn [limitActivities] in Hplan.
  set (plan := sortActivities (dms ++ others)) in *.
  assert (Hperm : Permutation plan (dms ++ others)) by apply sortActivities_perm.
  pose proof (dms_of_the_plan dms others plan Fd Fo Hperm) as Hdms.
  exists plan, w'. split; [exact Hplan|]. split; [|split; [|split]].
  - unfold countKind. rewrite (Permutation_length Hdms).
    rewrite <- (length_fmap target), Td. reflexivity.
  - rewrite <- Td. now apply fmap_Permutation.
  - intros a b Ha Hb Hta Htb.
    apply (Permutation_in _ Hperm), in_app_or in Ha.
    apply (Permutation_in _ Hperm), in_app_or in Hb.
    rewrite Forall_forall in Fd, Fo.
    destruct Ha as [Ha|Ha]; [|apply list_elem_of_In, Fo in Ha; tauto].
    destruct Hb as [Hb|Hb]; [apply list_elem_of_In, Fd in Hb; tauto|].
    apply list_elem_of_In, Fd in Ha. apply list_elem_of_In, Fo in Hb. lia.
  - apply sortActivities_sorted.
Qed.

Lemma C8_two_direct_messages_first_witness :
  exists plan w',
    createDailyPlan Scenarios.varied (scheduler (newSystem false))
                    [Scenarios.ann; Scenarios.ben; Scenarios.cat] None
                    Scenarios.twoDMsLeft = (Ok plan, w')
    /\ countKind dm plan = 2
    /\ Permutation (target <$> List.filter (fun a => bool_decide (type a = dm)) plan)
                   [(2, "ann"); (3, "ben")]
    /\ (forall a b, In a plan -> In b plan -> type a = dm -> type b <> dm ->
                    (priority a < priority b)%Z)
    /\ StronglySorted planOrder plan.
Proof.
  apply (C8_two_direct_messages_first Scenarios.varied (scheduler (newSystem false))
           Scenarios.ann Scenarios.ben Scenarios.cat Scenarios.twoDMsLeft);
    reflexivity.
Defined.

(** The plan of that scenario. Ben's direct message comes before Ann's:
    within a rank the order is by scheduled time, not by lead. *)
Example the_plan_for_ann_ben_cat :
  match fst (createDailyPlan Scenarios.varied (scheduler (newSystem false))
                             [Scenarios.ann; Scenarios.ben; Scenarios.cat] None
                             Scenarios.twoDMsLeft) with
  | Ok plan => (fun a => (type a, username a, priority a, scheduledTime a)) <$> plan
  | Throw _ => []
  end
  = [(dm, "ben", 1, 35640000); (dm, "ann", 1, 38880000);
     (comment, "ben", 2, 32400000); (comment, "cat", 2, 35640000);
     (retweet, "ann", 2, 51840000); (like, "ben", 3, 48600000);
     (like, "cat", 3, 51840000); (like, "ann", 3, 55080000)]%Z.
Proof. vm_compute. reflexivity. Qed.

(** ** The per-hour cap *)

(** The quotas the scheduler reports are the four per-day ones. *)
Lemma getRemainingActivities_eq E S w :
  fst (getRemainingActivities E S w)
  = Ok (remaining (Config.dmPerDay (limits S)) (cnt_dm (countersAtPlanning E w)),
        remaining (Config.likesPerDay (limits S)) (cnt_likes (countersAtPlanning E w)),
        remaining (Config.retweetsPerDay (limits S))
                  (cnt_retweets (countersAtPlanning E w)),
        remaining (Config.commentsPerDay (limits S))
                  (cnt_comments (countersAtPlanning E w))).
Proof.
  unfold getRemainingActivities, countersAtPlanning, bind.
  now rewrite resetDailyCountersIfNeeded_returns.
Qed.

(** C4 (the code departs from the claim, on an input). The limits carry
    a per-hour cap of 15 actions beside the per-day caps. Nothing has been
    recorded, so the per-hour window leaves 15 and the per-day window for
    direct messages leaves 30. For sixteen ready leads the plan holds
    sixteen direct messages, and thirty-two activities in all: more than
    the minimum of the two windows, and more than the per-hour cap. *)
Lemma C4_plan_exceeds_hourly_cap :
  let S := scheduler (newSystem false) in
  Config.actionsPerHour (limits S) = 15%Z
  /\ remaining (Config.dmPerDay (limits S))
               (cnt_dm (countersAtPlanning Scenarios.calm Scenarios.emptyWorld)) = 30%Z
  /\ countKind dm Scenarios.sixteenPlan = 16
  /\ length Scenarios.sixteenPlan = 32
  /\ ~ (Z.of_nat (countKind dm Scenarios.sixteenPlan)
        <= Z.min (remaining (Config.dmPerDay (limits S))
                            (cnt_dm (countersAtPlanning Scenarios.calm
                                                        Scenarios.emptyWorld)))
                 (Config.actionsPerHour (limits S)))%Z
  /\ ~ (Z.of_nat (length Scenarios.sixteenPlan) <= Config.actionsPerHour (limits S))%Z.
Proof.
  cbv zeta.
  split; [reflexivity|].
  split; [vm_compute; reflexivity|].
  split; [vm_compute; reflexivity|].
  split; [vm_compute; reflexivity|].
  split; vm_compute; intros H; apply H; reflexivity.
Qed.

Lemma bind_ext {A B} (m : M A) (k k' : A -> M B) w :
  (forall a w1, k a w1 = k' a w1) -> bind m k w = bind m k' w.
Proof. intros H. unfold bind. destruct (m w) as [[a|msg] w1]; [apply H|reflexivity]. Qed.

Lemma bind_ext2 {A B} (m m' : M A) (k k' : A -> M B) w :
  (forall w0, m w0 = m' w0) -> (forall a w1, k a w1 = k' a w1) ->
  bind m k w = bind m' k' w.
Proof. intros Hm H. unfold bind. rewrite Hm. destruct (m' w) as [[a|msg] w1]; [apply H|reflexivity]. Qed.

Lemma try_catch_ext {A} (m m' : M A) h w :
  (forall w0, m w0 = m' w0) -> try_catch m h w = try_catch m' h w.
Proof. intros Hm. unfold try_catch. now rewrite Hm. Qed.

Lemma planDMs_templates E S S' rem leads : forall n w,
  messageTemplates S = messageTemplates S' ->
  planDMs E S rem leads n w = planDMs E S' rem leads n w.
Proof.
  induction leads as [|lead rest IH]; intros n w Ht; cbn [planDMs]; [reflexivity|].
  destruct (_ >=? _)%Z; [reflexivity|].
  destruct (negb _); [now apply IH|].
  unfold generatePersonalizedMessage. rewrite Ht.
  apply bind_ext. intros msg w1. apply bind_ext. intros t w2.
  unfold bind. now rewrite IH.
Qed.

Lemma planEngagement_templates E S S' rl rr rc nLeads leads : forall counts w,
  commentTemplates S = commentTemplates S' ->
  planEngagement E S rl rr rc nLeads leads counts w
  = planEngagement E S' rl rr rc nLeads leads counts w.
Proof.
  induction leads as [|lead rest IH]; intros counts w Ht; cbn [planEngagement];
    [reflexivity|].
  destruct (negb _); [now apply IH|].
  destruct counts as [[l r] c].
  apply bind_ext. intros [ls l'] w1. apply bind_ext. intros [rs r'] w2.
  assert (Hc : forall w0, planComment E S rc lead c w0 = planComment E S' rc lead c w0).
  { intros w0. unfold planComment, getRandomComment. now rewrite Ht. }
  unfold bind at 1. rewrite Hc. unfold bind at 2.
  destruct (planComment E S' rc lead c w2) as [[[cs c']|msg] w3]; [|reflexivity].
  unfold bind. now rewrite IH.
Qed.

Lemma countKind_perm k l l' : Permutation l l' -> countKind k l = countKind k l'.
Proof. intros H. unfold countKind. apply Permutation_length. now apply filter_perm. Qed.

(** C4 (the code departs from the claim). The planner is given a
    per-hour cap and does not apply it. The quota it works with is, for
    each kind, that of the per-day window of the kind alone,
    [max 0 (limit - counter)]: the plan holds as many direct messages as
    that quota and the number of leads with a username allow, and the
    likes, retweets and comments are held to their per-day quotas only.
    [actionsPerHour] is configured under the rate limits and stored by the
    scheduler, and then read nowhere: a scheduler that differs in it alone
    makes the same plan, so no value of the cap bounds the planned count
    of actions. *)
Theorem C4_hourly_cap_is_never_consulted E S leads w :
  exists plan w',
    createDailyPlan E S leads None w = (Ok plan, w')
    /\ Z.of_nat (countKind dm plan)
       = Z.min (remaining (Config.dmPerDay (limits S)) (cnt_dm (dailyCounters w')))
               (Z.of_nat (length (usable leads)))
    /\ (Z.of_nat (countKind like plan)
        <= remaining (Config.likesPerDay (limits S)) (cnt_likes (dailyCounters w')))%Z
    /\ (Z.of_nat (countKind retweet plan)
        <= remaining (Config.retweetsPerDay (limits S))
                     (cnt_retweets (dailyCounters w')))%Z
    /\ (Z.of_nat (countKind comment plan)
        <= remaining (Config.commentsPerDay (limits S))
                     (cnt_comments (dailyCounters w')))%Z
    /\ (forall h, createDailyPlan E (withActionsPerHour h S) leads None w
                  = createDailyPlan E S leads None w).
Proof.
  destruct (createDailyPlan_spec E S leads None w)
    as (dms & others & w' & Hplan & _ & Fd & Td & Fo & Bl & Br & Bc).
  cbn [limitActivities] in Hplan.
  set (plan := sortActivities (dms ++ others)) in *.
  assert (Hperm : Permutation plan (dms ++ others)) by apply sortActivities_perm.
  assert (Hdm : Forall (fun a => type a = dm) dms).
  { eapply Forall_impl; [exact Fd|]. now intros a [Ha _]. }
  assert (Hcount : forall k, k <> dm -> countKind k plan = countKind k others).
  { intros k Hk. rewrite (countKind_perm k _ _ Hperm), countKind_app.
    now rewrite (countKind_other dm k dms) by (assumption || congruence). }
  exists plan, w'. split; [exact Hplan|]. split; [|split; [|split; [|split]]].
  - unfold countKind. rewrite (Permutation_length (dms_of_the_plan _ _ _ Fd Fo Hperm)).
    rewrite <- (length_fmap target), Td, length_take, length_fmap. fold (usable leads).
    pose proof (remaining_nonneg (Config.dmPerDay (limits S)) (cnt_dm (dailyCounters w'))).
    lia.
  - now rewrite Hcount by discriminate.
  - now rewrite Hcount by discriminate.
  - now rewrite Hcount by discriminate.
  - intros h. unfold createDailyPlan. destruct leads as [|lead rest]; [reflexivity|].
    apply try_catch_ext. intros w0.
    cbn [withActionsPerHour limits Config.dmPerDay Config.likesPerDay
         Config.retweetsPerDay Config.commentsPerDay].
    apply bind_ext. intros _ w1. apply bind_ext. intros _ w2.
    apply bind_ext. intros c w3.
    apply bind_ext2.
    + intros w4. now apply planDMs_templates.
    + intros [ds n] w4. apply bind_ext2; [|reflexivity].
      intros w5. now apply planEngagement_templates.
Qed.

(** * Further properties of the orchestrator *)

Import Quota Notions.

(** ** Leaving the loop, and staying in it *)

Lemma cycle_permission E sys w msg w1 :
  runPhases E sys w = (Throw msg, w1) ->
  isPermissionError msg = true ->
  isShuttingDown sys = false ->
  cycle E sys w =
  (Ok (Break (set_isShuttingDown true (set_errorCount (S (errorCount sys)) sys))),
   mkWorld (leadsSheet w1) (tick w1) (trace w1 ++ shutdownEvents sys)
           (dailyCounters w1)).
Proof.
  intros H Hperm Hrun. unfold cycle, try_catch, bind at 1. rewrite H, Hperm.
  unfold bind. rewrite shutdown_running by assumption. reflexivity.
Qed.

(** X1. A cycle that raises an error whose message mentions 'permission'
    or '403' ends the loop at once, whatever the consecutive-error counter
    and the threshold are: the system shuts down right after the failure,
    no retry delay is slept and no further cycle is started. *)
Theorem permission_error_stops_at_once E sys c w fuel msg w1 :
  isShuttingDown sys = false ->
  runPhases E sys (snd (emit (EvCycleStart (S c)) w)) = (Throw msg, w1) ->
  isPermissionError msg = true ->
  runAutomationLoop E (S fuel) sys c w =
  (Ok (set_isShuttingDown true (set_errorCount (S (errorCount sys)) sys), S c, true),
   mkWorld (leadsSheet w1) (tick w1) (trace w1 ++ shutdownEvents sys)
           (dailyCounters w1)).
Proof.
  intros Hrun Hbody Hperm. rewrite runAutomationLoop_S by assumption.
  now rewrite (cycle_permission _ _ _ _ _ Hbody Hperm Hrun).
Qed.

Lemma permission_error_stops_at_once_witness :
  fst (runAutomationLoop Cases.forbidden 3 (newSystem false) 0 Scenarios.emptyWorld)
  = Ok (set_isShuttingDown true (set_errorCount 1 (newSystem false)), 1, true).
Proof.
  rewrite (permission_error_stops_at_once Cases.forbidden (newSystem false) 0
             Scenarios.emptyWorld 2 "The caller does not have permission"
             (snd (runPhases Cases.forbidden (newSystem false)
                     (snd (emit (EvCycleStart 1) Scenarios.emptyWorld))))).
  - reflexivity.
  - reflexivity.
  - vm_compute. reflexivity.
  - reflexivity.
Defined.

(** X2. As long as every cycle runs its three phases to the end, the loop
    never ends by itself: after [n] such cycles it is still running, has
    counted [n] cycles, and its consecutive-error counter is zero. *)
Theorem completing_cycles_keep_the_loop_running n : forall E sys c w,
  isShuttingDown sys = false ->
  completingCycles E n sys c w ->
  exists sys' w',
    runAutomationLoop E n sys c w = (Ok (sys', c + n, false), w')
    /\ isShuttingDown sys' = false
    /\ (0 < n -> errorCount sys' = 0).
Proof.
  induction n as [|n IH]; intros E sys c w Hrun Hok.
  - exists sys, w. cbn [runAutomationLoop]. rewrite Hrun, Nat.add_0_r.
    split; [reflexivity|]. split; [reflexivity|lia].
  - rewrite runAutomationLoop_S by assumption. cbn [completingCycles] in Hok.
    destruct (runPhases E sys _) as [[[|]|msg] w1] eqn:Hbody; try contradiction.
    rewrite (cycle_completed _ _ _ _ Hbody).
    destruct (IH E (set_errorCount 0 sys) (S c) (snd (sleep Config.cycleWait w1)))
      as (sys' & w' & Hloop & Hstill & Hcount); [assumption|assumption|].
    exists sys', w'. rewrite Hloop.
    replace (c + S n) with (S c + n) by lia.
    split; [reflexivity|]. split; [assumption|]. intros _.
    destruct n as [|n]; [|apply Hcount; lia].
    cbn [runAutomationLoop] in Hloop. injection Hloop as <- _. reflexivity.
Qed.

Lemma completing_cycles_keep_the_loop_running_witness :
  exists sys' w',
    runAutomationLoop Scenarios.calm 2 (newSystem true) 0 Scenarios.emptyWorld
    = (Ok (sys', 0 + 2, false), w')
    /\ isShuttingDown sys' = false
    /\ (0 < 2 -> errorCount sys' = 0).
Proof.
  apply (completing_cycles_keep_the_loop_running 2 Scenarios.calm (newSystem true) 0
           Scenarios.emptyWorld).
  - reflexivity.
  - vm_compute. exact I.
Defined.

(** X3. Shutting down is idempotent. The first shutdown of a running
    system raises the flag and produces exactly these events, in this
    order: the announcement, the closing of the bot (unless in demo mode)
    and the closing of the store connection. A second shutdown returns the
    system as it is and produces no event, so that two shutdowns in a row
    close each resource once; and the loop starts no cycle, and produces
    no event, on a system that is shut down. *)
Theorem shutdown_twice_is_shutdown_once sys w :
  isShuttingDown sys = false ->
  exists sys1 w1,
    shutdown sys w = (Ok sys1, w1)
    /\ sys1 = set_isShuttingDown true sys
    /\ trace w1
       = trace w ++ [EvShutdown] ++ (if isDemo sys then [] else [EvBotClose])
                 ++ [EvSheetsClose]
    /\ shutdown sys1 w1 = (Ok sys1, w1)
    /\ bind (shutdown sys) shutdown w = (Ok sys1, w1)
    /\ length (List.filter (fun e => match e with EvSheetsClose => true | _ => false end)
                           (newEvents w (snd (bind (shutdown sys) shutdown w)))) = 1
    /\ length (List.filter (fun e => match e with EvBotClose => true | _ => false end)
                           (newEvents w (snd (bind (shutdown sys) shutdown w))))
       = (if isDemo sys then 0 else 1)
    /\ forall E fuel c, runAutomationLoop E fuel sys1 c w1 = (Ok (sys1, c, true), w1).
Proof.
  intros Hrun.
  assert (Hdone : forall s w0, isShuttingDown s = true ->
            shutdown s w0 = (Ok s, w0)
            /\ forall E fuel c, runAutomationLoop E fuel s c w0 = (Ok (s, c, true), w0)).
  { intros s w0 Hs. split.
    - unfold shutdown. now rewrite Hs.
    - intros E [|fuel] c; cbn [runAutomationLoop]; now rewrite Hs. }
  pose proof (shutdown_running sys w Hrun) as H1.
  set (sys1 := set_isShuttingDown true sys) in *.
  set (w1 := mkWorld _ _ _ _) in H1.
  destruct (Hdone sys1 w1 eq_refl) as [H2 H3].
  assert (Hboth : bind (shutdown sys) shutdown w = (Ok sys1, w1)).
  { unfold bind. now rewrite H1. }
  assert (Hnew : newEvents w w1 = shutdownEvents sys).
  { apply newEvents_app. reflexivity. }
  exists sys1, w1.
  split; [exact H1|]. split; [reflexivity|]. split; [reflexivity|].
  split; [exact H2|]. split; [exact Hboth|].
  rewrite Hboth. cbn [snd]. rewrite Hnew. unfold shutdownEvents.
  split; [|split; [|exact H3]]; now destruct (isDemo sys).
Qed.

Lemma shutdown_twice_is_shutdown_once_witness :
  exists sys1 w1,
    bind (shutdown (newSystem false)) shutdown Scenarios.emptyWorld = (Ok sys1, w1)
    /\ trace w1 = [EvShutdown; EvBotClose; EvSheetsClose].
Proof.
  destruct (shutdown_twice_is_shutdown_once (newSystem false) Scenarios.emptyWorld
              eq_refl)
    as (sys1 & w1 & _ & _ & Ht & _ & Hboth & _).
  exists sys1, w1. split; [exact Hboth|exact Ht].
Defined.

(** ** The kill switch fails open *)

Lemma statusOf_unreadable reading : unreadable reading -> statusOf reading = "RUN".
Proof.
  destruct reading as [[|[|cell rest]]|msg]; cbn [unreadable statusOf]; try reflexivity.
  intros ->. reflexivity.
Qed.

(** X4. When the control worksheet gives no value (the read fails, the
    worksheet is missing or empty, or its first cell is empty), the check
    reads it as RUN and the phase runs: the outcome of [runPhase] is the
    outcome of the phase itself, started right after the one reading. *)
Theorem unreadable_control_lets_the_phase_run E phaseFn name w :
  unreadable (env_control E (tick w)) ->
  runPhase E phaseFn name w =
  match phaseFn (mkWorld (leadsSheet w) (S (tick w))
                         (trace w ++ [EvControlRead; EvPhase name]) (dailyCounters w)) with
  | (Ok _, w') => (Ok false, w')
  | (Throw msg, w') => (Throw msg, w')
  end.
Proof.
  intros Hun. unfold runPhase. unfold bind at 1.
  rewrite checkKillSwitch_eq, (statusOf_unreadable _ Hun).
  replace (negb (String.eqb (JS.toUpperCase "RUN") "RUN")) with false by reflexivity.
  unfold bind, emit. cbn [leadsSheet tick trace dailyCounters].
  rewrite <- app_assoc. cbn [app].
  destruct (phaseFn _) as [[[]|msg] w']; reflexivity.
Qed.

Lemma unreadable_control_lets_the_phase_run_witness :
  runPhase Cases.controlDown (sleep 5000) "scraping" Scenarios.emptyWorld =
  (Ok false,
   mkWorld [] 2 [EvControlRead; EvPhase "scraping"; EvSleep 5000]
           (dailyCounters Scenarios.emptyWorld)).
Proof.
  rewrite (unreadable_control_lets_the_phase_run Cases.controlDown (sleep 5000)
             "scraping" Scenarios.emptyWorld).
  - reflexivity.
  - exact I.
Defined.

(** ** Delays *)

Lemma floor_of_scaled_draw (r : Q) (n : Z) :
  (0 <= r)%Q -> (r < 1)%Q -> (0 < n)%Z ->
  (0 <= Qfloor (r * inject_Z n) < n)%Z.
Proof.
  intros H0 H1 Hn.
  assert (Hpos : (0 < inject_Z n)%Q) by (unfold Qlt; cbn; lia).
  split.
  - change 0%Z with (Qfloor 0). apply Qfloor_resp_le.
    apply Qmult_le_0_compat; [exact H0|]. now apply Qlt_le_weak.
  - rewrite Zlt_Qlt.
    apply Qle_lt_trans with (r * inject_Z n)%Q; [apply Qfloor_le|].
    apply Qlt_le_trans with (1 * inject_Z n)%Q.
    + apply Qmult_lt_compat_r; assumption.
    + rewrite Qmult_1_l. apply Qle_refl.
Qed.

(** X5. With draws of [Math.random] in the unit interval, [randomDelay]
    returns a whole number of milliseconds between its two bounds, both
    included, and [getHumanLikeDelay] one between thirty seconds and three
    minutes. *)
Theorem delays_within_bounds E :
  unitDraws E ->
  (forall lo hi w, (lo <= hi)%Z ->
     exists d, fst (randomDelay E lo hi w) = Ok d /\ (lo <= d <= hi)%Z)
  /\ (forall w,
        exists d, fst (getHumanLikeDelay E w) = Ok d /\ (30000 <= d <= 180000)%Z).
Proof.
  intros Hdraws. split.
  - intros lo hi w Hle. eexists. split; [reflexivity|].
    destruct (Hdraws (tick w)) as [H0 H1].
    pose proof (floor_of_scaled_draw _ (hi - lo + 1) H0 H1 ltac:(lia)). lia.
  - intros w. eexists. split; [reflexivity|].
    destruct (Hdraws (tick w)) as [H0 H1].
    pose proof (floor_of_scaled_draw _ (3 * 60 * 1000 - 30 * 1000 + 1) H0 H1 ltac:(lia)).
    lia.
Qed.

Lemma delays_within_bounds_witness :
  (forall lo hi w, (lo <= hi)%Z ->
     exists d, fst (randomDelay Scenarios.varied lo hi w) = Ok d /\ (lo <= d <= hi)%Z)
  /\ (forall w,
        exists d, fst (getHumanLikeDelay Scenarios.varied w) = Ok d
                  /\ (30000 <= d <= 180000)%Z).
Proof.
  apply (delays_within_bounds Scenarios.varied).
  intros t. cbn [Scenarios.varied env_random].
  pose proof (Nat.mod_upper_bound (t * 3) 10 ltac:(lia)) as Hlt.
  split.
  - unfold Qle. cbn. lia.
  - unfold Qlt. cbn. lia.
Defined.

(** ** The scraping loop and the evaluation loop *)

Lemma scrapeKeywords_trace E kws : forall acc w,
  exists more w' d,
    scrapeKeywords E kws acc w = (Ok (acc ++ more), w')
    /\ trace w' = trace w ++ d
    /\ omap (fun e => match e with
                      | EvScrape keyword => Some keyword
                      | _ => None
                      end) d = kws
    /\ leadsSheet w' = leadsSheet w.
Proof.
  induction kws as [|kw rest IH]; intros acc w; cbn [scrapeKeywords].
  - exists [], w, []. rewrite !app_nil_r. auto.
  - unfold bind at 1.
    destruct (try_catch _ _ w) as [[found|msg] w1] eqn:Htc.
    + assert (Hone : exists more1 d1,
                 found = acc ++ more1 /\ trace w1 = trace w ++ d1
                 /\ omap (fun e => match e with
                                   | EvScrape keyword => Some keyword
                                   | _ => None
                                   end) d1 = [kw]
                 /\ leadsSheet w1 = leadsSheet w).
      { unfold try_catch, bind, next_tick, emit, lift_result, randomDelay, random,
          sleep, bind, next_tick, emit, ret, throw in Htc.
        cbn [tick trace leadsSheet dailyCounters] in Htc.
        destruct (env_scrape E (tick w) kw) as [[[|l ls]|]|m]; destruct rest;
          injection Htc as <- <-; cbn [trace leadsSheet];
          first [ solve [ exists []; rewrite app_nil_r; eexists;
                          (split; [reflexivity|]); rewrite <- ?app_assoc;
                          (split; [reflexivity|]); split; reflexivity ]
                | solve [ eexists; eexists;
                          (split; [reflexivity|]); rewrite <- ?app_assoc;
                          (split; [reflexivity|]); split; reflexivity ] ]. }
      destruct Hone as (more1 & d1 & -> & Ht1 & Ho1 & Hs1).
      destruct (IH (acc ++ more1) w1) as (more & w' & d & Hrun & Ht & Ho & Hs).
      exists (more1 ++ more), w', (d1 ++ d). rewrite Hrun, app_assoc.
      split; [reflexivity|]. split; [now rewrite Ht, Ht1, app_assoc|].
      split; [now rewrite omap_app, Ho1, Ho|]. congruence.
    + exfalso.
      unfold try_catch, bind, next_tick, emit, lift_result, randomDelay, random,
        sleep, bind, next_tick, emit, ret, throw in Htc.
      cbn [tick trace leadsSheet dailyCounters] in Htc.
      destruct (env_scrape E (tick w) kw) as [[[|l ls]|]|m]; destruct rest;
        discriminate Htc.
Qed.

(** X6. The keyword loop of the scraping phase never throws and asks the
    scraper for every keyword exactly once, in the configured order, even
    when scrapes fail; it only ever adds to the leads collected so far and
    leaves the sheet alone. *)
Theorem scrapeKeywords_asks_for_every_keyword E kws acc w :
  exists more w',
    scrapeKeywords E kws acc w = (Ok (acc ++ more), w')
    /\ scraped w w' = kws
    /\ leadsSheet w' = leadsSheet w.
Proof.
  destruct (scrapeKeywords_trace E kws acc w) as (more & w' & d & Hrun & Ht & Ho & Hs).
  exists more, w'. unfold scraped. rewrite (newEvents_app _ _ _ Ht). auto.
Qed.

Lemma substring0_length n : forall s, String.length (JS.substring0 n s) <= n.
Proof.
  induction n as [|n IH]; intros [|c s]; cbn [JS.substring0 String.length]; try lia.
  specialize (IH s). lia.
Qed.

Lemma collectUpdates_trace E rawLeads : forall w,
  exists updates w' d,
    collectUpdates E rawLeads w = (Ok updates, w')
    /\ upd_rowNumber <$> updates = pl_id <$> rawLeads
    /\ Forall verdict updates
    /\ trace w' = trace w ++ d
    /\ d = (fun lead => EvEvaluate (pl_username lead)) <$> rawLeads
    /\ leadsSheet w' = leadsSheet w.
Proof.
  induction rawLeads as [|lead rest IH]; intros w; cbn [collectUpdates].
  - exists [], w, []. rewrite app_nil_r. repeat split; constructor.
  - unfold bind at 1, try_catch, bind at 1, next_tick, bind at 1, emit, bind at 1.
    cbn [tick trace leadsSheet dailyCounters].
    set (w1 := mkWorld _ _ _ _).
    destruct (IH w1) as (us & w' & d & Hrun & Hnum & Hall & Ht & Hd & Hs).
    assert (Hw1 : trace w1 = trace w ++ [EvEvaluate (pl_username lead)]) by reflexivity.
    destruct (env_evaluate E (tick w) (pl_username lead)) as [[ok why]|msg];
      cbn [lift_result ret throw fst snd]; unfold bind; rewrite Hrun;
      eexists _, w', (_ :: d); (split; [reflexivity|]);
      (split; [cbn [fmap list_fmap upd_rowNumber]; now f_equal|]);
      (split; [constructor; [|exact Hall]|
               split; [rewrite Ht, Hw1, <- app_assoc; reflexivity|
                       split; [cbn [fmap list_fmap]; now f_equal|exact Hs]]]).
    + unfold verdict. cbn [upd_status]. destruct ok; auto.
    + unfold verdict. cbn [upd_status upd_reason]. right. right.
      split; [reflexivity|apply substring0_length].
Qed.

Lemma collectUpdates_answers E rawLeads : forall w updates w',
  collectUpdates E rawLeads w = (Ok updates, w') ->
  Forall2 (fun la u => records la.1 la.2 u)
          (zip rawLeads (answers E (tick w) rawLeads)) updates
  /\ tick w' = tick w + length rawLeads.
Proof.
  induction rawLeads as [|lead rest IH]; intros w updates w'; cbn [collectUpdates].
  - intros [= <- <-]. cbn [answers zip zip_with length]. split; [constructor|lia].
  - unfold bind at 1, try_catch, bind at 1, next_tick, bind at 1, emit, bind at 1.
    cbn [tick trace leadsSheet dailyCounters].
    set (w1 := mkWorld _ _ _ _).
    assert (Hrest : forall u,
              bind (collectUpdates E rest) (fun us => ret (u :: us)) w1
              = (Ok updates, w') ->
              exists us, updates = u :: us
                         /\ Forall2 (fun la u0 => records la.1 la.2 u0)
                                    (zip rest (answers E (S (tick w)) rest)) us
                         /\ tick w' = tick w + length (lead :: rest)).
    { intros u. unfold bind.
      destruct (collectUpdates E rest w1) as [[us|msg] w2] eqn:Hrun; [|discriminate].
      unfold ret. intros [= <- <-].
      destruct (IH w1 us w2 Hrun) as [Hall Ht]. exists us.
      split; [reflexivity|]. split; [exact Hall|].
      rewrite Ht. cbn [tick length w1]. lia. }
    cbn [answers zip zip_with].
    destruct (env_evaluate E (tick w) (pl_username lead)) as [[ok why]|msg];
      cbn [lift_result ret throw fst snd]; intros Hrun;
      apply Hrest in Hrun as (us & -> & Hall & Ht);
      (split; [constructor; [|exact Hall]|exact Ht]).
    + unfold records. cbn [fst snd upd_rowNumber upd_status upd_reason].
      split; [reflexivity|]. destruct ok; split; reflexivity.
    + unfold records. cbn [fst snd upd_rowNumber upd_status upd_reason].
      split; [reflexivity|]. split; reflexivity.
Qed.

(** X7. The evaluation loop of the filtering phase never throws and
    records exactly one verdict per pending lead, in order and under the
    lead's row number. The verdict of a lead is the filter's answer at
    the lead's turn: PASS with the filter's reason when the filter passes
    the lead, FAIL with the filter's reason when it fails the lead, and
    ERROR with the first 500 characters of 'Filter error: ' and the
    message when the filter throws. The loop asks the filter about each
    lead once, one request per tick, and does nothing else. *)
Theorem collectUpdates_one_verdict_per_lead E rawLeads : forall w,
  exists updates w',
    collectUpdates E rawLeads w = (Ok updates, w')
    /\ Forall2 (fun la u => records la.1 la.2 u)
               (zip rawLeads (answers E (tick w) rawLeads)) updates
    /\ upd_rowNumber <$> updates = pl_id <$> rawLeads
    /\ Forall verdict updates
    /\ newEvents w w' = (fun lead => EvEvaluate (pl_username lead)) <$> rawLeads
    /\ tick w' = tick w + length rawLeads
    /\ leadsSheet w' = leadsSheet w.
Proof.
  intros w.
  destruct (collectUpdates_trace E rawLeads w)
    as (us & w' & d & Hrun & Hnum & Hall & Ht & Hd & Hs).
  destruct (collectUpdates_answers E rawLeads w us w' Hrun) as [Hans Htick].
  exists us, w'. rewrite (newEvents_app _ _ _ Ht). subst d. auto 10.
Qed.

(** The filter fails the first lead, throws on the second and passes the
    third: the loop records FAIL, ERROR and PASS, in this order. *)
Example verdicts_follow_the_filter :
  fst (collectUpdates Cases.moodyFilter
         [mkPending 2 "alice" "" 3 false; mkPending 3 "bob" "" 70 false;
          mkPending 5 "carol" "" 90 false] Scenarios.emptyWorld)
  = Ok [mkUpdate 2 "FAIL" "Too few followers: 3 < 50";
        mkUpdate 3 "ERROR" "Filter error: net::ERR_TIMED_OUT";
        mkUpdate 5 "PASS" "All filters passed"].
Proof. vm_compute. reflexivity. Qed.

(** ** What the engagement phase does, and what it leaves alone *)

Section EngagementRules.

Variable R : World -> World -> Prop.
Variable good : Event -> Prop.
Variable E : Env.
Hypothesis R_refl : forall w, R w w.
Hypothesis R_trans : forall a b c, R a b -> R b c -> R a c.
Hypothesis R_tick : steps R next_tick.
Hypothesis R_emit : forall e, good e -> steps R (emit e).
Hypothesis R_reset : forall E', steps R (resetDailyCountersIfNeeded E').
Hypothesis good_read : good EvGetRows.
Hypothesis good_bot : forall e, isBotRequest e = true -> good e.
Hypothesis good_pause : forall w d,
  fst (randomDelay E Config.minDelayBetweenActions Config.maxDelayBetweenActions w) = Ok d ->
  good (EvSleep d).

Lemma pause_rule {A} (x : A) :
  steps R (delay ← randomDelay E Config.minDelayBetweenActions
                     Config.maxDelayBetweenActions;
           sleep delay;; ret x).
Proof.
  intros w.
  destruct (randomDelay E Config.minDelayBetweenActions
              Config.maxDelayBetweenActions w) as [r w1] eqn:Hd.
  assert (Hsnd : exists d, r = Ok d /\ w1 = snd (next_tick w)).
  { unfold randomDelay, bind, random, bind, next_tick, ret in Hd.
    injection Hd as <- <-. eexists. split; reflexivity. }
  destruct Hsnd as (d & -> & ->).
  pose proof (good_pause w d) as Hgood. rewrite Hd in Hgood.
  specialize (Hgood eq_refl).
  unfold bind at 1. rewrite Hd.
  eapply R_trans; [apply R_tick|].
  change (R (snd (next_tick w)) (snd ((sleep d;; ret x) (snd (next_tick w))))).
  generalize (snd (next_tick w)). 
  change (steps R (sleep d;; ret x)).
  steps_by R_refl R_trans ltac:(first [apply R_tick | apply R_emit; assumption]).
Qed.

Ltac eng :=
  steps_by R_refl R_trans
    ltac:(first [ apply R_tick
                | apply R_emit; first [exact good_read | apply good_bot; reflexivity]
                | apply R_reset
                | apply pause_rule
                | solve [eauto] ]).

Lemma markDMSent_undefined : steps R (markDMSent E None).
Proof. unfold markDMSent, getRows. cbn [findRow]. eng. Qed.

Lemma logError_undefined msg : steps R (logError E None msg).
Proof. unfold logError, getRows. cbn [findRow]. eng. Qed.

Lemma executeActivity_rule a : steps R (executeActivity E a).
Proof.
  pose proof markDMSent_undefined.
  unfold executeActivity, activity_id. eng.
Qed.

Lemma executeAll_rule acts : forall n, steps R (executeAll E acts n).
Proof.
  pose proof executeActivity_rule. pose proof logError_undefined.
  induction acts as [|a rest IH]; intros; cbn [executeAll]; unfold activity_id; eng.
Qed.

Lemma engagementPhase_rule sys : steps R (engagementPhase E sys).
Proof.
  pose proof executeAll_rule.
  pose proof (getLeadsForEngagement_frame R good R_refl R_trans R_tick R_emit E good_read).
  pose proof (fun S leads lim =>
    createDailyPlan_frame R True R_refl R_trans R_tick (fun _ => R_reset) E S leads lim I).
  unfold engagementPhase. eng.
Qed.

End EngagementRules.

Lemma same_sheet_reset E : steps same_sheet (resetDailyCountersIfNeeded E).
Proof.
  intros w. unfold same_sheet, resetDailyCountersIfNeeded, bind. cbn.
  now destruct (String.eqb _ _).
Qed.

Lemma extends_Forall phi w w' : extends phi w w' -> Forall phi (newEvents w w').
Proof. intros (d & Hd & Fd). now rewrite (newEvents_app _ _ _ Hd). Qed.

Lemma engagementPhase_returns E sys w : fst (engagementPhase E sys w) = Ok tt.
Proof.
  unfold engagementPhase.
  match goal with
  | |- fst (try_catch ?m ?h w) = _ =>
      destruct (try_catch_total m h w) as ([] & w' & ->); [|reflexivity]
  end.
  intros msg w1. now exists tt, w1.
Qed.

(** X8. The engagement phase never writes to the sheet: whatever the bot
    and the store answer, it requests no insert and no save, and the sheet
    after the phase is the sheet before it. In particular no lead is ever
    marked as messaged and no engagement error is logged on a row. The
    phase itself never throws. *)
Theorem engagement_leaves_the_sheet_alone E sys w :
  fst (engagementPhase E sys w) = Ok tt
  /\ leadsSheet (snd (engagementPhase E sys w)) = leadsSheet w
  /\ Forall noWrite (newEvents w (snd (engagementPhase E sys w))).
Proof.
  split; [apply engagementPhase_returns|]. split.
  - apply (engagementPhase_rule same_sheet (fun _ => True) E);
      first [ exact same_sheet_refl | exact same_sheet_trans
            | exact (same_sheet_reset) | (intros; exact I) | (intros ? ? ?; reflexivity)
            | (intros ?; reflexivity) ].
  - apply extends_Forall.
    apply (engagementPhase_rule (extends noWrite) noWrite E);
      first [ exact (extends_refl noWrite) | exact (extends_trans noWrite)
            | exact (extends_next_tick noWrite) | exact (extends_emit noWrite)
            | exact (extends_reset noWrite) | exact I
            | (intros; exact I) | idtac ].
    intros [] Hreq; try discriminate Hreq; exact I.
Qed.

(** X9. With draws of [Math.random] in the unit interval, everything the
    engagement phase does is a read of the sheet, a request to the bot, or
    a pause, and every pause lasts between thirty seconds and three
    minutes. *)
Theorem engagement_is_paced E sys w :
  unitDraws E ->
  Forall paced (newEvents w (snd (engagementPhase E sys w))).
Proof.
  intros Hdraws. apply extends_Forall.
  apply (engagementPhase_rule (extends paced) paced E);
    first [ exact (extends_refl paced) | exact (extends_trans paced)
          | exact (extends_next_tick paced) | exact (extends_emit paced)
          | exact (extends_reset paced) | exact I | idtac ].
  - intros [] Hreq; try discriminate Hreq; exact Hreq.
  - intros w0 d Hd. cbn [paced].
    destruct (Hdraws (tick w0)) as [H0 H1].
    assert (Heq : d = (Qfloor (env_random E (tick w0)
                                * inject_Z (Config.maxDelayBetweenActions
                                            - Config.minDelayBetweenActions + 1))
                       + Config.minDelayBetweenActions)%Z).
    { unfold randomDelay, bind, random, bind, next_tick, ret in Hd.
      cbn [fst tick] in Hd. congruence. }
    pose proof (floor_of_scaled_draw _ (Config.maxDelayBetweenActions
                  - Config.minDelayBetweenActions + 1) H0 H1 ltac:(reflexivity)).
    unfold Config.maxDelayBetweenActions, Config.minDelayBetweenActions in *. lia.
Qed.

Lemma engagement_is_paced_witness :
  Forall paced
    (newEvents Scenarios.oneReady
       (snd (engagementPhase Scenarios.calm (newSystem false) Scenarios.oneReady))).
Proof.
  apply (engagement_is_paced Scenarios.calm (newSystem false) Scenarios.oneReady).
  intros t. split; [unfold Qle; cbn; lia|unfold Qlt; cbn; lia].
Defined.

(** ** The skeleton of a cycle *)

Ltac inner_side :=
  first [ exact (extends_refl inner) | exact (extends_trans inner)
        | exact (extends_next_tick inner) | exact (extends_emit inner)
        | (intros _; exact (extends_put_sheet inner))
        | exact (extends_reset inner)
        | exact I | reflexivity | (intros; reflexivity) | assumption ].

Lemma scrapingPhase_inner E sys : steps (extends inner) (scrapingPhase E sys).
Proof.
  unfold scrapingPhase.
  steps_by (extends_refl inner) (extends_trans inner)
    ltac:(first
      [ apply (scrapeKeywords_frame (extends inner) inner); inner_side
      | apply (getAllUsernames_frame (extends inner) inner); inner_side
      | apply (appendLeads_frame (extends inner) inner True);
          first [ inner_side | (apply Forall_forall; intros; reflexivity) ]
      | apply (sleep_frame (extends inner) inner); inner_side ]).
Qed.

Lemma collectUpdates_inner E rawLeads : steps (extends inner) (collectUpdates E rawLeads).
Proof.
  induction rawLeads as [|lead rest IH]; cbn [collectUpdates];
    steps_by (extends_refl inner) (extends_trans inner)
      ltac:(first [ apply extends_next_tick | apply extends_emit; reflexivity
                  | exact IH ]).
Qed.

Lemma filteringPhase_inner E sys : steps (extends inner) (filteringPhase E sys).
Proof.
  unfold filteringPhase, getUnfilteredLeads, batchUpdateLeadStatuses, saveAll.
  steps_by (extends_refl inner) (extends_trans inner)
    ltac:(first
      [ apply (getRows_frame (extends inner) inner); inner_side
      | apply collectUpdates_inner
      | apply (save_frame (extends inner) inner True); inner_side ]).
Qed.

Lemma engagementPhase_inner E sys : steps (extends inner) (engagementPhase E sys).
Proof.
  apply (engagementPhase_rule (extends inner) inner E);
    first [ inner_side | idtac ].
  - intros [] Hreq; try discriminate Hreq; reflexivity.
Qed.

Lemma filter_inner d : Forall inner d -> List.filter isGate d = [].
Proof.
  induction 1 as [|e d He _ IH]; [reflexivity|].
  cbn [List.filter]. unfold inner in He. now rewrite He.
Qed.

Lemma filteringPhase_returns E sys w : fst (filteringPhase E sys w) = Ok tt.
Proof.
  unfold filteringPhase.
  match goal with
  | |- fst (try_catch ?m ?h w) = _ =>
      destruct (try_catch_total m h w) as ([] & w' & ->); [|reflexivity]
  end.
  intros msg w1. now exists tt, w1.
Qed.

(** One guarded phase: the check, and the phase if the check lets it. *)
Lemma runPhase_gates E p name w :
  steps (extends inner) p ->
  exists d,
    trace (snd (runPhase E p name w)) = trace w ++ d
    /\ List.filter isGate d =
       match fst (runPhase E p name w) with
       | Ok true => [EvControlRead]
       | _ => [EvControlRead; EvPhase name]
       end.
Proof.
  intros Hp. destruct (runPhase E p name w) as [r w'] eqn:Hrun. cbn [fst snd].
  unfold runPhase in Hrun. unfold bind at 1 in Hrun.
  rewrite checkKillSwitch_eq in Hrun.
  destruct (negb _).
  - injection Hrun as <- <-. exists [EvControlRead]. split; reflexivity.
  - unfold bind, emit in Hrun. cbn [leadsSheet tick trace dailyCounters] in Hrun.
    set (w2 := mkWorld _ _ _ _) in Hrun.
    destruct (Hp w2) as (d & Hd & Fd).
    exists ([EvControlRead; EvPhase name] ++ d).
    rewrite List.filter_app, (filter_inner d Fd).
    destruct (p w2) as [[[]|msg] w3]; cbn [snd ret] in *; injection Hrun as <- <-;
      (split; [|reflexivity]); rewrite Hd; subst w2; cbn [trace];
      now rewrite <- !app_assoc.
Qed.

Lemma gates_app w w1 w2 d1 d2 :
  trace w1 = trace w ++ d1 -> trace w2 = trace w1 ++ d2 ->
  gates w w2 = List.filter isGate d1 ++ List.filter isGate d2.
Proof.
  intros H1 H2. unfold gates.
  rewrite (newEvents_app w w2 (d1 ++ d2)) by (now rewrite H2, H1, app_assoc).
  apply List.filter_app.
Qed.

(** X10. The skeleton of a cycle. Each phase is preceded by its own
    reading of the control cell; the phases run in the order scraping,
    filtering, engagement; a cycle that stops does so right after a
    reading, before the phase that would have followed; and only the
    scraping phase can make the cycle throw, since the two later phases
    never raise an error. *)
Theorem cycle_skeleton E sys w :
  let w' := snd (runPhases E sys w) in
  match fst (runPhases E sys w) with
  | Ok false => gates w w' = fullSkeleton
  | Ok true =>
      gates w w' = take 1 fullSkeleton \/ gates w w' = take 3 fullSkeleton
      \/ gates w w' = take 5 fullSkeleton
  | Throw _ => gates w w' = take 2 fullSkeleton
  end.
Proof.
  cbv zeta. destruct (runPhases E sys w) as [r w'] eqn:Hrun. cbn [fst snd].
  unfold runPhases in Hrun. unfold bind at 1 in Hrun.
  destruct (runPhase_gates E (scrapingPhase E sys) "scraping" w
              (scrapingPhase_inner E sys)) as (d1 & Ht1 & Hg1).
  destruct (runPhase E (scrapingPhase E sys) "scraping" w) as [[[|]|msg] w1];
    cbn [fst snd ret] in *.
  - injection Hrun as <- <-. left. unfold gates.
    now rewrite (newEvents_app _ _ _ Ht1).
  - unfold bind at 1 in Hrun.
    destruct (runPhase_gates E (filteringPhase E sys) "filtering" w1
                (filteringPhase_inner E sys)) as (d2 & Ht2 & Hg2).
    destruct (runPhase E (filteringPhase E sys) "filtering" w1) as [[[|]|msg] w2] eqn:H2;
      cbn [fst snd ret] in *.
    + injection Hrun as <- <-. right. left.
      now rewrite (gates_app _ _ _ _ _ Ht1 Ht2), Hg1, Hg2.
    + unfold bind in Hrun.
      destruct (runPhase_gates E (engagementPhase E sys) "engagement" w2
                  (engagementPhase_inner E sys)) as (d3 & Ht3 & Hg3).
      assert (Ht12 : trace w2 = trace w ++ (d1 ++ d2)) by (now rewrite Ht2, Ht1, app_assoc).
      destruct (runPhase E (engagementPhase E sys) "engagement" w2) as [[[|]|msg] w3] eqn:H3;
        cbn [fst snd ret] in *; injection Hrun as <- <-;
        try (pose proof (gates_app _ _ _ _ _ Ht12 Ht3) as Hg;
             rewrite List.filter_app, Hg1, Hg2, Hg3 in Hg).
      * right. right. exact Hg.
      * exact Hg.
      * exfalso.
        unfold runPhase, bind in H3. rewrite checkKillSwitch_eq in H3.
        destruct (negb _); [discriminate H3|].
        unfold emit in H3. cbn [leadsSheet tick trace dailyCounters] in H3.
        match type of H3 with
        | context [engagementPhase E sys ?w0] =>
            pose proof (engagementPhase_returns E sys w0) as Hr;
            destruct (engagementPhase E sys w0) as [[[]|m] w4]; cbn [fst] in Hr;
            discriminate
        end.
    + exfalso.
      unfold runPhase, bind in H2. rewrite checkKillSwitch_eq in H2.
      destruct (negb _); [discriminate H2|].
      unfold emit in H2. cbn [leadsSheet tick trace dailyCounters] in H2.
      match type of H2 with
      | context [filteringPhase E sys ?w0] =>
          pose proof (filteringPhase_returns E sys w0) as Hr;
          destruct (filteringPhase E sys w0) as [[[]|m] w4]; cbn [fst] in Hr;
          discriminate
      end.
  - injection Hrun as <- <-. unfold gates. now rewrite (newEvents_app _ _ _ Ht1).
Qed.

(** * Further properties of the store adapter *)

(** ** Appending *)

Lemma madeFrom_fresh lead r : madeFrom lead r -> freshRow r.
Proof.
  intros (n & ts & ->). unfold freshRow, set_rowNumber, leadRow.
  cbn [colFilterStatus colFilterReason colDMStatus colDMSentDate colLastError
       colErrorTimestamp colVerified colBio].
  repeat (split; [reflexivity|]). split.
  - destruct (sl_isVerified lead); auto.
  - apply substring0_length.
Qed.

Lemma for_each_cons {A} (x : A) xs body w :
  for_each (x :: xs) body w =
  match body x w with
  | (Ok _, w1) => for_each xs body w1
  | (Throw msg, w1) => (Throw msg, w1)
  end.
Proof. reflexivity. Qed.

(** The insertion loop adds the rows of a prefix of the batch, and of the
    whole batch when it does not throw; a failure carries the message of
    the store and is not followed by any further effect. *)
Lemma insertAll_rows E leads : forall w,
  exists n rows,
    leadsSheet (snd (insertAll E leads w)) = leadsSheet w ++ rows
    /\ Forall2 madeFrom (take n leads) rows
    /\ extends notSleep w (snd (insertAll E leads w))
    /\ match fst (insertAll E leads w) with
       | Ok _ => take n leads = leads
       | Throw msg => exists t r, env_addRow E t r = Some msg
       end.
Proof.
  unfold insertAll.
  induction leads as [|lead rest IH]; intros w.
  - exists 0, []. rewrite app_nil_r. cbn. repeat split; try constructor.
    apply extends_refl.
  - rewrite for_each_cons.
    destruct (try_catch _ _ w) as [[[]|msg] w1] eqn:Htc.
    + assert (Hone : exists r, leadsSheet w1 = leadsSheet w ++ [r] /\ madeFrom lead r
                               /\ extends notSleep w w1).
      { unfold try_catch, bind in Htc.
        destruct (if JS.truthy (sl_scrapedAt lead) then _ else _) as [[ts|m] w0] eqn:Hts.
        - assert (Hw0 : leadsSheet w0 = leadsSheet w /\ trace w0 = trace w).
          { destruct (JS.truthy _); [injection Hts as <- <-; auto|].
            unfold nowIso, bind, next_tick, ret in Hts. injection Hts as <- <-. auto. }
          destruct Hw0 as [Hs0 Ht0].
          destruct (addRow E (leadRow lead ts) w0) as [[[]|m] w2] eqn:Hadd;
            [|unfold handleConnectionError, throw in Htc; discriminate Htc].
          injection Htc as <-.
          pose proof (addRow_Ok _ _ _ _ Hadd) as Hsheet.
          eexists. split; [rewrite Hsheet, Hs0; reflexivity|].
          split; [eexists _, _; reflexivity|].
          pose proof (addRow_frame (extends notSleep) notSleep True
                        (extends_refl _) (extends_trans _) (extends_next_tick _)
                        (extends_emit _) (fun _ => extends_put_sheet _) E
                        (leadRow lead ts) I (fun _ => eq_refl) w0) as Hx.
          rewrite Hadd in Hx. cbn [snd] in Hx.
          eapply extends_trans; [|exact Hx]. now apply extends_same_trace.
        - exfalso. destruct (JS.truthy _); [discriminate Hts|].
          unfold nowIso, bind, next_tick, ret in Hts. discriminate Hts. }
      destruct Hone as (r & Hs1 & Hr & Hx1).
      destruct (IH w1) as (n & rows & Hs & Hrows & Hx & Hres).
      exists (S n), (r :: rows). cbn [take].
      split; [rewrite Hs, Hs1, <- app_assoc; reflexivity|].
      split; [constructor; assumption|].
      split; [eapply extends_trans; eassumption|].
      destruct (for_each rest _ w1) as [[[]|m] w2]; cbn [fst] in *.
      * now f_equal.
      * exact Hres.
    + cbn [fst snd].
      unfold try_catch, bind in Htc.
      destruct (if JS.truthy (sl_scrapedAt lead) then _ else _) as [[ts|m] w0] eqn:Hts.
      * assert (Hw0 : leadsSheet w0 = leadsSheet w /\ trace w0 = trace w
                      /\ tick w <= tick w0).
        { destruct (JS.truthy _); [injection Hts as <- <-; auto|].
          unfold nowIso, bind, next_tick, ret in Hts. injection Hts as <- <-.
          cbn. auto. }
        destruct Hw0 as (Hs0 & Ht0 & _).
        pose proof (addRow_frame (extends notSleep) notSleep True
                      (extends_refl _) (extends_trans _) (extends_next_tick _)
                      (extends_emit _) (fun _ => extends_put_sheet _) E
                      (leadRow lead ts) I (fun _ => eq_refl) w0) as Hx.
        unfold addRow, bind, next_tick, get_sheet, emit, lift_unit, put_sheet,
          handleConnectionError, throw, ret in Htc, Hx.
        cbn [tick leadsSheet trace dailyCounters] in Htc, Hx.
        destruct (env_addRow E (tick w0) _) as [m|] eqn:Hadd; [|discriminate Htc].
        injection Htc as <- <-. cbn [leadsSheet snd] in *.
        exists 0, []. split; [rewrite app_nil_r; exact Hs0|].
        split; [constructor|].
        split; [eapply extends_trans; [|exact Hx]; now apply extends_same_trace|].
        eauto.
      * exfalso. destruct (JS.truthy _); [discriminate Hts|].
        unfold nowIso, bind, next_tick, ret in Hts. discriminate Hts.
Qed.

Lemma appendLeads_rows E leads w :
  exists n rows,
    leadsSheet (snd (appendLeads E leads w)) = leadsSheet w ++ rows
    /\ Forall2 madeFrom (take n leads) rows
    /\ (fst (appendLeads E leads w) = Ok tt -> take n leads = leads).
Proof.
  unfold appendLeads. destruct leads as [|l ls].
  - exists 0, []. rewrite app_nil_r. repeat split; constructor.
  - destruct (insertAll_rows E (l :: ls) w) as (n & rows & Hs & Hrows & _ & Hres).
    exists n, rows. unfold bind.
    destruct (insertAll E (l :: ls) w) as [[[]|m] w1]; cbn [fst snd] in *.
    + pose proof (verifyLoop_same_sheet E (l :: ls) maxRetries 0 w1) as Hsame.
      unfold same_sheet in Hsame.
      destruct (verifyLoop E (l :: ls) maxRetries 0 w1) as [[[|]|m] w2];
        cbn [fst snd handleConnectionError throw ret] in *;
        rewrite Hsame, Hs; auto.
    + split; [exact Hs|]. split; [exact Hrows|]. discriminate.
Qed.

(** X11. [appendLeads] only ever appends. Whether it returns or throws,
    the sheet afterwards is the sheet before followed by one row for each
    lead of a prefix of the batch, in order (for each lead of the batch
    when it returns); and every such row is fresh: PENDING, NOT_SENT, no
    reason, date or error, Verified YES or NO, and a bio of at most 500
    characters. *)
Theorem appendLeads_only_appends_fresh_rows E leads w :
  exists n rows,
    leadsSheet (snd (appendLeads E leads w)) = leadsSheet w ++ rows
    /\ Forall2 madeFrom (take n leads) rows
    /\ Forall freshRow rows
    /\ (fst (appendLeads E leads w) = Ok tt -> take n leads = leads).
Proof.
  destruct (appendLeads_rows E leads w) as (n & rows & Hs & Hrows & Hall).
  exists n, rows. split; [exact Hs|]. split; [exact Hrows|]. split; [|exact Hall].
  clear Hs Hall. induction Hrows as [|lead r ls rs Hr _ IH]; constructor.
  - exact (madeFrom_fresh lead r Hr).
  - exact IH.
Qed.




Lemma sleeps_app w w1 w2 d1 d2 :
  trace w1 = trace w ++ d1 -> trace w2 = trace w1 ++ d2 ->
  sleeps w w2 = List.filter isSleep d1 ++ List.filter isSleep d2.
Proof.
  intros H1 H2. unfold sleeps.
  rewrite (newEvents_app w w2 (d1 ++ d2)) by (now rewrite H2, H1, app_assoc).
  apply List.filter_app.
Qed.

(** X13. What [appendLeads] can throw. It is either the error of the
    store for an insert request, and then no verification is attempted
    (nothing is slept), or, after all inserts were accepted and the three
    verification attempts have failed, the fixed error "Post-write content
    verification failed.". The two longer messages the code prepares for
    the caller are never the ones thrown. *)
Theorem appendLeads_throws_one_of_two_errors E leads w msg w' :
  appendLeads E leads w = (Throw msg, w') ->
  ((exists t r, env_addRow E t r = Some msg) /\ sleeps w w' = [])
  \/ (msg = verificationFailed
      /\ fst (insertAll E leads w) = Ok tt
      /\ sleeps w w' = [EvSleep 7000; EvSleep 14000; EvSleep 21000]).
Proof.
  unfold appendLeads. destruct leads as [|l ls]; [discriminate|].
  destruct (insertAll_rows E (l :: ls) w) as (n & rows & _ & _ & (d1 & Ht1 & Fd1) & Hres).
  unfold bind at 1.
  destruct (insertAll E (l :: ls) w) as [[[]|m] w1]; cbn [fst snd] in *.
  - unfold bind at 1.
    destruct (verifyLoop_spec E (l :: ls) maxRetries 0 w1) as (b & w2 & Hloop & _ & Hsl).
    rewrite Hloop. destruct b; [discriminate|].
    unfold handleConnectionError, bind, throw. intros [= <- <-]. right.
    split; [reflexivity|]. split; [reflexivity|].
    specialize (Hsl eq_refl).
    destruct (verifyLoop_frame (extends (fun _ => True)) (fun _ => True)
                (extends_refl _) (extends_trans _) (extends_next_tick _)
                (extends_emit _) E (l :: ls) maxRetries 0
                (fun _ => I) I I w1) as (d2 & Ht2 & _).
    rewrite Hloop in Ht2. cbn [snd] in Ht2.
    rewrite (sleeps_app _ _ _ _ _ Ht1 Ht2), (filter_notSleep _ Fd1).
    unfold sleeps in Hsl. rewrite (newEvents_app _ _ _ Ht2) in Hsl. exact Hsl.
  - intros [= <- <-]. left. split; [exact Hres|].
    unfold sleeps. rewrite (newEvents_app _ _ _ Ht1). now apply filter_notSleep.
Qed.

Lemma appendLeads_throws_one_of_two_errors_witness :
  ((exists t r, env_addRow Scenarios.networkDown t r = Some "socket hang up")
   /\ sleeps Scenarios.emptyWorld
             (snd (appendLeads Scenarios.networkDown [Scenarios.alice]
                               Scenarios.emptyWorld)) = [])
  \/ ("socket hang up" = verificationFailed
      /\ fst (insertAll Scenarios.networkDown [Scenarios.alice] Scenarios.emptyWorld)
         = Ok tt
      /\ sleeps Scenarios.emptyWorld
                (snd (appendLeads Scenarios.networkDown [Scenarios.alice]
                                  Scenarios.emptyWorld))
         = [EvSleep 7000; EvSleep 14000; EvSleep 21000]).
Proof.
  apply (appendLeads_throws_one_of_two_errors Scenarios.networkDown [Scenarios.alice]
           Scenarios.emptyWorld).
  vm_compute. reflexivity.
Defined.

(** ** Batch updates that go through *)

Lemma set_filter_twice s1 r1 s2 r2 row :
  set_filter s2 r2 (set_filter s1 r1 row) = set_filter s2 r2 row.
Proof. reflexivity. Qed.

(** What the loop over the updates leaves in the map of row objects. *)
Lemma applyUpdates_lookup updates : forall (m m' : gmap nat Row) ks k,
  applyUpdates updates m = (m', ks) ->
  m' !! k = (fun row => match lastVerdict updates k with
                        | Some u => set_filter (upd_status u) (upd_reason u) row
                        | None => row
                        end) <$> m !! k.
Proof.
  induction updates as [|u rest IH]; intros m m' ks k; cbn [applyUpdates lastVerdict].
  - intros [= <- <-]. now destruct (m !! k).
  - destruct (m !! upd_rowNumber u) as [row|] eqn:Hrow.
    + destruct (applyUpdates rest _) as [m1 ks1] eqn:Hrest. intros [= <- <-].
      rewrite (IH _ _ _ k Hrest).
      destruct (decide (upd_rowNumber u = k)) as [<-|Hne].
      * rewrite lookup_insert_eq, Hrow. cbn [fmap option_fmap option_map].
        now destruct (lastVerdict rest (upd_rowNumber u)).
      * rewrite lookup_insert_ne by assumption.
        now destruct (lastVerdict rest k).
    + intros Hrest. rewrite (IH _ _ _ k Hrest).
      destruct (decide (upd_rowNumber u = k)) as [<-|Hne].
      * now rewrite Hrow.
      * now destruct (lastVerdict rest k).
Qed.

Lemma saveAll_ok E objects ks : forall w,
  savesSucceed E ->
  Forall (fun k => exists row, objects !! k = Some row /\ rowNumber row = k) ks ->
  exists w' d,
    saveAll E objects ks w = (Ok tt, w')
    /\ leadsSheet w'
       = (fun old => if bool_decide (rowNumber old ∈ ks)
                     then default old (objects !! rowNumber old) else old)
           <$> leadsSheet w
    /\ trace w' = trace w ++ d
    /\ omap (fun e => match e with
                      | EvSaveRow r => Some (rowNumber r)
                      | _ => None
                      end) d = ks.
Proof.
  unfold saveAll. intros w Hok Hobj. revert w.
  induction Hobj as [|k ks (row & Hrow & Hnum) Hobj IH]; intros w.
  - exists w, []. cbn [for_each ret]. rewrite app_nil_r. split; [reflexivity|].
    split; [|auto].
    rewrite <- (list_fmap_id (leadsSheet w)) at 1. apply list_fmap_ext.
    intros i old _. rewrite bool_decide_eq_false_2; [reflexivity|]. apply not_elem_of_nil.
  - rewrite for_each_cons, Hrow, save_eq, Hok. cbv zeta.
    set (w1 := mkWorld _ (S (tick w)) _ _).
    destruct (IH w1) as (w' & d & Hrun & Hs & Ht & Hd).
    exists w', (EvSaveRow row :: d). split; [exact Hrun|]. split; [|split].
    + rewrite Hs. subst w1. cbn [leadsSheet]. rewrite <- list_fmap_compose.
      apply list_fmap_ext. intros i old _. cbn [compose]. rewrite Hnum.
      destruct (decide (rowNumber old = k)) as [Hk|Hk].
      * rewrite Hnum, Hrow, Hk. cbn [default].
        rewrite (bool_decide_eq_true_2 (k ∈ k :: ks)) by left.
        rewrite Hrow. cbn [default]. now destruct (bool_decide (k ∈ ks)).
      * destruct (bool_decide (rowNumber old ∈ ks)) eqn:Hin.
        -- apply bool_decide_eq_true_1 in Hin.
           rewrite bool_decide_eq_true_2; [reflexivity|now right].
        -- apply bool_decide_eq_false_1 in Hin.
           rewrite bool_decide_eq_false_2; [reflexivity|].
           intros [?|?]%elem_of_cons; congruence.
    + rewrite Ht. subst w1. cbn [trace]. now rewrite <- app_assoc.
    + cbn [omap list_omap]. now rewrite Hd, Hnum.
Qed.

Lemma lastVerdict_None updates n :
  n ∉ upd_rowNumber <$> updates -> lastVerdict updates n = None.
Proof.
  induction updates as [|u rest IH]; intros Hn; [reflexivity|].
  cbn [lastVerdict]. cbn [fmap list_fmap] in Hn.
  apply not_elem_of_cons in Hn as [Hne Hn]. rewrite (IH Hn).
  destruct (decide (upd_rowNumber u = n)); congruence.
Qed.

Lemma rowMapOf_lookup rows row :
  distinctLines rows -> row ∈ rows -> rowMapOf rows !! rowNumber row = Some row.
Proof.
  intros Hnd Hin. unfold rowMapOf. apply elem_of_list_to_map_1.
  - rewrite fmap_reverse, <- list_fmap_compose.
    rewrite reverse_Permutation. exact Hnd.
  - apply elem_of_reverse, list_elem_of_fmap. now exists row.
Qed.

(** The sheet and the trace after a batch update that meets no failure:
    the saves requested are those of the objects pushed on [rowsToUpdate]. *)
Lemma batchUpdateLeadStatuses_goes_through E updates w :
  env_getRows E (tick w) (leadsSheet w) = Ok (leadsSheet w) ->
  savesSucceed E ->
  distinctLines (leadsSheet w) ->
  exists w' d,
    batchUpdateLeadStatuses E updates w = (Ok tt, w')
    /\ leadsSheet w' = afterVerdicts updates <$> leadsSheet w
    /\ trace w' = trace w ++ d
    /\ omap (fun e => match e with
                      | EvSaveRow r => Some (rowNumber r)
                      | _ => None
                      end) d
       = snd (applyUpdates updates (rowMapOf (leadsSheet w))).
Proof.
  intros Hread Hok Hnd.
  destruct updates as [|u us].
  { exists w, []. split; [reflexivity|]. split.
    - rewrite <- (list_fmap_id (leadsSheet w)) at 1. now apply list_fmap_ext.
    - split; [now rewrite app_nil_r|reflexivity]. }
  set (updates := u :: us).
  destruct (applyUpdates updates (rowMapOf (leadsSheet w))) as [objects ks] eqn:Happ.
  pose proof (applyUpdates_ks _ _ _ _ Happ) as Hks.
  destruct (applyUpdates_keys _ _ _ _ (rowMapOf_keys (leadsSheet w)) Happ)
    as (I1 & _ & I3).
  set (w1 := mkWorld (leadsSheet w) (S (tick w)) (trace w ++ [EvGetRows])
                     (dailyCounters w)).
  assert (Hget : getRows E w = (Ok (leadsSheet w), w1)).
  { unfold getRows, bind, next_tick, emit, get_sheet, lift_result.
    cbn [tick leadsSheet trace dailyCounters]. now rewrite Hread. }
  destruct (saveAll_ok E objects ks w1 Hok) as (w' & d & Hrun & Hs & Htr & Hsaved).
  { rewrite Forall_forall in I3 |- *. intros k Hk.
    destruct (I3 k Hk) as [row Hrow]. exists row. split; [exact Hrow|].
    now apply I1. }
  exists w', (EvGetRows :: d). split; [|split; [|split]].
  - unfold batchUpdateLeadStatuses, updates.
    unfold try_catch, bind at 1. fold updates. rewrite Hget, Happ, Hrun. reflexivity.
  - rewrite Hs. subst w1. cbn [leadsSheet].
    apply list_fmap_ext. intros i old Hi.
    apply list_elem_of_lookup_2 in Hi.
    pose proof (applyUpdates_lookup _ _ _ _ (rowNumber old) Happ) as Hobj.
    rewrite (rowMapOf_lookup _ _ Hnd Hi) in Hobj. cbn [fmap option_fmap option_map] in Hobj.
    rewrite Hobj. cbn [default]. unfold afterVerdicts.
    destruct (bool_decide (rowNumber old ∈ ks)) eqn:Hin; [reflexivity|].
    apply bool_decide_eq_false_1 in Hin.
    rewrite lastVerdict_None; [reflexivity|].
    intros Hnum. apply Hin. rewrite Hks.
    apply list_elem_of_In, List.filter_In. split; [now apply list_elem_of_In|].
    apply bool_decide_eq_true_2. rewrite (rowMapOf_lookup _ _ Hnd Hi). eauto.
  - rewrite Htr. subst w1. cbn [trace]. now rewrite <- app_assoc.
  - cbn [omap list_omap snd]. exact Hsaved.
Qed.

(** X14. A batch update that goes through. When the read shows the sheet
    as it is, line numbers are distinct and the store accepts every save,
    [batchUpdateLeadStatuses] returns normally; every row that an update
    names then carries the status and the reason of the last update given
    for its line, every other row is untouched, and the saves requested
    are those of the updates that found their row, in the order of the
    updates. Updates for lines that are not on the sheet are skipped
    silently. *)
Theorem batch_update_applies_last_verdicts E updates w :
  env_getRows E (tick w) (leadsSheet w) = Ok (leadsSheet w) ->
  savesSucceed E ->
  distinctLines (leadsSheet w) ->
  exists w',
    batchUpdateLeadStatuses E updates w = (Ok tt, w')
    /\ leadsSheet w' = afterVerdicts updates <$> leadsSheet w
    /\ savedRowNumbers w w' = matchedRows updates (leadsSheet w).
Proof.
  intros Hread Hok Hnd.
  destruct (batchUpdateLeadStatuses_goes_through E updates w Hread Hok Hnd)
    as (w' & d & Hrun & Hsheet & Htrace & Hsaved).
  exists w'. split; [exact Hrun|]. split; [exact Hsheet|].
  rewrite (savedRowNumbers_app w w' d Htrace), Hsaved.
  destruct (applyUpdates updates (rowMapOf (leadsSheet w))) as [objects ks] eqn:Happ.
  cbn [snd]. rewrite (applyUpdates_ks _ _ _ _ Happ).
  unfold matchedRows. apply List.filter_ext. intros k. apply rowMapOf_is_Some.
Qed.

Lemma batch_update_applies_last_verdicts_witness :
  exists w',
    batchUpdateLeadStatuses Scenarios.calm
      (Scenarios.twoVerdicts ++ [mkUpdate 9 "PASS" "no such line"; mkUpdate 2 "ERROR" "late"])
      Scenarios.twoPending = (Ok tt, w')
    /\ leadsSheet w'
       = afterVerdicts (Scenarios.twoVerdicts
                          ++ [mkUpdate 9 "PASS" "no such line"; mkUpdate 2 "ERROR" "late"])
           <$> leadsSheet Scenarios.twoPending
    /\ savedRowNumbers Scenarios.twoPending w'
       = matchedRows (Scenarios.twoVerdicts
                        ++ [mkUpdate 9 "PASS" "no such line"; mkUpdate 2 "ERROR" "late"])
                     (leadsSheet Scenarios.twoPending).
Proof.
  apply (batch_update_applies_last_verdicts Scenarios.calm
           (Scenarios.twoVerdicts
              ++ [mkUpdate 9 "PASS" "no such line"; mkUpdate 2 "ERROR" "late"])
           Scenarios.twoPending).
  - reflexivity.
  - intros t r. reflexivity.
  - unfold distinctLines. apply (bool_decide_unpack _). vm_compute. exact I.
Defined.

(** ** Marking a row *)

Lemma findRow_Some n rows target :
  findRow (Some n) rows = Some target -> target ∈ rows /\ rowNumber target = n.
Proof.
  cbn [findRow]. intros H. apply List.find_some in H as [Hin Hn].
  split; [now apply list_elem_of_In|]. now apply bool_decide_eq_true_1 in Hn.
Qed.

Lemma findRow_None n rows row :
  findRow (Some n) rows = None -> row ∈ rows -> rowNumber row <> n.
Proof.
  cbn [findRow]. intros H Hin Hn. apply list_elem_of_In in Hin.
  pose proof (List.find_none _ _ H row Hin) as Hf. cbn in Hf.
  now apply bool_decide_eq_false_1 in Hf.
Qed.

(** What a marking does to the sheet when reads are faithful and saves
    succeed: every row with the line number of the target becomes the
    modified target; without a target nothing changes. *)
Lemma mark_sheet E (f : string -> Row -> Row) n w :
  faithfulReads E -> savesSucceed E ->
  (forall date row, rowNumber (f date row) = rowNumber row) ->
  let m := try_catch
             (rows ← getRows E;
              match findRow (Some n) rows with
              | Some targetRow => date ← nowIso E; save E (f date targetRow)
              | None => ret tt
              end)
             (fun _ => ret tt) in
  match findRow (Some n) (leadsSheet w) with
  | Some target =>
      exists date,
        leadsSheet (snd (m w))
        = (fun old => if decide (rowNumber old = n) then f date target else old)
            <$> leadsSheet w
  | None => leadsSheet (snd (m w)) = leadsSheet w
  end.
Proof.
  intros Hread Hok Hnum. cbv zeta.
  unfold try_catch, bind at 1, getRows, bind, next_tick, emit, get_sheet, lift_result.
  cbn [tick leadsSheet trace dailyCounters]. rewrite Hread. cbn [ret].
  destruct (findRow (Some n) (leadsSheet w)) as [target|] eqn:Hfind; [|reflexivity].
  apply findRow_Some in Hfind as [_ Hn].
  unfold nowIso, bind, next_tick, ret. cbn [tick leadsSheet trace dailyCounters].
  rewrite save_eq, Hok. cbv zeta. cbn [snd leadsSheet].
  eexists. rewrite Hnum, Hn. reflexivity.
Qed.

(** X15. Marking a lead as messaged takes it off the engagement list.
    When reads are faithful and the store accepts saves, after
    [markDMSent] for a line no lead with that line number is returned by
    [getLeadsForEngagement], and the rows of all other lines are what they
    were. *)
Theorem marked_lead_is_not_engaged_again E n w :
  faithfulReads E -> savesSucceed E ->
  (exists leads,
      fst (getLeadsForEngagement E (snd (markDMSent E (Some n) w))) = Ok leads
      /\ n ∉ rl_id <$> leads)
  /\ filter (fun row => rowNumber row <> n) (leadsSheet (snd (markDMSent E (Some n) w)))
     = filter (fun row => rowNumber row <> n) (leadsSheet w).
Proof.
  intros Hread Hok.
  pose proof (mark_sheet E set_dm_sent n w Hread Hok (fun _ _ => eq_refl)) as Hsheet.
  cbv zeta in Hsheet. change (try_catch _ _) with (markDMSent E (Some n)) in Hsheet.
  set (w' := snd (markDMSent E (Some n) w)) in *.
  assert (Hrows : forall row, row ∈ leadsSheet w' -> rowNumber row = n ->
                              colDMStatus row = "SENT").
  { intros row Hin Hn.
    destruct (findRow (Some n) (leadsSheet w)) as [target|] eqn:Hfind.
    - destruct Hsheet as (date & Hs). rewrite Hs in Hin.
      apply list_elem_of_fmap in Hin as (old & -> & Hold).
      destruct (decide (rowNumber old = n)); [reflexivity|contradiction].
    - rewrite Hsheet in Hin. now destruct (findRow_None _ _ _ Hfind Hin). }
  split.
  - unfold getLeadsForEngagement, try_catch, bind, getRows, bind, next_tick, emit,
      get_sheet, lift_result.
    cbn [tick leadsSheet trace dailyCounters]. rewrite Hread. cbn [ret fst].
    eexists. split; [reflexivity|].
    rewrite <- list_fmap_compose. intros Hin.
    apply list_elem_of_fmap in Hin as (row & Hn & Hrow). cbn in Hn.
    apply list_elem_of_filter in Hrow as [[_ Hdm] Hrow].
    rewrite (Hrows row Hrow (eq_sym Hn)) in Hdm. discriminate Hdm.
  - destruct (findRow (Some n) (leadsSheet w)) as [target|] eqn:Hfind;
      [|now rewrite Hsheet].
    destruct Hsheet as (date & ->). apply findRow_Some in Hfind as [_ Htn].
    induction (leadsSheet w) as [|old rest IH]; [reflexivity|].
    cbn [fmap list_fmap].
    destruct (decide (rowNumber old = n)) as [Ho|Ho].
    + rewrite !filter_cons_False; [exact IH| |]; cbn; intros Hne; now apply Hne.
    + rewrite !filter_cons_True by assumption. now f_equal.
Qed.

Lemma marked_lead_is_not_engaged_again_witness :
  (exists leads,
      fst (getLeadsForEngagement Scenarios.calm
             (snd (markDMSent Scenarios.calm (Some 2) Scenarios.oneReady))) = Ok leads
      /\ 2 ∉ rl_id <$> leads)
  /\ filter (fun row => rowNumber row <> 2)
            (leadsSheet (snd (markDMSent Scenarios.calm (Some 2) Scenarios.oneReady)))
     = filter (fun row => rowNumber row <> 2) (leadsSheet Scenarios.oneReady).
Proof.
  apply (marked_lead_is_not_engaged_again Scenarios.calm 2 Scenarios.oneReady).
  - intros t rows. reflexivity.
  - intros t r. reflexivity.
Defined.

(** The lead of that scenario is on the list before the marking and off
    it afterwards. *)
Example ready_before_marking :
  fst (getLeadsForEngagement Scenarios.calm Scenarios.oneReady)
  = Ok [mkReady 2 "alice" "https://twitter.com/alice" "NBA fan, love the odds"]
  /\ fst (getLeadsForEngagement Scenarios.calm
            (snd (markDMSent Scenarios.calm (Some 2) Scenarios.oneReady))) = Ok [].
Proof. split; vm_compute; reflexivity. Qed.

(** X16. Logging an error on a row records at most 500 characters of
    it. When reads are faithful and the store accepts saves, after
    [logError] for a line every row with that line number carries the
    first 500 characters of the message as its last error, and the rows of
    all other lines are what they were. *)
Theorem logged_error_is_cut_at_500 E n msg w :
  faithfulReads E -> savesSucceed E ->
  (forall row, row ∈ leadsSheet (snd (logError E (Some n) msg w)) ->
               rowNumber row = n ->
               colLastError row = JS.substring0 500 msg
               /\ String.length (colLastError row) <= 500)
  /\ filter (fun row => rowNumber row <> n) (leadsSheet (snd (logError E (Some n) msg w)))
     = filter (fun row => rowNumber row <> n) (leadsSheet w).
Proof.
  intros Hread Hok.
  pose proof (mark_sheet E (set_error (JS.substring0 500 msg)) n w Hread Hok
                (fun _ _ => eq_refl)) as Hsheet.
  cbv zeta in Hsheet. change (try_catch _ _) with (logError E (Some n) msg) in Hsheet.
  set (w' := snd (logError E (Some n) msg w)) in *.
  split.
  - intros row Hin Hn.
    destruct (findRow (Some n) (leadsSheet w)) as [target|] eqn:Hfind.
    + destruct Hsheet as (date & Hs). rewrite Hs in Hin.
      apply list_elem_of_fmap in Hin as (old & -> & Hold).
      destruct (decide (rowNumber old = n)); [|contradiction].
      cbn [set_error colLastError]. split; [reflexivity|apply substring0_length].
    + rewrite Hsheet in Hin. now destruct (findRow_None _ _ _ Hfind Hin).
  - destruct (findRow (Some n) (leadsSheet w)) as [target|] eqn:Hfind;
      [|now rewrite Hsheet].
    destruct Hsheet as (date & ->). apply findRow_Some in Hfind as [_ Htn].
    induction (leadsSheet w) as [|old rest IH]; [reflexivity|].
    cbn [fmap list_fmap].
    destruct (decide (rowNumber old = n)) as [Ho|Ho].
    + rewrite !filter_cons_False; [exact IH| |]; cbn; intros Hne; now apply Hne.
    + rewrite !filter_cons_True by assumption. now f_equal.
Qed.

Lemma logged_error_is_cut_at_500_witness :
  (forall row,
      row ∈ leadsSheet (snd (logError Scenarios.calm (Some 2) "boom" Scenarios.oneReady)) ->
      rowNumber row = 2 ->
      colLastError row = JS.substring0 500 "boom"
      /\ String.length (colLastError row) <= 500)
  /\ filter (fun row => rowNumber row <> 2)
            (leadsSheet (snd (logError Scenarios.calm (Some 2) "boom" Scenarios.oneReady)))
     = filter (fun row => rowNumber row <> 2) (leadsSheet Scenarios.oneReady).
Proof.
  apply (logged_error_is_cut_at_500 Scenarios.calm 2 "boom" Scenarios.oneReady).
  - intros t rows. reflexivity.
  - intros t r. reflexivity.
Defined.

(** * Further properties of the planner *)

(** ** The parts of a plan *)

(** The plan for a non-empty list of leads is the sorted, truncated
    concatenation of what the two planning loops return, the second loop
    starting where the first one ends. *)
Lemma createDailyPlan_parts E S leads w :
  leads <> [] ->
  let c := countersAtPlanning E w in
  exists wt dms n w1 others counts w',
    planDMs E S (remaining (Config.dmPerDay (limits S)) (cnt_dm c)) leads 0 wt
    = (Ok (dms, n), w1)
    /\ planEngagement E S
         (remaining (Config.likesPerDay (limits S)) (cnt_likes c))
         (remaining (Config.retweetsPerDay (limits S)) (cnt_retweets c))
         (remaining (Config.commentsPerDay (limits S)) (cnt_comments c))
         (length leads) leads (0, 0, 0) w1
       = (Ok (others, counts), w')
    /\ forall lim,
         createDailyPlan E S leads lim w
         = (Ok (limitActivities lim (sortActivities (dms ++ others))), w').
Proof.
  intros Hne. cbv zeta. unfold countersAtPlanning.
  set (wr := snd (resetDailyCountersIfNeeded E w)).
  set (wt := snd (next_tick wr)).
  set (c := dailyCounters wr).
  destruct (planDMs_spec E S (remaining (Config.dmPerDay (limits S)) (cnt_dm c))
                         leads 0 wt) as (dms & n' & w1 & H1 & _).
  destruct (planEngagement_spec E S
              (remaining (Config.likesPerDay (limits S)) (cnt_likes c))
              (remaining (Config.retweetsPerDay (limits S)) (cnt_retweets c))
              (remaining (Config.commentsPerDay (limits S)) (cnt_comments c))
              (length leads) leads 0 0 0 w1)
    as (others & l' & r' & c' & w' & H2 & _).
  exists wt, dms, n', w1, others, (l', r', c'), w'.
  split; [exact H1|]. split; [exact H2|]. intros lim'.
  destruct leads as [|lead rest]; [contradiction|].
  remember (lead :: rest) as leads eqn:Hleads.
  subst leads. unfold createDailyPlan, try_catch. cbv iota.
  unfold bind at 1. rewrite resetDailyCountersIfNeeded_returns. fold wr.
  unfold bind at 1. cbn [next_tick].
  unfold bind at 1. cbn [get_counters].
  change (mkWorld (leadsSheet wr) (Datatypes.S (tick wr)) (trace wr)
                  (dailyCounters wr)) with wt.
  change (dailyCounters wt) with c.
  unfold bind at 1. rewrite H1. unfold bind at 1. rewrite H2. reflexivity.
Qed.

Lemma wellPlanned_cons E S lead leads a :
  wellPlanned E S leads a -> wellPlanned E S (lead :: leads) a.
Proof.
  intros (l & Hin & Hu & Hp). exists l. split; [now right|]. auto.
Qed.

Lemma planDMs_wellPlanned E S rem leads : forall n w acts n' w',
  planDMs E S rem leads n w = (Ok (acts, n'), w') ->
  Forall (wellPlanned E S leads) acts.
Proof.
  induction leads as [|lead rest IH]; intros n w acts n' w'; cbn [planDMs].
  - intros [= <- _ _]. constructor.
  - destruct (Z.geb_spec (Z.of_nat n) rem) as [Hge|Hlt]; [intros [= <- _ _]; constructor|].
    destruct (JS.truthy (rl_username lead)) eqn:Hu; cbn [negb].
    + unfold bind at 1.
      destruct (generatePersonalizedMessage E S lead w) as [[msg|m] w1] eqn:H1;
        [|discriminate].
      unfold bind at 1.
      destruct (getRandomTimeToday E w1) as [[time|m] w2] eqn:H2; [|discriminate].
      unfold bind at 1.
      destruct (planDMs E S rem rest (Datatypes.S n) w2) as [[[acts1 n1]|m] w3] eqn:H3;
        [|discriminate].
      intros [= <- _ _]. constructor.
      * exists lead. split; [left|]. split; [exact Hu|].
        unfold plannedFor. cbn [leadId username scheduledTime type priority postUrl
                                commentText message].
        split; [reflexivity|]. split; [reflexivity|].
        split; [exists w1; now rewrite H2|].
        repeat (split; [reflexivity|]). exists w, msg. now rewrite H1.
      * eapply Forall_impl; [exact (IH _ _ _ _ _ H3)|].
        intros a. apply wellPlanned_cons.
    + intros H. eapply Forall_impl; [exact (IH _ _ _ _ _ H)|].
      intros a. apply wellPlanned_cons.
Qed.

(** What the three steps taken for one lead add: nothing, or one
    activity of their kind for that lead. *)
Lemma planLike_one E S rem nLeads lead k w acts k' w' :
  planLike E rem nLeads lead k w = (Ok (acts, k'), w') ->
  acts = [] \/ exists a, acts = [a] /\ type a = like /\ plannedFor E S lead a.
Proof.
  unfold planLike. destruct (_ && _); [|intros [= <- _ _]; now left].
  unfold bind. destruct (getRandomTimeToday E w) as [[time|m] w1] eqn:H1; [|discriminate].
  intros [= <- _ _]. right. eexists. split; [reflexivity|]. split; [reflexivity|].
  unfold plannedFor. cbn [leadId username scheduledTime type priority postUrl
                          commentText message].
  split; [reflexivity|]. split; [reflexivity|].
  split; [exists w; now rewrite H1|]. repeat split.
Qed.

Lemma planRetweet_one E S rem lead k w acts k' w' :
  planRetweet E rem lead k w = (Ok (acts, k'), w') ->
  acts = [] \/ exists a, acts = [a] /\ type a = retweet /\ plannedFor E S lead a.
Proof.
  unfold planRetweet. destruct (_ <? _)%Z; [|intros [= <- _ _]; now left].
  unfold bind at 1. destruct (random E w) as [[r|m] w0]; [|discriminate].
  destruct (Qlt_bool r p_retweet); [|intros [= <- _ _]; now left].
  unfold bind. destruct (getRandomTimeToday E w0) as [[time|m] w1] eqn:H1; [|discriminate].
  intros [= <- _ _]. right. eexists. split; [reflexivity|]. split; [reflexivity|].
  unfold plannedFor. cbn [leadId username scheduledTime type priority postUrl
                          commentText message].
  split; [reflexivity|]. split; [reflexivity|].
  split; [exists w0; now rewrite H1|]. repeat split.
Qed.

Lemma planComment_one E S rem lead k w acts k' w' :
  planComment E S rem lead k w = (Ok (acts, k'), w') ->
  acts = [] \/ exists a, acts = [a] /\ type a = comment /\ plannedFor E S lead a.
Proof.
  unfold planComment. destruct (_ <? _)%Z; [|intros [= <- _ _]; now left].
  unfold bind at 1. destruct (random E w) as [[r|m] w0]; [|discriminate].
  destruct (Qlt_bool r p_comment); [|intros [= <- _ _]; now left].
  unfold bind at 1.
  destruct (getRandomComment E S w0) as [[c|m] w1] eqn:Hc; [|discriminate].
  unfold bind. destruct (getRandomTimeToday E w1) as [[time|m] w2] eqn:H1; [|discriminate].
  intros [= <- _ _]. right. eexists. split; [reflexivity|]. split; [reflexivity|].
  unfold plannedFor. cbn [leadId username scheduledTime type priority postUrl
                          commentText message].
  split; [reflexivity|]. split; [reflexivity|].
  split; [exists w1; now rewrite H1|].
  repeat (split; [reflexivity|]). exists w0. now rewrite Hc.
Qed.

Lemma planEngagement_wellPlanned E S rl rr rc nLeads leads :
  forall counts w acts counts' w',
  planEngagement E S rl rr rc nLeads leads counts w = (Ok (acts, counts'), w') ->
  Forall (wellPlanned E S leads) acts.
Proof.
  induction leads as [|lead rest IH]; intros [[l r] c] w acts counts' w';
    cbn [planEngagement].
  - intros [= <- _ _]. constructor.
  - destruct (JS.truthy (rl_username lead)) eqn:Hu; cbn [negb].
    + unfold bind at 1.
      destruct (planLike E rl nLeads lead l w) as [[[ls l1]|m] w1] eqn:H1; [|discriminate].
      unfold bind at 1.
      destruct (planRetweet E rr lead r w1) as [[[rs r1]|m] w2] eqn:H2; [|discriminate].
      unfold bind at 1.
      destruct (planComment E S rc lead c w2) as [[[cs c1]|m] w3] eqn:H3; [|discriminate].
      unfold bind at 1.
      destruct (planEngagement E S rl rr rc nLeads rest (l1, r1, c1) w3)
        as [[[acts1 f1]|m] w4] eqn:H4; [|discriminate].
      intros [= <- _ _].
      assert (Hhere : forall xs k,
                 xs = [] \/ (exists a, xs = [a] /\ type a = k /\ plannedFor E S lead a) ->
                 Forall (wellPlanned E S (lead :: rest)) xs).
      { intros xs k [->|(a & -> & _ & Ha)]; repeat constructor.
        exists lead. split; [left|]. auto. }
      repeat (apply Forall_app; split).
      * exact (Hhere _ _ (planLike_one E S _ _ _ _ _ _ _ _ H1)).
      * exact (Hhere _ _ (planRetweet_one E S _ _ _ _ _ _ _ H2)).
      * exact (Hhere _ _ (planComment_one E S _ _ _ _ _ _ _ H3)).
      * eapply Forall_impl; [exact (IH _ _ _ _ _ H4)|].
        intros a. apply wellPlanned_cons.
    + intros H. eapply Forall_impl; [exact (IH _ _ _ _ _ H)|].
      intros a. apply wellPlanned_cons.
Qed.

Lemma limitActivities_sublist lim l : limitActivities lim l `sublist_of` l.
Proof. destruct lim as [[|n]|]; cbn [limitActivities]; [reflexivity| |reflexivity].
  apply sublist_take. Qed.

Lemma Forall_limitActivities (P : Activity -> Prop) lim l :
  Forall P l -> Forall P (limitActivities lim l).
Proof.
  intros H. destruct lim as [[|n]|]; cbn [limitActivities]; try exact H.
  now apply Forall_take.
Qed.

(** Every activity of a plan is well planned. *)
Lemma createDailyPlan_wellPlanned E S leads lim w plan w' :
  createDailyPlan E S leads lim w = (Ok plan, w') ->
  Forall (wellPlanned E S leads) plan.
Proof.
  destruct leads as [|lead rest].
  - unfold createDailyPlan, try_catch, ret. intros [= <- _]. constructor.
  - destruct (createDailyPlan_parts E S (lead :: rest) w ltac:(discriminate))
      as (wt & dms & n & w1 & others & counts & w2 & H1 & H2 & Hplan).
    rewrite Hplan. intros [= <- _].
    apply Forall_limitActivities.
    rewrite (sortActivities_perm (dms ++ others)).
    apply Forall_app. split.
    + exact (planDMs_wellPlanned _ _ _ _ _ _ _ _ _ H1).
    + exact (planEngagement_wellPlanned _ _ _ _ _ _ _ _ _ _ _ _ H2).
Qed.

(** ** Scheduled times *)

Lemma trunc_between (s e : Z) (r : Q) :
  (0 <= r)%Q -> (r < 1)%Q -> (s <= e)%Z ->
  (s <= js_trunc (inject_Z s + r * inject_Z (e - s)) <= e)%Z.
Proof.
  intros H0 H1 Hse.
  assert (Hq : (0 <= inject_Z (e - s))%Q) by (unfold Qle; cbn; lia).
  assert (Hlo : (inject_Z s <= inject_Z s + r * inject_Z (e - s))%Q).
  { apply Qle_trans with (inject_Z s + 0)%Q; [rewrite Qplus_0_r; apply Qle_refl|].
    apply Qplus_le_compat; [apply Qle_refl|]. now apply Qmult_le_0_compat. }
  assert (Hhi : (inject_Z s + r * inject_Z (e - s) <= inject_Z e)%Q).
  { apply Qle_trans with (inject_Z s + 1 * inject_Z (e - s))%Q.
    - apply Qplus_le_compat; [apply Qle_refl|].
      apply Qmult_le_compat_r; [now apply Qlt_le_weak|exact Hq].
    - rewrite Qmult_1_l, <- inject_Z_plus.
      replace (s + (e - s))%Z with e by lia. apply Qle_refl. }
  unfold js_trunc. destruct (Qle_bool 0 _).
  - pose proof (Qfloor_resp_le _ _ Hlo) as Ha. pose proof (Qfloor_resp_le _ _ Hhi) as Hb.
    rewrite Qfloor_Z in Ha, Hb. lia.
  - pose proof (Qceiling_resp_le _ _ Hlo) as Ha.
    pose proof (Qceiling_resp_le _ _ Hhi) as Hb.
    rewrite Qceiling_Z in Ha, Hb. lia.
Qed.

Lemma getRandomTimeToday_in_window E w t :
  unitDraws E -> orderedClock E ->
  fst (getRandomTimeToday E w) = Ok t ->
  inWindow (env_clock E (tick w)) t.
Proof.
  intros Hdraws Hclock. unfold getRandomTimeToday, inWindow, bind, next_tick, random,
    bind, next_tick, ret.
  cbn [tick leadsSheet trace dailyCounters].
  destruct (Hclock (tick w)) as [Htoday Hnext].
  destruct (Hdraws (S (tick w))) as [H0 H1].
  destruct (now (env_clock E (tick w)) >? eighteen (env_clock E (tick w)))%Z;
    cbn [fst]; intros [= <-]; now apply trunc_between.
Qed.

(** X17. Planned times are working hours. With draws of [Math.random] in
    the unit interval and a clock whose nine o'clock is not after its six
    o'clock, every activity of a plan is scheduled within the working
    hours that some reading of the clock stands for: between nine and six
    of the day of the reading, or of the next day when the reading is
    after six. *)
Theorem planned_times_fall_in_working_hours E S leads lim w plan w' :
  unitDraws E -> orderedClock E ->
  createDailyPlan E S leads lim w = (Ok plan, w') ->
  Forall (fun a => exists t, inWindow (env_clock E t) (scheduledTime a)) plan.
Proof.
  intros Hdraws Hclock Hplan.
  eapply Forall_impl; [exact (createDailyPlan_wellPlanned _ _ _ _ _ _ _ Hplan)|].
  intros a (lead & _ & _ & _ & _ & (w0 & Htime) & _).
  exists (tick w0). now apply getRandomTimeToday_in_window.
Qed.

Lemma planned_times_fall_in_working_hours_witness :
  Forall (fun a => exists t, inWindow (env_clock Scenarios.calm t) (scheduledTime a))
         Scenarios.sixteenPlan.
Proof.
  apply (planned_times_fall_in_working_hours Scenarios.calm (scheduler (newSystem false))
           Scenarios.sixteenLeads None Scenarios.emptyWorld Scenarios.sixteenPlan
           (snd (createDailyPlan Scenarios.calm (scheduler (newSystem false))
                   Scenarios.sixteenLeads None Scenarios.emptyWorld))).
  - intros t. split; [unfold Qle; cbn; lia|unfold Qlt; cbn; lia].
  - intros t. cbn. lia.
  - vm_compute. reflexivity.
Defined.

(** ** Validity *)

(** The patterns of a replacement text, on examples: the match, what
    precedes it, what follows it, a dollar sign, and a dollar sign that
    begins no pattern. *)
Example replace_first_patterns :
  (fun rep => replace_first "{username}" rep "Hi {username}!")
    <$> ["ann"; "$&"; "$`"; "$'"; "$$"; "$1"; "a$"]
  = ["Hi ann!"; "Hi {username}!"; "Hi Hi !"; "Hi !!"; "Hi $!"; "Hi $1!"; "Hi a$!"].
Proof. vm_compute. reflexivity. Qed.

(** A replacement text without a dollar sign is put in as it is. *)
Lemma getSubstitution_plain matched preceding following rep :
  JS.includes "$" rep = false ->
  getSubstitution matched preceding following rep = rep.
Proof.
  induction rep as [|c rest IH]; [reflexivity|].
  cbn [JS.includes JS.startsWith]. intros H.
  apply orb_false_iff in H as [H1 H2]. cbn [getSubstitution].
  destruct (Ascii.eqb_spec c "$") as [->|Hc].
  - cbv in H1. discriminate H1.
  - now rewrite IH.
Qed.

Lemma replace_first_truthy pat rep s :
  JS.includes "$" rep = false ->
  JS.truthy rep = true -> JS.truthy s = true ->
  JS.truthy (replace_first pat rep s) = true.
Proof.
  intros Hplain Hrep Hs. unfold replace_first. destruct s as [|c s]; [discriminate|].
  cbn [replace_from]. destruct (JS.startsWith pat (String c s)); [|reflexivity].
  rewrite getSubstitution_plain by assumption.
  destruct rep; [discriminate|reflexivity].
Qed.

Lemma topicOf_plain bio : JS.includes "$" (topicOf bio) = false.
Proof.
  unfold topicOf.
  repeat match goal with
         | |- context [if ?b then _ else _] => destruct b
         end; reflexivity.
Qed.

Lemma or_else_plain a b :
  JS.includes "$" a = false -> JS.includes "$" b = false ->
  JS.includes "$" (JS.or_else a b) = false.
Proof. unfold JS.or_else. now destruct (JS.truthy a). Qed.

Lemma topicOf_truthy bio : JS.truthy (topicOf bio) = true.
Proof.
  unfold topicOf.
  repeat match goal with
         | |- context [if ?b then _ else _] => destruct b
         end; reflexivity.
Qed.

Lemma or_else_truthy a b : JS.truthy b = true -> JS.truthy (JS.or_else a b) = true.
Proof. unfold JS.or_else. now destruct (JS.truthy a) eqn:Ha. Qed.

Lemma message_truthy E S lead w m :
  Forall (fun t => JS.truthy t = true) (messageTemplates S) ->
  JS.includes "$" (rl_username lead) = false ->
  fst (generatePersonalizedMessage E S lead w) = Ok m ->
  JS.truthy m = true.
Proof.
  intros Hall Hplain. unfold generatePersonalizedMessage, bind, randomIndex, bind, random,
    bind, next_tick, ret.
  cbn [fst]. intros [= <-].
  destruct (_ ≫= _) as [template|] eqn:Hi; [|reflexivity].
  apply replace_first_truthy; [apply topicOf_plain|apply topicOf_truthy|].
  apply replace_first_truthy;
    [now apply or_else_plain|now apply or_else_truthy|].
  apply bind_Some in Hi as (i & _ & Hi).
  rewrite Forall_forall in Hall. apply Hall. eapply list_elem_of_lookup_2. exact Hi.
Qed.

Lemma comment_truthy E S w c :
  unitDraws E -> commentTemplates S <> [] ->
  Forall (fun t => JS.truthy t = true) (commentTemplates S) ->
  fst (getRandomComment E S w) = Ok c ->
  truthy_opt c = true.
Proof.
  intros Hdraws Hne Hall Hc.
  set (q := Qfloor (env_random E (tick w)
                    * inject_Z (Z.of_nat (length (commentTemplates S))))).
  assert (Hc' : c = (if (0 <=? q)%Z then Some (Z.to_nat q) else None)
                      ≫= (fun i => commentTemplates S !! i)).
  { unfold getRandomComment, bind, randomIndex, bind, random, bind, next_tick, ret in Hc.
    cbn [fst tick] in Hc. subst q. congruence. }
  subst c.
  destruct (Hdraws (tick w)) as [H0 H1].
  assert (Hn : (0 < Z.of_nat (length (commentTemplates S)))%Z).
  { destruct (commentTemplates S); [contradiction|cbn [length]; lia]. }
  pose proof (floor_of_scaled_draw _ _ H0 H1 Hn) as [Hlo Hhi]. fold q in Hlo, Hhi.
  destruct (Z.leb_spec 0 q); [|lia].
  cbn [mbind option_bind].
  destruct (lookup_lt_is_Some_2 (commentTemplates S) (Z.to_nat q)) as [t Ht]; [lia|].
  rewrite Ht. cbn [truthy_opt].
  rewrite Forall_forall in Hall. apply Hall. eapply list_elem_of_lookup_2. exact Ht.
Qed.

(** X18. Planned activities are valid. With draws of [Math.random] in
    the unit interval, message templates that are not empty strings, at
    least one comment template and none of them empty, and leads whose
    line number is not zero and whose username holds no dollar sign, every
    activity of a plan passes [validateActivity]. (A dollar sign in the
    username is read by [replace] as the start of a pattern, and the
    message can come out empty.) *)
Theorem planned_activities_are_valid E S leads lim w plan w' :
  unitDraws E ->
  Forall (fun t => JS.truthy t = true) (messageTemplates S) ->
  commentTemplates S <> [] ->
  Forall (fun t => JS.truthy t = true) (commentTemplates S) ->
  Forall (fun l => rl_id l <> 0 /\ JS.includes "$" (rl_username l) = false) leads ->
  createDailyPlan E S leads lim w = (Ok plan, w') ->
  Forall (fun a => validateActivity (Some a) = true) plan.
Proof.
  intros Hdraws Hmsg Hne Hcom Hids Hplan.
  eapply Forall_impl; [exact (createDailyPlan_wellPlanned _ _ _ _ _ _ _ Hplan)|].
  intros a (lead & Hin & Hu & Hid & Hname & _ & Hkind).
  rewrite Forall_forall in Hids. destruct (Hids lead Hin) as [Hnz Hplain].
  unfold validateActivity. rewrite Hname, Hu, Hid.
  destruct (Nat.eqb_spec (rl_id lead) 0) as [|_]; [contradiction|].
  destruct (type a); cbn [kind_name JS.truthy negb].
  - destruct Hkind as (_ & _ & _ & w0 & m & Hm & ->). cbn [truthy_opt].
    exact (message_truthy _ _ _ _ _ Hmsg Hplain Hm).
  - destruct Hkind as (_ & _ & _ & ->). reflexivity.
  - destruct Hkind as (_ & _ & _ & ->). reflexivity.
  - destruct Hkind as (_ & _ & -> & w0 & Hc). cbn [truthy_opt profileOf].
    exact (comment_truthy _ _ _ _ Hdraws Hne Hcom Hc).
Qed.

Lemma planned_activities_are_valid_witness :
  Forall (fun a => validateActivity (Some a) = true) Scenarios.sixteenPlan.
Proof.
  apply (planned_activities_are_valid Scenarios.calm (scheduler (newSystem false))
           Scenarios.sixteenLeads None Scenarios.emptyWorld Scenarios.sixteenPlan
           (snd (createDailyPlan Scenarios.calm (scheduler (newSystem false))
                   Scenarios.sixteenLeads None Scenarios.emptyWorld))).
  - intros t. split; [unfold Qle; cbn; lia|unfold Qlt; cbn; lia].
  - repeat constructor.
  - discriminate.
  - repeat constructor.
  - repeat constructor; discriminate.
  - vm_compute. reflexivity.
Defined.

(** The dollar sign matters. A lead whose username is the pattern for
    'what follows the match', planned with the one template [{username}],
    gets a direct message that is empty, which [validateActivity]
    rejects; its like is valid. *)
Example dollar_username_empties_the_message :
  let S := mkScheduler Config.rateLimits ["{username}"] Config.commentTemplates in
  match fst (createDailyPlan Scenarios.calm S Cases.dollarLeads None
                             Scenarios.emptyWorld) with
  | Ok plan => (fun a => (type a, message a, validateActivity (Some a))) <$> plan
  | Throw _ => []
  end
  = [(dm, Some "", false); (like, None, true)].
Proof. vm_compute. reflexivity. Qed.

(** ** Whom a plan addresses *)

Lemma plannedFor_target E S lead a :
  plannedFor E S lead a -> target a = (rl_id lead, rl_username lead).
Proof. intros (Hid & Hname & _). unfold target. now rewrite Hid, Hname. Qed.

Lemma targetsOf_app k l1 l2 : targetsOf k (l1 ++ l2) = targetsOf k l1 ++ targetsOf k l2.
Proof. unfold targetsOf. now rewrite List.filter_app, fmap_app. Qed.

Lemma targetsOf_one E S lead k k' xs :
  xs = [] \/ (exists a, xs = [a] /\ type a = k' /\ plannedFor E S lead a) ->
  targetsOf k xs = if decide (k' = k) then target <$> xs else [].
Proof.
  intros [->|(a & -> & Ht & Ha)]; [now destruct (decide _)|].
  unfold targetsOf. cbn [List.filter]. rewrite Ht.
  destruct (decide (k' = k)) as [->|Hne].
  - now rewrite bool_decide_eq_true_2.
  - now rewrite bool_decide_eq_false_2.
Qed.

Lemma planEngagement_targets E S rl rr rc nLeads k leads :
  forall counts w acts counts' w',
  planEngagement E S rl rr rc nLeads leads counts w = (Ok (acts, counts'), w') ->
  targetsOf k acts `sublist_of` targets leads.
Proof.
  unfold targets, usable.
  induction leads as [|lead rest IH]; intros [[l r] c] w acts counts' w';
    cbn [planEngagement List.filter].
  - intros [= <- _ _]. constructor.
  - destruct (JS.truthy (rl_username lead)) eqn:Hu; cbn [negb]; [|apply IH].
    unfold bind at 1.
    destruct (planLike E rl nLeads lead l w) as [[[ls l1]|m] w1] eqn:H1; [|discriminate].
    unfold bind at 1.
    destruct (planRetweet E rr lead r w1) as [[[rs r1]|m] w2] eqn:H2; [|discriminate].
    unfold bind at 1.
    destruct (planComment E S rc lead c w2) as [[[cs c1]|m] w3] eqn:H3; [|discriminate].
    unfold bind at 1.
    destruct (planEngagement E S rl rr rc nLeads rest (l1, r1, c1) w3)
      as [[[acts1 f1]|m] w4] eqn:H4; [|discriminate].
    intros [= <- _ _]. cbn [fmap list_fmap].
    pose proof (planLike_one E S _ _ _ _ _ _ _ _ H1) as L1.
    pose proof (planRetweet_one E S _ _ _ _ _ _ _ H2) as L2.
    pose proof (planComment_one E S _ _ _ _ _ _ _ H3) as L3.
    rewrite !targetsOf_app, (targetsOf_one E S lead k like ls L1),
      (targetsOf_one E S lead k retweet rs L2), (targetsOf_one E S lead k comment cs L3).
    specialize (IH _ _ _ _ _ H4).
    assert (Hone : forall xs k',
               xs = [] \/ (exists a, xs = [a] /\ type a = k' /\ plannedFor E S lead a) ->
               target <$> xs = [] \/ target <$> xs = [(rl_id lead, rl_username lead)]).
    { intros xs k' [->|(a & -> & _ & Ha)]; [now left|right].
      cbn [fmap list_fmap]. now rewrite (plannedFor_target _ _ _ _ Ha). }
    destruct k; cbn [decide_rel decide Kind_eq_dec]; cbn [app].
    + now apply sublist_cons.
    + destruct (Hone ls like L1) as [->| ->]; cbn [app];
        [now apply sublist_cons|now apply sublist_skip].
    + destruct (Hone rs retweet L2) as [->| ->]; cbn [app];
        [now apply sublist_cons|now apply sublist_skip].
    + rewrite app_assoc.
      destruct (Hone cs comment L3) as [->| ->]; cbn [app];
        [now apply sublist_cons|now apply sublist_skip].
Qed.

Lemma filter_sublist {A} (f : A -> bool) l1 l2 :
  l1 `sublist_of` l2 -> List.filter f l1 `sublist_of` List.filter f l2.
Proof.
  induction 1 as [|x l1 l2 _ IH|x l1 l2 _ IH]; cbn [List.filter].
  - constructor.
  - destruct (f x); [now apply sublist_skip|exact IH].
  - destruct (f x); [now apply sublist_cons|exact IH].
Qed.

(** X19. Whom a plan addresses. For each kind of activity, the targets of
    the plan's activities of that kind are drawn from the leads that have
    a username, each lead being used at most as often as it occurs among
    them: a plan never addresses a lead without a username, and never
    plans two activities of one kind for one occurrence of a lead. *)
Theorem each_lead_at_most_once_per_kind E S leads lim w plan w' k :
  createDailyPlan E S leads lim w = (Ok plan, w') ->
  targetsOf k plan ⊆+ targets leads.
Proof.
  destruct leads as [|lead rest].
  - unfold createDailyPlan, try_catch, ret. intros [= <- _]. apply submseteq_nil_l.
  - destruct (createDailyPlan_parts E S (lead :: rest) w ltac:(discriminate))
      as (wt & dms & n & w1 & others & counts & w2 & H1 & H2 & Hplan).
    rewrite Hplan. intros [= <- _].
    transitivity (targetsOf k (sortActivities (dms ++ others))).
    { apply sublist_submseteq. unfold targetsOf. apply fmap_sublist, filter_sublist.
      destruct lim as [[|m]|]; cbn [limitActivities]; [reflexivity| |reflexivity].
      apply sublist_take. }
    transitivity (targetsOf k (dms ++ others)).
    { apply Permutation_submseteq. unfold targetsOf.
      apply fmap_Permutation, filter_perm, sortActivities_perm. }
    apply sublist_submseteq. rewrite targetsOf_app.
    match type of H1 with
    | planDMs _ _ ?rem _ _ _ = _ =>
        destruct (planDMs_spec E S rem (lead :: rest) 0 wt)
          as (dms' & n' & w1' & H1' & F1 & T1)
    end.
    rewrite H1 in H1'. injection H1' as <- _ _.
    match type of H2 with
    | planEngagement _ _ ?rl ?rr ?rc _ _ _ _ = _ =>
        destruct (planEngagement_spec E S rl rr rc (length (lead :: rest))
                    (lead :: rest) 0 0 0 w1)
          as (others' & l' & r' & c' & w2' & H2' & F2 & _)
    end.
    rewrite H2 in H2'. injection H2' as <- _ _.
    destruct (decide (k = dm)) as [->|Hk].
    + unfold targetsOf at 2. rewrite filter_none, app_nil_r.
      * unfold targetsOf. rewrite filter_all.
        -- rewrite T1. apply sublist_take.
        -- eapply Forall_impl; [exact F1|]. intros a [Ha _].
           now apply bool_decide_eq_true_2.
      * eapply Forall_impl; [exact F2|]. intros a [Ha _].
        now apply bool_decide_eq_false_2.
    + unfold targetsOf at 1. rewrite filter_none.
      * cbn [fmap list_fmap app].
        exact (planEngagement_targets _ _ _ _ _ _ _ _ _ _ _ _ _ H2).
      * eapply Forall_impl; [exact F1|]. intros a [Ha _].
        apply bool_decide_eq_false_2. congruence.
Qed.

Lemma each_lead_at_most_once_per_kind_witness :
  targetsOf like Scenarios.sixteenPlan ⊆+ targets Scenarios.sixteenLeads.
Proof.
  apply (each_lead_at_most_once_per_kind Scenarios.calm (scheduler (newSystem false))
           Scenarios.sixteenLeads None Scenarios.emptyWorld Scenarios.sixteenPlan
           (snd (createDailyPlan Scenarios.calm (scheduler (newSystem false))
                   Scenarios.sixteenLeads None Scenarios.emptyWorld)) like).
  vm_compute. reflexivity.
Defined.

(** ** The limit on the size of a plan *)

(** X20. The limit on the size of a plan. With a positive limit the plan
    is the head of the unlimited plan, of that length at most; a limit of
    zero is no limit at all, as is none. Planning never throws. *)
Theorem zero_limit_means_no_limit E S leads w :
  exists full w',
    createDailyPlan E S leads None w = (Ok full, w')
    /\ createDailyPlan E S leads (Some 0) w = (Ok full, w')
    /\ forall n, createDailyPlan E S leads (Some (Datatypes.S n)) w
                 = (Ok (take (Datatypes.S n) full), w')
                 /\ length (take (Datatypes.S n) full) <= Datatypes.S n.
Proof.
  destruct leads as [|lead rest].
  - exists [], w. repeat split. cbn. lia.
  - destruct (createDailyPlan_parts E S (lead :: rest) w ltac:(discriminate))
      as (wt & dms & n & w1 & others & counts & w2 & H1 & H2 & Hplan).
    exists (sortActivities (dms ++ others)), w2.
    split; [apply Hplan|]. split; [apply Hplan|].
    intros m. split; [apply Hplan|]. rewrite length_take. lia.
Qed.

(** ** Quotas *)

Lemma resetDailyCountersIfNeeded_eq E w :
  resetDailyCountersIfNeeded E w =
  (Ok tt,
   mkWorld (leadsSheet w) (S (tick w)) (trace w)
           (if String.eqb (lastReset (dailyCounters w)) (dateString (env_clock E (tick w)))
            then dailyCounters w
            else freshCounters (dateString (env_clock E (tick w))))).
Proof.
  unfold resetDailyCountersIfNeeded, bind, next_tick, get_counters, put_counters, ret.
  cbn [tick leadsSheet trace dailyCounters].
  now destruct (String.eqb _ _).
Qed.

Lemma kind_name_inj k k' : kind_name k = kind_name k' -> k = k'.
Proof. destruct k, k'; cbn; congruence. Qed.

(** X21. [canPerformActivity] and [getRemainingActivities] agree. Asked
    in the same state, an activity of a kind may be performed exactly when
    the quota that remains for the kind is positive; an activity of an
    unknown type may never be performed. *)
Theorem may_perform_iff_quota_remains E S w :
  (forall k, exists b r,
      fst (canPerformActivity E S (kind_name k) w) = Ok b
      /\ fst (getRemainingActivities E S w) = Ok r
      /\ (b = true <-> (0 < remainingOf k r)%Z))
  /\ (forall ty, (forall k, ty <> kind_name k) ->
                 fst (canPerformActivity E S ty w) = Ok false).
Proof.
  split.
  - intros k. unfold canPerformActivity, getRemainingActivities, bind.
    rewrite resetDailyCountersIfNeeded_eq. cbn [get_counters ret fst dailyCounters].
    eexists _, _. split; [reflexivity|]. split; [reflexivity|].
    destruct k; cbn [kind_name String.eqb Ascii.eqb Bool.eqb remainingOf];
      unfold remaining; rewrite Z.ltb_lt; lia.
  - intros ty Hty. unfold canPerformActivity, bind.
    rewrite resetDailyCountersIfNeeded_eq. cbn [get_counters ret fst dailyCounters].
    destruct (String.eqb_spec ty "dm") as [->|_]; [now destruct (Hty dm)|].
    destruct (String.eqb_spec ty "like") as [->|_]; [now destruct (Hty like)|].
    destruct (String.eqb_spec ty "retweet") as [->|_]; [now destruct (Hty retweet)|].
    destruct (String.eqb_spec ty "comment") as [->|_]; [now destruct (Hty comment)|].
    reflexivity.
Qed.

(** X22. Recording an action uses up one unit of its quota. On a day
    that does not change, [incrementCounter] raises the counter of its
    kind by one and leaves the others alone, so that the quota remaining
    for that kind drops by one, not below zero, and the other quotas are
    unchanged; recording an unknown type changes no counter. *)
Theorem recording_uses_up_quota E S k w :
  sameDay E w ->
  let w' := snd (incrementCounter E (kind_name k) w) in
  (forall k', counterOf k' (dailyCounters w')
              = counterOf k' (dailyCounters w) + (if decide (k' = k) then 1 else 0))
  /\ (exists r r',
         fst (getRemainingActivities E S w) = Ok r
         /\ fst (getRemainingActivities E S w') = Ok r'
         /\ forall k', remainingOf k' r'
                       = if decide (k' = k) then Z.max 0 (remainingOf k' r - 1)
                         else remainingOf k' r)
  /\ (forall ty, (forall k0, ty <> kind_name k0) ->
                 dailyCounters (snd (incrementCounter E ty w)) = dailyCounters w).
Proof.
  intros Hday. cbv zeta.
  assert (Hinc : dailyCounters (snd (incrementCounter E (kind_name k) w))
                 = match k with
                   | dm => mkCounters (Datatypes.S (cnt_dm (dailyCounters w)))
                             (cnt_likes (dailyCounters w)) (cnt_retweets (dailyCounters w))
                             (cnt_comments (dailyCounters w)) (lastReset (dailyCounters w))
                   | like => mkCounters (cnt_dm (dailyCounters w))
                               (Datatypes.S (cnt_likes (dailyCounters w)))
                               (cnt_retweets (dailyCounters w))
                               (cnt_comments (dailyCounters w))
                               (lastReset (dailyCounters w))
                   | retweet => mkCounters (cnt_dm (dailyCounters w))
                                  (cnt_likes (dailyCounters w))
                                  (Datatypes.S (cnt_retweets (dailyCounters w)))
                                  (cnt_comments (dailyCounters w))
                                  (lastReset (dailyCounters w))
                   | comment => mkCounters (cnt_dm (dailyCounters w))
                                  (cnt_likes (dailyCounters w))
                                  (cnt_retweets (dailyCounters w))
                                  (Datatypes.S (cnt_comments (dailyCounters w)))
                                  (lastReset (dailyCounters w))
                   end).
  { unfold incrementCounter, bind. rewrite resetDailyCountersIfNeeded_eq.
    rewrite (Hday (tick w)), String.eqb_refl.
    destruct k; reflexivity. }
  split; [|split].
  - intros k'. rewrite Hinc.
    destruct k, k'; destruct (decide _) as [Heq|Hne]; try discriminate Heq;
      try (now destruct Hne);
      cbn [counterOf cnt_dm cnt_likes cnt_retweets cnt_comments]; lia.
  - unfold getRemainingActivities, bind. rewrite !resetDailyCountersIfNeeded_eq.
    cbn [get_counters ret fst dailyCounters].
    eexists _, _. split; [reflexivity|]. split; [reflexivity|].
    rewrite Hinc, (Hday (tick w)), String.eqb_refl. intros k'.
    destruct k; cbn [lastReset]; rewrite (Hday _), String.eqb_refl;
      destruct k'; destruct (decide _) as [Heq|Hne]; try discriminate Heq;
      try (now destruct Hne);
      cbn [remainingOf cnt_dm cnt_likes cnt_retweets cnt_comments];
      unfold remaining; lia.
  - intros ty Hty. unfold incrementCounter, bind. rewrite resetDailyCountersIfNeeded_eq.
    rewrite (Hday (tick w)), String.eqb_refl. cbn [get_counters dailyCounters].
    destruct (String.eqb_spec ty "dm") as [->|_]; [now destruct (Hty dm)|].
    destruct (String.eqb_spec ty "like") as [->|_]; [now destruct (Hty like)|].
    destruct (String.eqb_spec ty "retweet") as [->|_]; [now destruct (Hty retweet)|].
    destruct (String.eqb_spec ty "comment") as [->|_]; [now destruct (Hty comment)|].
    reflexivity.
Qed.

Lemma recording_uses_up_quota_witness :
  let w' := snd (incrementCounter Scenarios.calm (kind_name dm) Scenarios.twoDMsLeft) in
  (forall k', counterOf k' (dailyCounters w')
              = counterOf k' (dailyCounters Scenarios.twoDMsLeft)
                + (if decide (k' = dm) then 1 else 0))
  /\ (exists r r',
         fst (getRemainingActivities Scenarios.calm (scheduler (newSystem false))
                                     Scenarios.twoDMsLeft) = Ok r
         /\ fst (getRemainingActivities Scenarios.calm (scheduler (newSystem false)) w')
            = Ok r'
         /\ forall k', remainingOf k' r'
                       = if decide (k' = dm) then Z.max 0 (remainingOf k' r - 1)
                         else remainingOf k' r)
  /\ (forall ty, (forall k0, ty <> kind_name k0) ->
                 dailyCounters (snd (incrementCounter Scenarios.calm ty Scenarios.twoDMsLeft))
                 = dailyCounters Scenarios.twoDMsLeft).
Proof.
  apply (recording_uses_up_quota Scenarios.calm (scheduler (newSystem false)) dm
           Scenarios.twoDMsLeft).
  intros t. reflexivity.
Defined.

(** In that scenario two direct messages remain before the recording and
    one after it. *)
Example one_direct_message_left :
  fst (getRemainingActivities Scenarios.calm (scheduler (newSystem false))
         (snd (incrementCounter Scenarios.calm "dm" Scenarios.twoDMsLeft)))
  = Ok (1, 100, 50, 20)%Z.
Proof. vm_compute. reflexivity. Qed.

(** X23. A new day restores the quotas. When the local date differs from
    the date of the last reset, the first call of the scheduler drops all
    counts: the quotas reported are the full daily limits, the date of the
    reset is the new date, and an action recorded then is the first of the
    day, whatever was counted before. *)
Theorem new_day_restores_quotas E S w :
  dateString (env_clock E (tick w)) <> lastReset (dailyCounters w) ->
  getRemainingActivities E S w
  = (Ok (remaining (Config.dmPerDay (limits S)) 0,
         remaining (Config.likesPerDay (limits S)) 0,
         remaining (Config.retweetsPerDay (limits S)) 0,
         remaining (Config.commentsPerDay (limits S)) 0),
     mkWorld (leadsSheet w) (Datatypes.S (tick w)) (trace w)
             (freshCounters (dateString (env_clock E (tick w)))))
  /\ forall k k',
       counterOf k' (dailyCounters (snd (incrementCounter E (kind_name k) w)))
       = if decide (k' = k) then 1 else 0.
Proof.
  intros Hnew.
  assert (Hne : String.eqb (lastReset (dailyCounters w))
                           (dateString (env_clock E (tick w))) = false).
  { apply String.eqb_neq. congruence. }
  split.
  - unfold getRemainingActivities, bind. rewrite resetDailyCountersIfNeeded_eq, Hne.
    reflexivity.
  - intros k k'. unfold incrementCounter, bind.
    rewrite resetDailyCountersIfNeeded_eq, Hne.
    destruct k, k'; reflexivity.
Qed.

Lemma new_day_restores_quotas_witness :
  getRemainingActivities Scenarios.calm (scheduler (newSystem false)) Cases.yesterdaysCounts
  = (Ok (remaining 30 0, remaining 100 0, remaining 50 0, remaining 20 0),
     mkWorld [] 1 [] (freshCounters "Thu Jan 01 1970"))
  /\ forall k k',
       counterOf k' (dailyCounters (snd (incrementCounter Scenarios.calm (kind_name k)
                                                          Cases.yesterdaysCounts)))
       = if decide (k' = k) then 1 else 0.
Proof.
  apply (new_day_restores_quotas Scenarios.calm (scheduler (newSystem false))
           Cases.yesterdaysCounts).
  vm_compute. discriminate.
Defined.

(** * Properties of the filter *)

(** ** Whole numbers below 2^53 are read back as they are *)

Lemma toNumber_small v : (Z.abs v < 2 ^ 53)%Z -> FilterEngine.toNumber v = v.
Proof.
  intros H. unfold FilterEngine.toNumber. cbv zeta.
  destruct (Z.leb_spec (Z.log2 (Z.abs v) - 52) 0) as [|Hlog]; [reflexivity|].
  exfalso.
  assert (Hpos : (0 < Z.abs v)%Z).
  { destruct (Z.abs v) eqn:Ha; try lia. cbn in Hlog. lia. }
  apply (Z.log2_lt_pow2 _ 53 Hpos) in H. lia.
Qed.

Lemma toNumber_big v : (2 ^ 53 <= v)%Z -> (2 ^ 53 <= FilterEngine.toNumber v)%Z.
Proof.
  intros H. unfold FilterEngine.toNumber. cbv zeta.
  assert (Hv : (0 < v)%Z) by (pose proof (Z.pow_pos_nonneg 2 53); lia).
  rewrite (Z.abs_eq v) by lia.
  assert (Hlog : (53 <= Z.log2 v)%Z) by (apply Z.log2_le_pow2; lia).
  set (e := (Z.log2 v - 52)%Z).
  assert (He : (1 <= e)%Z) by (unfold e; lia).
  destruct (Z.leb_spec e 0) as [|_]; [lia|].
  rewrite (Z.sgn_pos v) by lia. rewrite Z.mul_1_l.
  rewrite Z.shiftr_div_pow2 by lia.
  set (q := (v / 2 ^ e)%Z).
  assert (Hpe : (0 < 2 ^ e)%Z) by (apply Z.pow_pos_nonneg; lia).
  assert (Hq : (2 ^ 52 <= q)%Z).
  { apply Z.div_le_lower_bound; [exact Hpe|].
    rewrite <- Z.pow_add_r by lia.
    replace (e + 52)%Z with (Z.log2 v) by (unfold e; lia).
    apply Z.log2_spec. exact Hv. }
  match goal with |- context [Z.shiftl ?x e] => set (q' := x) end.
  assert (Hq' : (q <= q')%Z) by (unfold q'; destruct (_ || _); lia).
  rewrite Z.shiftl_mul_pow2 by lia.
  assert (H2e : (2 ^ 1 <= 2 ^ e)%Z) by (apply Z.pow_le_mono_r; lia).
  change (2 ^ 53)%Z with (2 ^ 52 * 2 ^ 1)%Z.
  apply Z.mul_le_mono_nonneg; lia.
Qed.

Lemma withDigits_small x k v :
  (0 <= x < 2 ^ 53)%Z -> FilterEngine.withDigits x k = Some v -> v = x.
Proof.
  intros Hx. unfold FilterEngine.withDigits. cbv zeta.
  set (P := (10 ^ Z.of_nat (String.length (FilterEngine.showZ x) - k))%Z).
  assert (HP : (0 < P)%Z) by (apply Z.pow_pos_nonneg; lia).
  set (lo := (x / P * P)%Z).
  assert (Hlo : (0 <= lo <= x)%Z).
  { unfold lo. split.
    - apply Z.mul_nonneg_nonneg; [apply Z.div_pos|]; lia.
    - rewrite Z.mul_comm. apply Z.mul_div_le. exact HP. }
  assert (Hvalid : forall c, (0 <= c)%Z -> FilterEngine.toNumber c = x -> c = x).
  { intros c Hc Hn. destruct (Z.lt_ge_cases c (2 ^ 53)) as [Hs|Hb].
    - rewrite toNumber_small in Hn by (rewrite Z.abs_eq; lia). exact Hn.
    - apply toNumber_big in Hb. lia. }
  destruct (Z.eqb_spec (FilterEngine.toNumber lo) x) as [H1|H1],
           (Z.eqb_spec (FilterEngine.toNumber (lo + P)) x) as [H2|H2];
    intros [= <-]; try discriminate.
  - apply Hvalid in H1; [|lia]. apply Hvalid in H2; lia.
  - apply Hvalid; [lia|exact H1].
  - apply Hvalid; [lia|exact H2].
Qed.

Lemma shortest_small x : (0 <= x < 2 ^ 53)%Z -> FilterEngine.shortest x = x.
Proof.
  intros Hx. unfold FilterEngine.shortest.
  assert (H : forall fuel k, FilterEngine.shortestFrom x k fuel = x); [|apply H].
  induction fuel as [|fuel IH]; intros k; cbn [FilterEngine.shortestFrom]; [reflexivity|].
  destruct (FilterEngine.withDigits x k) as [v|] eqn:Hv; [|apply IH].
  exact (withDigits_small x k v Hx Hv).
Qed.

Lemma numberToString_small n :
  (Z.abs n < 2 ^ 53)%Z -> FilterEngine.numberToString n = FilterEngine.showZ n.
Proof.
  intros H. unfold FilterEngine.numberToString. cbv zeta. rewrite (toNumber_small n H).
  assert (H1024 : (2 ^ 53 < 2 ^ 1024)%Z) by (apply Z.pow_lt_mono_r; lia).
  destruct (Z.leb_spec (2 ^ 1024) (Z.abs n)); [lia|].
  rewrite shortest_small by lia.
  assert (H21 : (2 ^ 53 < 10 ^ 21)%Z) by reflexivity.
  destruct (Z.ltb_spec (Z.abs n) (10 ^ 21)); [|lia].
  destruct n as [|p|p]; reflexivity.
Qed.

Lemma readDigits_uint d : forall acc,
  FilterEngine.readDigits 10 (NilEmpty.string_of_uint d) (Some acc)
  = Some (FilterEngine.uval d acc).
Proof.
  induction d; intros acc;
    cbn [NilEmpty.string_of_uint FilterEngine.readDigits FilterEngine.uval];
    [reflexivity|..]; apply IHd.
Qed.

Lemma of_uint_acc_uval d : forall acc,
  Z.pos (Pos.of_uint_acc d acc) = FilterEngine.uval d (Z.pos acc).
Proof.
  induction d; intros acc; cbn [Pos.of_uint_acc FilterEngine.uval]; [reflexivity|..];
    rewrite IHd; f_equal; lia.
Qed.

Lemma of_uint_uval d : Z.of_N (Pos.of_uint d) = FilterEngine.uval d 0.
Proof.
  induction d; cbn [Pos.of_uint FilterEngine.uval]; try reflexivity; try exact IHd;
    cbn [Z.of_N]; rewrite of_uint_acc_uval; reflexivity.
Qed.

Lemma readDigits_pos p :
  FilterEngine.readDigits 10 (NilZero.string_of_uint (Pos.to_uint p)) None = Some (Z.pos p).
Proof.
  pose proof (DecimalPos.Unsigned.of_to p) as Hp.
  apply (f_equal Z.of_N) in Hp. rewrite of_uint_uval in Hp. cbn [Z.of_N] in Hp.
  rewrite <- Hp.
  destruct (Pos.to_uint p) as [|d|d|d|d|d|d|d|d|d|d] eqn:Hd;
    cbn [NilZero.string_of_uint NilEmpty.string_of_uint FilterEngine.readDigits
         FilterEngine.uval];
    try apply readDigits_uint.
  cbn in Hp. discriminate Hp.
Qed.

Lemma digit_is_plain c v :
  FilterEngine.digitValue 10 c = Some v ->
  FilterEngine.is_space c = false /\ Ascii.eqb c "-" = false /\ Ascii.eqb c "+" = false
  /\ Ascii.eqb c "x" = false /\ Ascii.eqb c "X" = false.
Proof.
  destruct c as [[] [] [] [] [] [] [] []]; cbv; intros H;
    first [discriminate H | repeat split].
Qed.

Lemma digitsOnly_uint d : FilterEngine.digitsOnly (NilEmpty.string_of_uint d) = true.
Proof. induction d; cbn [NilEmpty.string_of_uint FilterEngine.digitsOnly]; auto. Qed.

(** A text of decimal digits is read in base ten, with or without a minus
    sign before it. *)
Lemma parseInt_digits s v :
  FilterEngine.digitsOnly s = true ->
  FilterEngine.readDigits 10 s None = Some v ->
  FilterEngine.parseInt s = Some (FilterEngine.toNumber v)
  /\ FilterEngine.parseInt (String "-" s) = Some (FilterEngine.toNumber (- v)).
Proof.
  intros Hall Hv.
  destruct s as [|c s]; [discriminate Hv|].
  cbn [FilterEngine.digitsOnly] in Hall.
  destruct (FilterEngine.digitValue 10 c) as [d|] eqn:Hd; [|discriminate Hall].
  destruct (digit_is_plain c d Hd) as (Hsp & Hm & Hp & _).
  assert (Hradix : match String c s with
                   | String c0 (String x r) =>
                       if Ascii.eqb c0 "0" && (Ascii.eqb x "x" || Ascii.eqb x "X")
                       then (16%Z, r) else (10%Z, String c s)
                   | _ => (10%Z, String c s)
                   end = (10%Z, String c s)).
  { destruct s as [|x r]; [reflexivity|].
    cbn [FilterEngine.digitsOnly] in Hall.
    destruct (FilterEngine.digitValue 10 x) as [dx|] eqn:Hx; [|discriminate Hall].
    destruct (digit_is_plain x dx Hx) as (_ & _ & _ & H1 & H2).
    rewrite H1, H2, andb_false_r. reflexivity. }
  split.
  - unfold FilterEngine.parseInt. cbn [FilterEngine.trimStart].
    rewrite Hsp, Hm, Hp, Hradix, Hv. reflexivity.
  - unfold FilterEngine.parseInt. cbn [FilterEngine.trimStart].
    change (FilterEngine.is_space "-") with false. cbn match.
    change (Ascii.eqb "-" "-") with true.
    cbn match. rewrite Hradix, Hv. reflexivity.
Qed.

Lemma digitsOnly_pos p :
  FilterEngine.digitsOnly (NilZero.string_of_uint (Pos.to_uint p)) = true.
Proof.
  destruct (Pos.to_uint p); [reflexivity|..];
    cbn [NilZero.string_of_uint]; apply digitsOnly_uint.
Qed.

Lemma parseInt_showZ n :
  (Z.abs n < 2 ^ 53)%Z -> FilterEngine.parseInt (FilterEngine.showZ n) = Some n.
Proof.
  intros H. destruct n as [|p|p].
  - reflexivity.
  - unfold FilterEngine.showZ. cbn [Z.to_int NilZero.string_of_int].
    destruct (parseInt_digits _ _ (digitsOnly_pos p) (readDigits_pos p)) as [-> _].
    now rewrite toNumber_small.
  - unfold FilterEngine.showZ. cbn [Z.to_int NilZero.string_of_int].
    destruct (parseInt_digits _ _ (digitsOnly_pos p) (readDigits_pos p)) as [_ ->].
    change (- Z.pos p)%Z with (Z.neg p). now rewrite toNumber_small.
Qed.

(** Below 2^53 a follower count is read as it is. *)
Lemma parseIntOr0_small n : (Z.abs n < 2 ^ 53)%Z -> FilterEngine.parseIntOr0 n = n.
Proof.
  intros H. unfold FilterEngine.parseIntOr0.
  now rewrite numberToString_small, parseInt_showZ.
Qed.

(** From 10^21 on a number is written in exponent notation, of which
    [parseInt] reads the first digit; what is too large for a Number reads
    as zero. *)
Example parseIntOr0_on_large_counts :
  FilterEngine.parseIntOr0 <$> [999999; 2 ^ 60; 10 ^ 21; 2 ^ 70; - 10 ^ 21; 2 ^ 1024]%Z
  = [999999; 2 ^ 60; 1; 1; -1; 0]%Z.
Proof. vm_compute. reflexivity. Qed.

(** ** The verdict *)

Lemma find_none_of {A} (f : A -> bool) l :
  (forall x, In x l -> f x = false) -> List.find f l = None.
Proof.
  intros H. destruct (List.find f l) as [x|] eqn:Hf; [|reflexivity].
  apply List.find_some in Hf as [Hin Hx]. rewrite (H x Hin) in Hx. discriminate.
Qed.

Lemma trim_empty s : JS.truthy s = false -> FilterEngine.trim s = "".
Proof. destruct s; [reflexivity|discriminate]. Qed.

(** X24. The verdict of the filter, for a username, a bio and rule terms
    within the ASCII range. A lead passes exactly when it meets every
    rule: a username that is not blank; not verified, if verified accounts
    are to fail; a follower count that, as [parseInt] reads it, is zero or
    less, or at least the minimum, and at most the maximum; a bio (in lower
    case, trimmed) that contains no blacklisted term, contains a
    whitelisted term if there is a whitelist, is empty or at least five
    characters long, and shows no suspicious pattern; and, if the check is
    enabled and a bot is attached, an open DM button. A pass carries the
    reason 'All filters passed' and a score; a failure carries no score. *)
Theorem evaluateLead_passes_iff suspicious bot R lead :
  FilterEngine.asciiOnly (pl_username lead) = true ->
  FilterEngine.asciiOnly (pl_bio lead) = true ->
  Forall (fun term => FilterEngine.asciiOnly term = true)
         (FilterEngine.bioBlacklist R ++ FilterEngine.bioWhitelist R) ->
  let result := FilterEngine.evaluateLead suspicious bot R lead in
  (FilterEngine.passed result = true <-> acceptable suspicious bot R lead)
  /\ (FilterEngine.passed result = true ->
      FilterEngine.reason result = "All filters passed"
      /\ FilterEngine.score result = Some (FilterEngine.calculateQualityScore lead))
  /\ (FilterEngine.passed result = false -> FilterEngine.score result = None).
Proof.
  intros _ _ _.
  cbv zeta. unfold acceptable, FilterEngine.evaluateLead. cbv zeta.
  rewrite or_else_empty.
  set (bio := FilterEngine.trim (toLowerCase (pl_bio lead))).
  set (f := FilterEngine.parseIntOr0 (pl_followersCount lead)).
  destruct (negb (JS.truthy (pl_username lead))
            || String.eqb (FilterEngine.trim (pl_username lead)) "") eqn:G1.
  { split; [|split]; [split| |]; try discriminate; try reflexivity.
    intros (H & _). exfalso. apply H.
    apply orb_true_iff in G1 as [G|G].
    - apply trim_empty. now apply negb_true_iff.
    - now apply String.eqb_eq. }
  apply orb_false_iff in G1 as [_ G1]. apply String.eqb_neq in G1.
  destruct (FilterEngine.failIfVerified R && pl_isVerified lead) eqn:G2.
  { split; [|split]; [split| |]; try discriminate; try reflexivity.
    intros (_ & H & _). apply andb_true_iff in G2 as [Ga Gb].
    rewrite (H Ga) in Gb. discriminate. }
  destruct ((f >? 0)%Z && (f <? FilterEngine.minFollowers R)%Z) eqn:G3.
  { split; [|split]; [split| |]; try discriminate; try reflexivity.
    intros (_ & _ & H & _). apply andb_true_iff in G3 as [Ga Gb]. lia. }
  destruct (f >? FilterEngine.maxFollowers R)%Z eqn:G4.
  { split; [|split]; [split| |]; try discriminate; try reflexivity.
    intros (_ & _ & _ & H & _). lia. }
  destruct (List.find _ (FilterEngine.bioBlacklist R)) as [term|] eqn:G5.
  { split; [|split]; [split| |]; try discriminate; try reflexivity.
    intros (_ & _ & _ & _ & H & _). apply List.find_some in G5 as [Hin Hinc].
    rewrite (H term Hin) in Hinc. discriminate. }
  destruct ((0 <? _)%nat && negb (existsb _ (FilterEngine.bioWhitelist R))) eqn:G6.
  { split; [|split]; [split| |]; try discriminate; try reflexivity.
    intros (_ & _ & _ & _ & _ & H & _). apply andb_true_iff in G6 as [Ga Gb].
    apply negb_true_iff in Gb. destruct H as [H|(term & Hin & Hinc)].
    - rewrite H in Ga. discriminate.
    - assert (Hex : existsb (fun term => JS.includes (toLowerCase term) bio)
                            (FilterEngine.bioWhitelist R) = true)
        by (apply existsb_exists; eauto).
      rewrite Hex in Gb. discriminate. }
  destruct (negb (String.length bio =? 0)%nat && (String.length bio <? 5)%nat) eqn:G7.
  { split; [|split]; [split| |]; try discriminate; try reflexivity.
    intros (_ & _ & _ & _ & _ & _ & H & _). apply andb_true_iff in G7 as [Ga Gb].
    apply negb_true_iff, Nat.eqb_neq in Ga. apply Nat.ltb_lt in Gb. lia. }
  destruct (suspicious bio) eqn:G8.
  { split; [|split]; [split| |]; try discriminate; try reflexivity.
    intros (_ & _ & _ & _ & _ & _ & _ & H & _). discriminate. }
  assert (Hrules : FilterEngine.trim (pl_username lead) <> ""
            /\ (FilterEngine.failIfVerified R = true -> pl_isVerified lead = false)
            /\ ((f <= 0)%Z \/ (FilterEngine.minFollowers R <= f)%Z)
            /\ (f <= FilterEngine.maxFollowers R)%Z
            /\ (forall term, In term (FilterEngine.bioBlacklist R) ->
                             JS.includes (toLowerCase term) bio = false)
            /\ (FilterEngine.bioWhitelist R = []
                \/ exists term, In term (FilterEngine.bioWhitelist R)
                                /\ JS.includes (toLowerCase term) bio = true)
            /\ (String.length bio = 0 \/ 5 <= String.length bio)).
  { split; [exact G1|]. split.
    { intros Hv. rewrite Hv in G2. exact G2. }
    split.
    { apply andb_false_iff in G3 as [G|G]; lia. }
    split; [lia|]. split.
    { intros term Hin. exact (List.find_none _ _ G5 term Hin). }
    split.
    { apply andb_false_iff in G6 as [G|G].
      - left. destruct (FilterEngine.bioWhitelist R); [reflexivity|discriminate].
      - right. apply negb_false_iff, existsb_exists in G. exact G. }
    apply andb_false_iff in G7 as [G|G].
    - left. now apply negb_false_iff, Nat.eqb_eq in G.
    - right. apply Nat.ltb_ge in G. exact G. }
  destruct Hrules as (H1 & H2 & H3 & H4 & H5 & H6 & H7).
  destruct (FilterEngine.preFilterCheckDMs R) eqn:G9.
  - destruct bot as [check|].
    + destruct (check (pl_username lead)) as [[|]|msg] eqn:G10.
      * split; [|split]; [split| |]; try discriminate; auto.
        intros _. repeat (split; [first [assumption|reflexivity]|]). intros _ c [= <-]. exact G10.
      * split; [|split]; [split| |]; try discriminate; try reflexivity.
        intros (_ & _ & _ & _ & _ & _ & _ & _ & H).
        rewrite (H eq_refl check eq_refl) in G10. discriminate.
      * split; [|split]; [split| |]; try discriminate; try reflexivity.
        intros (_ & _ & _ & _ & _ & _ & _ & _ & H).
        rewrite (H eq_refl check eq_refl) in G10. discriminate.
    + split; [|split]; [split| |]; try discriminate; auto.
      intros _. repeat (split; [first [assumption|reflexivity]|]). intros _ c [=].
  - split; [|split]; [split| |]; try discriminate; auto.
    intros _. repeat (split; [first [assumption|reflexivity]|]). intros [=].
Qed.

Lemma evaluateLead_passes_iff_witness :
  FilterEngine.passed
    (FilterEngine.evaluateLead (fun _ => false) None FilterEngine.configRules
       (mkPending 2 "alice" "NBA fan, love the odds" 420 false)) = true
  <-> acceptable (fun _ => false) None FilterEngine.configRules
        (mkPending 2 "alice" "NBA fan, love the odds" 420 false).
Proof.
  refine (proj1 (evaluateLead_passes_iff (fun _ => false) None FilterEngine.configRules
                   (mkPending 2 "alice" "NBA fan, love the odds" 420 false) _ _ _)).
  - reflexivity.
  - reflexivity.
  - repeat constructor.
Defined.

(** With the configured rules and no bot attached, a lead with 420
    followers and a sporting bio passes; with 49 followers it fails, and
    with none it passes again. A count of 10^21 is read as 1 and fails as
    too few, a count of 10^23 against a minimum of 1 passes. *)
Example evaluateLead_on_follower_counts :
  (fun n => FilterEngine.passed
              (FilterEngine.evaluateLead (fun _ => false) None FilterEngine.configRules
                 (mkPending 2 "alice" "NBA fan, love the odds" n false)))
    <$> [420; 49; 0; 10 ^ 21]%Z
  = [true; false; true; false]
  /\ FilterEngine.reason
       (FilterEngine.evaluateLead (fun _ => false) None FilterEngine.configRules
          (mkPending 2 "alice" "NBA fan, love the odds" (10 ^ 21) false))
     = "Too few followers: 1 < 50"
  /\ FilterEngine.passed
       (FilterEngine.evaluateLead (fun _ => false) None
          (FilterEngine.mkRules 1 5000 true true [] [])
          (mkPending 2 "alice" "NBA fan, love the odds" (10 ^ 23) false))
     = true.
Proof. vm_compute. repeat split. Qed.

(** ** Letter case *)

Lemma lower_upper c : lower_ascii (JS.upper_ascii c) = lower_ascii c.
Proof. destruct c as [[] [] [] [] [] [] [] []]; reflexivity. Qed.

Lemma toLowerCase_toUpperCase s : toLowerCase (JS.toUpperCase s) = toLowerCase s.
Proof.
  induction s as [|c s IH]; [reflexivity|].
  cbn [JS.toUpperCase toLowerCase]. now rewrite lower_upper, IH.
Qed.

Lemma toLowerCase_length s : String.length (toLowerCase s) = String.length s.
Proof. induction s as [|c s IH]; [reflexivity|]. cbn [toLowerCase String.length]. lia. Qed.

(** X25. The filter ignores the letter case of a bio within the ASCII
    range. Two leads that differ only in the letter case of their bios,
    both bios being ASCII, get the same verdict, the same reason and the
    same score. *)
Theorem verdict_ignores_letter_case suspicious bot R lead bio :
  FilterEngine.asciiOnly bio = true ->
  FilterEngine.asciiOnly (pl_bio lead) = true ->
  toLowerCase bio = toLowerCase (pl_bio lead) ->
  FilterEngine.evaluateLead suspicious bot R (withBio bio lead)
  = FilterEngine.evaluateLead suspicious bot R lead.
Proof.
  intros _ _ Hcase.
  assert (Hlen : String.length bio = String.length (pl_bio lead)).
  { rewrite <- (toLowerCase_length bio), Hcase. apply toLowerCase_length. }
  assert (Hscore : FilterEngine.calculateQualityScore (withBio bio lead)
                   = FilterEngine.calculateQualityScore lead).
  { unfold FilterEngine.calculateQualityScore, withBio.
    cbn [pl_followersCount pl_bio]. now rewrite !or_else_empty, Hcase, Hlen. }
  unfold FilterEngine.evaluateLead. rewrite Hscore. unfold withBio.
  cbn [pl_username pl_isVerified pl_followersCount pl_bio].
  now rewrite !or_else_empty, Hcase.
Qed.

Lemma verdict_ignores_letter_case_witness :
  FilterEngine.evaluateLead (fun _ => false) None FilterEngine.configRules
    (withBio "Into CRYPTO and NFTs" (mkPending 2 "carol" "into crypto and nfts" 420 false))
  = FilterEngine.evaluateLead (fun _ => false) None FilterEngine.configRules
      (mkPending 2 "carol" "into crypto and nfts" 420 false).
Proof.
  apply (verdict_ignores_letter_case (fun _ => false) None FilterEngine.configRules
           (mkPending 2 "carol" "into crypto and nfts" 420 false) "Into CRYPTO and NFTs").
  - reflexivity.
  - reflexivity.
  - reflexivity.
Defined.

(** That lead fails on the first blacklisted term its bio contains. *)
Example blacklisted_whatever_the_case :
  FilterEngine.reason
    (FilterEngine.evaluateLead (fun _ => false) None FilterEngine.configRules
       (mkPending 2 "carol" "Into CRYPTO and NFTs" 420 false))
  = "Bio contains blacklisted term: " +:+ FilterEngine.quote +:+ "crypto"
    +:+ FilterEngine.quote.
Proof. vm_compute. reflexivity. Qed.

(** ** The score *)

(** X26. The quality score of a lead lies between 40 and 100. It never
    falls when the follower count, as [parseInt] reads it, rises; so
    among counts below 2^53, which are read as they are, a lead with more
    followers never scores lower than the same lead with fewer. *)
Theorem quality_score_bounds lead :
  (40 <= FilterEngine.calculateQualityScore lead <= 100)%Z
  /\ (forall other,
        pl_bio other = pl_bio lead ->
        (FilterEngine.parseIntOr0 (pl_followersCount lead)
         <= FilterEngine.parseIntOr0 (pl_followersCount other))%Z ->
        (FilterEngine.calculateQualityScore lead
         <= FilterEngine.calculateQualityScore other)%Z)
  /\ (forall more,
        (Z.abs (pl_followersCount lead) < 2 ^ 53)%Z ->
        (Z.abs more < 2 ^ 53)%Z ->
        (pl_followersCount lead <= more)%Z ->
        (FilterEngine.calculateQualityScore lead
         <= FilterEngine.calculateQualityScore
              (mkPending (pl_id lead) (pl_username lead) (pl_bio lead) more
                         (pl_isVerified lead)))%Z).
Proof.
  assert (Hmono : forall other,
            pl_bio other = pl_bio lead ->
            (FilterEngine.parseIntOr0 (pl_followersCount lead)
             <= FilterEngine.parseIntOr0 (pl_followersCount other))%Z ->
            (FilterEngine.calculateQualityScore lead
             <= FilterEngine.calculateQualityScore other)%Z).
  { intros other Hbio. unfold FilterEngine.calculateQualityScore. rewrite Hbio.
    set (m := length (List.filter _ FilterEngine.sportsTerms)).
    set (b := String.length (JS.or_else (pl_bio lead) "")).
    set (f := FilterEngine.parseIntOr0 (pl_followersCount lead)).
    set (g := FilterEngine.parseIntOr0 (pl_followersCount other)).
    intros Hle.
    destruct (Z.gtb_spec f 1000), (Z.gtb_spec f 500), (Z.ltb_spec f 100),
      (Z.gtb_spec g 1000), (Z.gtb_spec g 500), (Z.ltb_spec g 100);
      try lia; destruct (50 <? b)%nat, (100 <? b)%nat; lia. }
  split; [|split].
  - unfold FilterEngine.calculateQualityScore.
    set (m := length (List.filter _ FilterEngine.sportsTerms)).
    set (b := String.length (JS.or_else (pl_bio lead) "")).
    set (f := FilterEngine.parseIntOr0 (pl_followersCount lead)).
    destruct (f >? 1000)%Z, (f >? 500)%Z, (f <? 100)%Z, (50 <? b)%nat, (100 <? b)%nat;
      lia.
  - exact Hmono.
  - intros more Hsmall Hmore Hle. apply Hmono; [reflexivity|].
    cbn [pl_followersCount]. now rewrite !parseIntOr0_small.
Qed.

(** Beyond that the score can fall: 999999 followers earn the bonus for
    more than a thousand, 10^21 followers are read as one. *)
Example quality_score_falls_at_1e21 :
  (fun n => FilterEngine.calculateQualityScore
              (mkPending 2 "alice" "NBA fan, love the odds" n false))
    <$> [999999; 10 ^ 21]%Z
  = [80; 50]%Z.
Proof. vm_compute. reflexivity. Qed.

(** * Properties of the demo scraper and of the worksheet set-up *)

Lemma filter_sublist_of {A} (f : A -> bool) l : List.filter f l `sublist_of` l.
Proof.
  induction l as [|x l IH]; cbn [List.filter]; [constructor|].
  destruct (f x); [now apply sublist_skip|now apply sublist_cons].
Qed.

Lemma map_each_tagged E keyword xs : forall w,
  exists ys w',
    MockLeadScraper.map_each
      (fun lead =>
         _ ← next_tick;
         _ ← random E;
         scrapedAt ← nowIso E;
         ret (mkScraped (MockLeadScraper.m_username lead)
                        (MockLeadScraper.m_profileUrl lead)
                        (MockLeadScraper.m_bio lead)
                        (MockLeadScraper.m_followersCount lead) keyword false scrapedAt))
      xs w = (Ok ys, w')
    /\ Forall2 (tagged keyword) xs ys
    /\ trace w' = trace w /\ leadsSheet w' = leadsSheet w.
Proof.
  induction xs as [|x xs IH]; intros w; cbn [MockLeadScraper.map_each].
  - exists [], w. repeat split. constructor.
  - unfold bind at 1.
    match goal with
    | |- context [match ?m w with _ => _ end] =>
        destruct (m w) as [[y|msg] w1] eqn:Hstep
    end;
      unfold bind, next_tick, random, nowIso, bind, next_tick, ret in Hstep;
      cbn [tick leadsSheet trace dailyCounters] in Hstep; [|discriminate Hstep].
    injection Hstep as <- <-.
    set (w1 := mkWorld _ _ _ _).
    destruct (IH w1) as (ys & w' & Hrun & Hall & Ht & Hs).
    unfold bind at 1. rewrite Hrun. eexists (_ :: ys), w'.
    split; [reflexivity|]. split; [|split; assumption].
    constructor; [|exact Hall]. repeat split.
Qed.

Lemma tagged_usernames keyword ms ls :
  Forall2 (tagged keyword) ms ls ->
  sl_username <$> ls = MockLeadScraper.m_username <$> ms.
Proof.
  induction 1 as [|m l ms ls (Hu & _) _ IH]; [reflexivity|].
  cbn [fmap list_fmap]. now rewrite Hu, IH.
Qed.

(** X27. The demo scraper. A mock scrape never throws; it returns at
    most [limit] leads, each one of the eight mock leads that match the
    keyword, tagged with the keyword and without a verification mark, no
    handle twice; it waits two seconds before and one second after, and
    does not touch the sheet. *)
Theorem mock_scrape_returns_matching_leads E keyword limit w :
  exists leads w',
    MockLeadScraper.scrapeByKeyword E keyword limit w = (Ok leads, w')
    /\ length leads <= limit
    /\ Forall (fun l => exists m,
                   In m MockLeadScraper.mockLeads
                   /\ MockLeadScraper.relevant (toLowerCase keyword) m = true
                   /\ tagged keyword m l) leads
    /\ NoDup (sl_username <$> leads)
    /\ newEvents w w' = [EvSleep 2000; EvSleep 1000]
    /\ leadsSheet w' = leadsSheet w.
Proof.
  unfold MockLeadScraper.scrapeByKeyword. cbv zeta.
  set (rel := List.filter (MockLeadScraper.relevant (toLowerCase keyword))
                          MockLeadScraper.mockLeads).
  set (results := take (Nat.min limit (length rel)) rel).
  unfold bind at 1. rewrite sleep_eq. set (w1 := mkWorld _ _ _ _).
  destruct (map_each_tagged E keyword results w1) as (ys & w2 & Hrun & Hall & Ht & Hs).
  unfold bind at 1. rewrite Hrun. unfold bind. rewrite sleep_eq. cbn [ret].
  eexists ys, _. split; [reflexivity|].
  assert (Hlen : length ys = length results) by (symmetry; exact (Forall2_length _ _ _ Hall)).
  assert (Hsub : results `sublist_of` MockLeadScraper.mockLeads).
  { transitivity rel; [apply sublist_take|apply filter_sublist_of]. }
  split; [|split; [|split; [|split]]].
  - rewrite Hlen. unfold results. rewrite length_take. lia.
  - eapply Forall2_Forall_r; [exact Hall|].
    apply Forall_forall. intros m Hm l Hl. exists m.
    assert (Hin : m ∈ rel) by (eapply elem_of_sublist; [exact Hm|apply sublist_take]).
    apply list_elem_of_In, List.filter_In in Hin as [Hin Hrel]. auto.
  - rewrite (tagged_usernames _ _ _ Hall).
    eapply sublist_NoDup; [|apply fmap_sublist; exact Hsub].
    apply (bool_decide_unpack _). vm_compute. exact I.
  - apply newEvents_app. cbn [trace]. rewrite Ht. subst w1. cbn [trace].
    now rewrite <- app_assoc.
  - cbn [leadsSheet]. rewrite Hs. reflexivity.
Qed.

(** Asked for two leads on the NBA, it returns the first two that match. *)
Example mock_scrape_example :
  (fun l => sl_username l)
    <$> match fst (MockLeadScraper.scrapeByKeyword Scenarios.calm "NBA" 2
                     Scenarios.emptyWorld) with
        | Ok leads => leads
        | Throw _ => []
        end
  = ["sports_fan_2024"; "nba_insider"].
Proof. vm_compute. reflexivity. Qed.

(** None of the configured keywords matches a mock lead: with the
    configuration as it is, the demo scraper finds nothing. *)
Example configured_keywords_find_no_mock_lead :
  Forall (fun keyword =>
            fst (MockLeadScraper.scrapeByKeyword Scenarios.calm keyword
                   Config.leadsPerKeyword Scenarios.emptyWorld) = Ok [])
         Config.keywords.
Proof. repeat constructor. Qed.

(** ** The columns of the worksheet *)

Lemma existsb_eqb_In h l : existsb (String.eqb h) l = true <-> In h l.
Proof.
  rewrite existsb_exists. split.
  - intros (x & Hin & Hx). apply String.eqb_eq in Hx. now subst x.
  - intros Hin. exists h. split; [exact Hin|apply String.eqb_refl].
Qed.

(** X28. Ensuring the worksheet. When [ensureLeadsWorksheet] returns,
    the header row it leaves holds every required column; the columns of
    an existing worksheet keep their places, and what is added after them
    are exactly the required columns that were missing, none of which was
    there before. *)
Theorem ensured_worksheet_has_every_column existing addSheet setHeaderRow headers :
  Worksheet.ensureLeadsWorksheet existing addSheet setHeaderRow = Ok headers ->
  (forall h, In h Worksheet.requiredHeaders -> In h headers)
  /\ (forall current,
        existing = Some (Ok current) ->
        exists added,
          headers = current ++ added
          /\ forall h, In h added <-> In h Worksheet.requiredHeaders /\ ~ In h current).
Proof.
  unfold Worksheet.ensureLeadsWorksheet.
  destruct existing as [[current|msg]|].
  - cbv zeta.
    set (missing := List.filter (fun h => negb (existsb (String.eqb h) current))
                                Worksheet.requiredHeaders).
    assert (Hmiss : forall h, In h missing
                              <-> In h Worksheet.requiredHeaders /\ ~ In h current).
    { intros h. unfold missing. split.
      - intros [Hin Hneg]%List.filter_In. split; [exact Hin|]. intros Hc.
        apply existsb_eqb_In in Hc. rewrite Hc in Hneg. discriminate.
      - intros [Hin Hnot]. apply List.filter_In. split; [exact Hin|].
        destruct (existsb (String.eqb h) current) eqn:Hex; [|reflexivity].
        apply existsb_eqb_In in Hex. contradiction. }
    assert (Hall : forall h, In h Worksheet.requiredHeaders -> In h (current ++ missing)).
    { intros h Hh. apply in_or_app.
      destruct (existsb (String.eqb h) current) eqn:Hex.
      - left. now apply existsb_eqb_In.
      - right. apply Hmiss. split; [exact Hh|].
        rewrite <- existsb_eqb_In, Hex. discriminate. }
    destruct (0 <? _)%nat eqn:Hpos.
    + destruct (setHeaderRow _); [discriminate|]. intros [= <-].
      split; [exact Hall|]. intros c [= <-]. exists missing. auto.
    + intros [= <-].
      assert (Hnil : missing = []).
      { apply Nat.ltb_ge in Hpos. destruct missing; [reflexivity|cbn in Hpos; lia]. }
      rewrite Hnil, app_nil_r in Hall. split; [exact Hall|].
      intros c [= <-]. exists []. rewrite app_nil_r. split; [reflexivity|].
      intros h. rewrite <- Hmiss, Hnil. reflexivity.
  - discriminate.
  - destruct addSheet; [discriminate|]. intros [= <-].
    split; [auto|]. intros c [=].
Qed.

Lemma ensured_worksheet_has_every_column_witness :
  (forall h, In h Worksheet.requiredHeaders ->
             In h (["Username"; "Notes"; "Bio"]
                     ++ List.filter (fun h => negb (existsb (String.eqb h)
                                                      ["Username"; "Notes"; "Bio"]))
                                    Worksheet.requiredHeaders))
  /\ (forall current,
        Some (Ok ["Username"; "Notes"; "Bio"]) = Some (Ok current) ->
        exists added,
          ["Username"; "Notes"; "Bio"]
            ++ List.filter (fun h => negb (existsb (String.eqb h)
                                             ["Username"; "Notes"; "Bio"]))
                           Worksheet.requiredHeaders
          = current ++ added
          /\ forall h, In h added <-> In h Worksheet.requiredHeaders /\ ~ In h current).
Proof.
  apply (ensured_worksheet_has_every_column (Some (Ok ["Username"; "Notes"; "Bio"]))
           None (fun _ => None)).
  reflexivity.
Defined.

(** * Phases end to end *)

Lemma getUnfilteredLeads_faithful E w :
  faithfulReads E ->
  getUnfilteredLeads E w =
  (Ok ((fun row => mkPending (rowNumber row) (colUsername row) (colBio row)
                             (colFollowerCount row)
                             (String.eqb (JS.toUpperCase (colVerified row)) "YES"))
         <$> filter (fun row => JS.toUpperCase (colFilterStatus row) = "PENDING")
                    (leadsSheet w)),
   mkWorld (leadsSheet w) (S (tick w)) (trace w ++ [EvGetRows]) (dailyCounters w)).
Proof.
  intros Hread.
  unfold getUnfilteredLeads, try_catch, bind, getRows, bind, next_tick, emit,
    get_sheet, lift_result.
  cbn [tick leadsSheet trace dailyCounters]. now rewrite Hread.
Qed.

Lemma lastVerdict_Some updates n :
  n ∈ upd_rowNumber <$> updates ->
  exists u, lastVerdict updates n = Some u /\ u ∈ updates.
Proof.
  induction updates as [|u rest IH]; cbn [fmap list_fmap lastVerdict].
  - intros H. now apply elem_of_nil in H.
  - intros H.
    destruct (lastVerdict rest n) as [u'|] eqn:Hrest.
    + destruct (decide (n ∈ upd_rowNumber <$> rest)) as [Hin|Hnot].
      * destruct (IH Hin) as (u0 & [= <-] & Hu0). exists u'. split; [reflexivity|now right].
      * rewrite (lastVerdict_None _ _ Hnot) in Hrest. discriminate.
    + apply elem_of_cons in H as [->|Hin].
      * rewrite decide_True by reflexivity. exists u. split; [reflexivity|left].
      * destruct (IH Hin) as (u0 & [=] & _).
Qed.

Lemma verdict_not_pending u :
  verdict u -> JS.toUpperCase (upd_status u) <> "PENDING".
Proof. intros [->|[->|[-> _]]]; discriminate. Qed.

(** X30. A filtering phase leaves no lead pending. When reads are
    faithful, the store accepts saves and line numbers are distinct, then
    after the filtering phase, whatever the filter answered or threw, no
    row's status is PENDING any more: a further read for unfiltered leads
    returns none. *)
Theorem filtering_leaves_no_lead_pending E sys w :
  faithfulReads E -> savesSucceed E -> distinctLines (leadsSheet w) ->
  fst (getUnfilteredLeads E (snd (filteringPhase E sys w))) = Ok [].
Proof.
  intros Hread Hok Hnd.
  set (P := fun row : Row => JS.toUpperCase (colFilterStatus row) = "PENDING").
  assert (Hdone : forall w3,
            (forall row, row ∈ leadsSheet w3 -> ~ P row) ->
            fst (getUnfilteredLeads E w3) = Ok []).
  { intros w3 Hnone. rewrite (getUnfilteredLeads_faithful E w3 Hread). cbn [fst].
    destruct (filter _ (leadsSheet w3)) as [|x xs] eqn:Hf; [reflexivity|].
    assert (Hx : x ∈ filter P (leadsSheet w3)) by (unfold P; rewrite Hf; left).
    apply list_elem_of_filter in Hx as [Hp Hin]. now destruct (Hnone x Hin). }
  apply Hdone.
  unfold filteringPhase, try_catch. unfold bind at 1.
  rewrite (getUnfilteredLeads_faithful E w Hread).
  set (w1 := mkWorld _ _ _ _).
  set (pending := filter _ (leadsSheet w)).
  fold P in pending.
  destruct (_ <$> pending) as [|p ps] eqn:Hpend.
  { cbn [snd ret leadsSheet]. intros row Hin Hp.
    assert (Hx : row ∈ pending) by (apply list_elem_of_filter; auto).
    apply fmap_nil_inv in Hpend. rewrite Hpend in Hx. now apply elem_of_nil in Hx. }
  rewrite <- Hpend. clear p ps Hpend.
  match goal with
  | |- context [collectUpdates E ?raw] =>
      destruct (collectUpdates_trace E raw w1)
        as (updates & w2 & d & Hrun & Hnum & Hall & _ & _ & Hs2)
  end.
  rewrite <- list_fmap_compose in Hnum.
  change (upd_rowNumber <$> updates = rowNumber <$> pending) in Hnum.
  destruct (batchUpdateLeadStatuses_goes_through E updates w2) as (w3 & d3 & Hb & Hs3 & _);
    [apply Hread|exact Hok|now rewrite Hs2|].
  assert (Hfinal : forall row, row ∈ leadsSheet w3 -> ~ P row).
  { intros row Hin. rewrite Hs3, Hs2 in Hin. subst w1. cbn [leadsSheet] in Hin.
    apply list_elem_of_fmap in Hin as (old & -> & Hold).
    unfold afterVerdicts.
    destruct (decide (P old)) as [Hp|Hp].
    - assert (Hn : rowNumber old ∈ upd_rowNumber <$> updates).
      { rewrite Hnum. apply list_elem_of_fmap. exists old. split; [reflexivity|].
        apply list_elem_of_filter. auto. }
      destruct (lastVerdict_Some _ _ Hn) as (u & -> & Hu).
      rewrite Forall_forall in Hall. unfold P. cbn [set_filter colFilterStatus].
      apply verdict_not_pending, Hall, Hu.
    - rewrite lastVerdict_None; [exact Hp|].
      rewrite Hnum. intros Hn. apply list_elem_of_fmap in Hn as (r' & Hr' & Hin').
      apply list_elem_of_filter in Hin' as [Hp' Hin'].
      pose proof (rowMapOf_lookup _ _ Hnd Hold) as L1.
      pose proof (rowMapOf_lookup _ _ Hnd Hin') as L2.
      rewrite Hr' in L1. rewrite L1 in L2. injection L2 as ->. contradiction. }
  unfold bind at 1. rewrite Hrun.
  destruct updates as [|u us].
  - cbn [snd ret]. intros row Hin. apply Hfinal. rewrite Hs3. 
    cbn [batchUpdateLeadStatuses ret] in Hb. injection Hb as <-.
    rewrite Hs3 in Hin. exact Hin.
  - rewrite Hb. exact Hfinal.
Qed.

Lemma filtering_leaves_no_lead_pending_witness :
  fst (getUnfilteredLeads Scenarios.calm
         (snd (filteringPhase Scenarios.calm (newSystem false) Scenarios.twoPending)))
  = Ok [].
Proof.
  apply (filtering_leaves_no_lead_pending Scenarios.calm (newSystem false)
           Scenarios.twoPending).
  - intros t rows. reflexivity.
  - intros t r. reflexivity.
  - unfold distinctLines. apply (bool_decide_unpack _). vm_compute. exact I.
Defined.

(** Before that phase both leads of the scenario are pending. *)
Example two_pending_before_filtering :
  (fun leads => pl_username <$> leads)
    (match fst (getUnfilteredLeads Scenarios.calm Scenarios.twoPending) with
     | Ok leads => leads
     | Throw _ => []
     end) = ["alice"; "bob"].
Proof. vm_compute. reflexivity. Qed.

(** * The test runner's kill switch *)

Lemma sibling_pauses_trace E n : forall w fuel,
  n < fuel ->
  (forall j, j < n -> statusOf (env_control E (tick w + 2 * j)) = "PAUSE") ->
  statusOf (env_control E (tick w + 2 * n)) <> "PAUSE" ->
  exists w',
    TestMain.checkKillSwitch E fuel w
    = (Ok (Some (String.eqb (statusOf (env_control E (tick w + 2 * n))) "STOP")), w')
    /\ trace w'
       = trace w ++ concat (replicate n [EvControlRead; EvSleep 60000])
                 ++ [EvControlRead].
Proof.
  induction n as [|n IH]; intros w fuel Hfuel Hpause Hlast;
    (destruct fuel as [|fuel]; [lia|]).
  - rewrite Nat.mul_0_r, Nat.add_0_r in *.
    cbn [TestMain.checkKillSwitch]. unfold bind. rewrite getKillSwitchStatus_eq.
    apply String.eqb_neq in Hlast. rewrite Hlast.
    destruct (String.eqb _ "STOP"); eexists; split; reflexivity.
  - rewrite sibling_pause_waits
      by (rewrite <- (Nat.add_0_r (tick w)); apply (Hpause 0); lia).
    set (w1 := mkWorld _ _ _ _).
    destruct (IH w1 fuel) as (w' & Hrun & Hev).
    + lia.
    + intros j Hj. subst w1. cbn [tick].
      replace (S (S (tick w)) + 2 * j) with (tick w + 2 * S j) by lia.
      apply Hpause. lia.
    + subst w1. cbn [tick].
      replace (S (S (tick w)) + 2 * n) with (tick w + 2 * S n) by lia. exact Hlast.
    + exists w'. split.
      * rewrite Hrun. subst w1. cbn [tick].
        replace (S (S (tick w)) + 2 * n) with (tick w + 2 * S n) by lia. reflexivity.
      * rewrite Hev. subst w1. cbn [trace replicate concat].
        now rewrite <- !app_assoc.
Qed.

(** X29. The test runner waits out a pause. While the control cell reads
    PAUSE, its check sleeps a minute and reads again; at the first other
    reading it returns, with [true] exactly when that reading is STOP. It
    has then read the cell once more than it has slept. *)
Theorem sibling_waits_out_pauses E n w fuel :
  n < fuel ->
  (forall j, j < n -> statusOf (env_control E (tick w + 2 * j)) = "PAUSE") ->
  statusOf (env_control E (tick w + 2 * n)) <> "PAUSE" ->
  exists w',
    TestMain.checkKillSwitch E fuel w
    = (Ok (Some (String.eqb (statusOf (env_control E (tick w + 2 * n))) "STOP")), w')
    /\ newEvents w w'
       = concat (replicate n [EvControlRead; EvSleep 60000]) ++ [EvControlRead].
Proof.
  intros Hfuel Hpause Hlast.
  destruct (sibling_pauses_trace E n w fuel Hfuel Hpause Hlast) as (w' & Hrun & Ht).
  exists w'. split; [exact Hrun|]. now apply newEvents_app.
Qed.

Lemma sibling_waits_out_pauses_witness :
  exists w',
    TestMain.checkKillSwitch Scenarios.pausedThenRun 5 Scenarios.emptyWorld
    = (Ok (Some (String.eqb
                   (statusOf (env_control Scenarios.pausedThenRun
                                          (tick Scenarios.emptyWorld + 2 * 1)))
                   "STOP")), w')
    /\ newEvents Scenarios.emptyWorld w'
       = concat (replicate 1 [EvControlRead; EvSleep 60000]) ++ [EvControlRead].
Proof.
  apply (sibling_waits_out_pauses Scenarios.pausedThenRun 1 Scenarios.emptyWorld 5).
  - lia.
  - intros j Hj. destruct j as [|j]; [reflexivity|lia].
  - vm_compute. discriminate.
Defined.
